(* ===== verification/_CoqProject ===== *)
-Q . S2P
Prelude.v
JsString.v
Calendar.v
Dates.v
JsNumber.v
SafeInt.v
Payments.v
Storage.v
App.v
Render.v
