(* ===== verification/Prelude.v ===== *)
(** * Loan payment tracker: a verification development of [src/www/app.js]

    The program is one browser script, [src/www/app.js], an immediately
    invoked function that keeps a list of payment records
    [{id, amount, date}] in the closure variable [payments], mirrors it to
    [localStorage] under the key ['loan-payment-tracker'], and re-renders a
    summary (total paid, number of payments) and a list after each change.
    Its parts and how they interact:

    - date handling ([parseLocalDate], [toYMD], [formatDate],
      [formatDisplayDate], [syncDateToDisplay] and the date branch of the
      two form submit handlers): a user-typed or date-picker string is split
      on [-] or [/], read with [parseInt], turned into a [Date] by the
      ECMAScript [new Date(y, m - 1, d)] constructor, and written back as
      ["YYYY-MM-DD"] (storage) or ["DD/MM/YYYY"] (display);
    - the payment store ([nextId], [addPayment], [updatePayment],
      [deletePayment], [clearAll], [getTotals]): operations on the list
      [payments], each followed by [save()] and [render()];
    - persistence ([load], [save]): JSON text in one storage slot;
    - the user interface (sheets, dropdown, confirmation modal, form
      handlers): events that call the store operations.

    The development models the JavaScript built-ins the code relies on from
    the ECMAScript specification, because the behaviour of the program is
    the behaviour of those built-ins on its inputs.  Files, in dependency
    order:

    - [Prelude] (this file): the development's scope [js_scope] (the
      notation [a or_else b] for [a || b] on strings), its tactics
      ([lia_div], [case_ifs], [zbool_to_prop]), the hint database [jsdb]
      and the generic lemmas on strings, lists and options the components
      share.
    - [JsString], Module [StrBuiltins]: [String.prototype.trim],
      [slice(0, n)], [split(/[-/]/)], [padStart(2, '0')], [parseInt(s, 10)],
      the regular expression [/^\d{4}-\d{2}-\d{2}$/] and [Number::toString]
      on integers, on [Stdlib] strings read as code units 0..255.
      [nat_digits] recurses on a fuel of [1 + log2 n] steps, proved enough
      for every [n]: more fuel gives the same digits ([int_to_string_fuel]).
    - [Calendar], Module [EcmaDate]: the date arithmetic behind
      [new Date(y, m, d)], [getFullYear], [getMonth], [getDate]
      (DayFromYear, YearFromTime, MonthFromTime, DateFromTime, MakeDay,
      TimeClip) on day numbers [Z].  Theorems: the executable
      [year_from_day] is the greatest year whose first day is not after the
      given day (the specification's definition); every day decodes to a
      valid calendar date; [make_day] and the decoder are inverse
      bijections between valid calendar dates and day numbers; out-of-range
      months and days roll over.
    - [Dates], Module [DateUtil]: [parseLocalDate], [toYMD], [getTodayYMD],
      [formatDate], [formatDisplayDate], [syncDateToDisplay] and the date
      branch of the form handlers.  Theorems: round trips between canonical
      strings and dates for years 1000..9999, the examples of the
      specification, the unreachable regular-expression fallback, and, for
      all inputs of their shape, the dates the code accepts although the
      specification says they fail: every impossible [YYYY-MM-DD] with
      fields 1..99 is stored as the valid date it rolls over to, and every
      year field 0..99, even written with four digits, is read as
      1900..1999.
    - [JsNumber], Module [JsNum]: JavaScript numbers as IEEE binary64
      ([SpecFloat] at precision 53, [emax] 1024): [Number(string)] with
      correct rounding, [x || 0], [Number.isFinite], [Math.max], [+],
      [===] and [Number::toString] (the shortest digits that read back,
      searched from 1 to 17 digits).
    - [SafeInt], Module [SafeInt]: the safe integers (magnitude below
      [2^53]) among binary64 numbers.  On [SpecFloat]'s own definitions:
      [of_Z n] is the canonical float [canon n]; [+] of safe integers with
      a safe sum is exact; [===] and [<] compare them as integers;
      [Math.max] is their maximum; [Number.isFinite] and [|| 0] keep them.
    - [Payments], Module [Store]: the record [{id, amount, date}] and the
      list operations [nextId], [addPayment], [updatePayment] (the in-place
      update of the record [find] returns, [None] for the early return),
      [deletePayment], [clearAll], [getTotals].  Theorems: update and delete
      on every branch (present, absent, exactly one match), ids kept by
      update, the totals after an addition, the specification's scenario,
      fresh increasing ids and exact totals on safe integers, and the
      bound they need: once an id is [2^53], [nextId] returns it again.
    - [Storage], Module [Persist]: [JSON.stringify] of the payment list,
      [JSON.parse] of any JSON text, a string with a [\u] escape above
      [00ff] read as [JWide] (fuel: the length of the text bounds the
      nesting depth and the number of elements, proved enough for what
      [save] writes), [load] and [save] on the slot [option string].  The
      class [StoragePort] is the interface the page uses (reading the slot,
      writing a collection that may fail), with its laws
      [StoragePortLaws]; [local_storage fits] is [localStorage] where
      [fits] says whether [setItem] accepts a text, and discharges the
      laws.  Theorems: [load] after [save] gives the list back when its
      numbers read back, and, whenever some id or amount is [NaN] or
      infinite, it is written as [null] and the list is not restored.
    - [App], Module [App]: the page state (the list, the slot, the open
      overlays, the confirmation callback, the form inputs, what [render]
      wrote), one constructor of [event] per listener and the function
      [handle] that runs it, the start-up [init] ([load] then [render]),
      and the states [reachable] from start-up.  The handlers are defined
      for any [StoragePort]; the invariants are proved by induction on
      [reachable]: the page always shows [getTotals] of the list, the
      confirmation modal is open exactly when it holds a callback, and over
      a reliable port the slot always reloads as the list.  Also: ids leave
      the list only through the confirmation's OK button, cancelling
      disarms it, and the flows of the add form, the edit form, a card's
      delete button and [Delete all], the specification's scenario through
      the listeners, and that a fixed sequence of clicks dismisses every
      overlay from any state.  Over any run, ids stay distinct integers
      (the bound grows by one per add-form submit, below [2^53 - 1]), and
      submitting the edit sheet as it was opened changes no record; a
      canonical date picked in the add form is displayed as DD/MM/YYYY and
      stored as picked.
    - [Render], Module [Render]: the markup [render] writes into
      [#paymentList] (lines 213-234): the card template literal with its
      two SVG icons ([card_html]), [map(...).join('')] ([cards_html]) and
      the "No payments yet" item ([list_html]); and a reader of that markup
      ([read_list]) that returns the [data-id] values and span texts the
      DOM exposes, for markup without character references.  Theorems: the
      markup of a list reads back as the cards of [render_view], numbered
      from 1 (the index [i + 1] is a binary64 sum, exact by [SafeInt]
      below [2^53] records), when no date holds [<], [&] or a double
      quote; every date the forms store is digits and dashes, so along
      every run from such a slot the markup carries exactly the cards the
      listeners of [App] read.  A stored date is inserted unescaped, so
      one holding [<] (possible only in a slot written outside the app)
      is markup, outside what the reader models.

    Not modelled: the DOM lookups ([$], [$$], [el]), and the browser's
    HTML parser beyond the card layout [render] writes (the reader refuses
    any other markup, character references included); the
    [aria-hidden] attributes, which always mirror the [is-open] class;
    [focus()] and [showPicker()]; a stored value that is not a list of
    records at start-up (the page state holds a typed list), among them a
    slot whose JSON strings hold a code unit above [00ff] (parsed, as by
    [JSON.parse], but as [JWide] without its text).  The document
    click listener is its own event, so the model's runs include every
    order the browser dispatches.

    Assumptions of the whole model: the host time zone is UTC (local
    midnight is UTC midnight, so a [Date] value is a whole number of days);
    strings contain code units 0..255 only. *)

From Stdlib Require Import ZArith String Ascii List Bool Lia.
Import ListNotations.

(** ** The development's scope *)

Declare Scope js_scope.
Delimit Scope js_scope with js.

(** JavaScript [a || b] on two strings: [a] when it is truthy (non-empty),
    [b] otherwise. *)
Definition str_or (a b : string) : string :=
  if String.eqb a "" then b else a.

Notation "a 'or_else' b" := (str_or a b) (at level 40, left associativity) : js_scope.

(** ** Tactics *)

(** Linear integer arithmetic through floor division and modulo by
    constants. *)
Ltac lia_div := Z.div_mod_to_equations; lia.

(** Case analysis on every boolean test of the goal, keeping equations. *)
Ltac case_ifs :=
  repeat match goal with
         | |- context [if ?b then _ else _] =>
             lazymatch b with
             | true => fail
             | false => fail
             | _ => destruct b eqn:?
             end
         end.

(** Turn the boolean comparisons on [Z] in the hypotheses into propositions. *)
Ltac zbool_to_prop :=
  repeat match goal with
         | H : (_ =? _)%Z = true |- _ => apply Z.eqb_eq in H
         | H : (_ =? _)%Z = false |- _ => apply Z.eqb_neq in H
         | H : (_ <? _)%Z = true |- _ => apply Z.ltb_lt in H
         | H : (_ <? _)%Z = false |- _ => apply Z.ltb_ge in H
         | H : (_ <=? _)%Z = true |- _ => apply Z.leb_le in H
         | H : (_ <=? _)%Z = false |- _ => apply Z.leb_gt in H
         end.

Create HintDb jsdb discriminated.
Create Rewrite HintDb jsdb.

(** ** Generic lemmas *)

Lemma str_or_nonempty (a b : string) : a <> ""%string -> str_or a b = a.
Proof.
  intros H. unfold str_or. destruct (String.eqb_spec a ""); congruence.
Qed.

Lemma str_or_empty (b : string) : str_or "" b = b.
Proof. reflexivity. Qed.

Lemma string_app_assoc (a b c : string) :
  ((a ++ b) ++ c)%string = (a ++ (b ++ c))%string.
Proof. induction a as [|x a IH]; simpl; [reflexivity | now rewrite IH]. Qed.

Lemma string_app_empty_r (a : string) : (a ++ "")%string = a.
Proof. induction a as [|x a IH]; simpl; [reflexivity | now rewrite IH]. Qed.

Lemma string_length_app (a b : string) :
  String.length (a ++ b) = String.length a + String.length b.
Proof. induction a as [|x a IH]; simpl; auto. Qed.

Lemma substring_0_app (a b : string) (n : nat) :
  n = String.length a -> substring 0 n (a ++ b) = a.
Proof.
  intros ->. induction a as [|x a IH]; simpl.
  - destruct b; reflexivity.
  - now rewrite IH.
Qed.

Lemma substring_0_all (s : string) (n : nat) :
  String.length s <= n -> substring 0 n s = s.
Proof.
  revert n. induction s as [|x s IH]; intros n Hn; simpl.
  - destruct n; reflexivity.
  - destruct n as [|n]; simpl in Hn; [lia|]. rewrite IH by lia. reflexivity.
Qed.

Lemma length_substring_0 (s : string) (n : nat) :
  String.length (substring 0 n s) = Nat.min n (String.length s).
Proof.
  revert n. induction s as [|x s IH]; intros n; destruct n; simpl; auto.
Qed.

Lemma fold_left_snoc {A B} (f : A -> B -> A) (l : list B) (x : B) (a : A) :
  fold_left f (l ++ [x]) a = f (fold_left f l a) x.
Proof. now rewrite fold_left_app. Qed.

Lemma option_map_some {A B} (f : A -> B) (o : option A) (b : B) :
  option_map f o = Some b -> exists a, o = Some a /\ f a = b.
Proof. destruct o; simpl; intros H; inversion H; eauto. Qed.

(** Decided list predicates: a [forallb] or [existsb] that evaluates to
    [true] establishes the [Forall] or [Exists] of the same test. *)
Lemma Forall_false_of_forallb {A} (f : A -> bool) (l : list A) :
  forallb (fun x => negb (f x)) l = true -> Forall (fun x => f x = false) l.
Proof.
  induction l as [|x l IH]; simpl; intros H; constructor.
  - apply andb_prop in H as [H _]. now destruct (f x).
  - apply andb_prop in H as [_ H]. now apply IH.
Qed.

Lemma Exists_of_existsb {A} (f : A -> bool) (l : list A) :
  existsb f l = true -> Exists (fun x => f x = true) l.
Proof. intros H. apply Exists_exists, existsb_exists, H. Qed.

(** The maximum of a list by [fold_left Z.max] bounds every element and is
    one of them. *)
Lemma fold_left_max_init (ns : list Z) (n : Z) : (n <= fold_left Z.max ns n)%Z.
Proof.
  revert n. induction ns as [|m ns IH]; intros n; simpl; [lia|].
  transitivity (Z.max n m); [lia | apply IH].
Qed.

Lemma fold_left_max_ge (ns : list Z) (n x : Z) :
  In x (n :: ns) -> (x <= fold_left Z.max ns n)%Z.
Proof.
  revert n. induction ns as [|m ns IH]; intros n Hx; simpl in *; [destruct Hx; lia|].
  pose proof (fold_left_max_init ns (Z.max n m)).
  destruct Hx as [E|[E|Hx]]; [lia | lia | apply IH; now right].
Qed.

Lemma fold_left_max_in (ns : list Z) (n : Z) : In (fold_left Z.max ns n) (n :: ns).
Proof.
  revert n. induction ns as [|m ns IH]; intros n; simpl; [now left|].
  destruct (IH (Z.max n m)) as [E|E]; rewrite <- ?E.
  - destruct (Z.max_spec n m) as [[_ ->]|[_ ->]]; auto.
  - auto.
Qed.

#[export] Hint Rewrite string_app_assoc string_app_empty_r string_length_app : jsdb.
#[export] Hint Resolve str_or_nonempty substring_0_all : jsdb.
