(* ===== verification/JsString.v ===== *)
(** * JavaScript string built-ins used by [src/www/app.js]

    [String.prototype.trim] (lines 63, 291, 292, 331, 332), [slice(0, n)]
    (lines 63, 134, 186, 196, 298, 337), [split(/[-/]/)] (line 64),
    [parseInt(s, 10)] (lines 66-68), [padStart(2, '0')] (lines 90-91), the
    regular expression [/^\d{4}-\d{2}-\d{2}$/] (lines 298, 337) and
    [Number::toString] on the integers that [toYMD] concatenates (line 92),
    each from its ECMA-262 algorithm.  A string is a [Stdlib] string whose
    characters are read as UTF-16 code units 0..255.  The lemmas at the end
    are the facts about canonical date strings that [Dates] composes. *)

From Stdlib Require Import ZArith String Ascii List Bool Lia.
From S2P Require Import Prelude.
Import ListNotations.

Module StrBuiltins.

(** ** Character classes *)

(** WhiteSpace or LineTerminator (ECMA-262 12.2, 12.3) among code units
    0..255: TAB, LF, VT, FF, CR, SPACE and NO-BREAK SPACE. *)
Definition is_ws (c : ascii) : bool :=
  let n := nat_of_ascii c in
  (n =? 9) || (n =? 10) || (n =? 11) || (n =? 12) || (n =? 13)
  || (n =? 32) || (n =? 160).

(** A decimal digit, [\d] and the radix-10 digits of [parseInt]. *)
Definition is_digit (c : ascii) : bool :=
  (48 <=? nat_of_ascii c) && (nat_of_ascii c <=? 57).

(** The class [[-/]] of the separator regular expression of line 64. *)
Definition is_date_sep (c : ascii) : bool :=
  Ascii.eqb c "-" || Ascii.eqb c "/".

Fixpoint str_forall (p : ascii -> bool) (s : string) : bool :=
  match s with
  | EmptyString => true
  | String c r => p c && str_forall p r
  end.

(** ** [trim] and [slice] *)

Fixpoint trim_start (s : string) : string :=
  match s with
  | EmptyString => EmptyString
  | String c r => if is_ws c then trim_start r else s
  end.

Fixpoint trim_end (s : string) : string :=
  match s with
  | EmptyString => EmptyString
  | String c r =>
      let r' := trim_end r in
      if is_ws c && String.eqb r' "" then EmptyString else String c r'
  end.

(** [String.prototype.trim]: TrimString(S, start+end). *)
Definition trim (s : string) : string := trim_end (trim_start s).

(** [s.slice(0, n)] for [n >= 0]: the first [min n (length s)] code units. *)
Definition slice0 (n : nat) (s : string) : string := substring 0 n s.

(** ** [split(/[-/]/)] *)

(** The pieces between separators, empty pieces included; the empty string
    splits into one empty piece (the regular expression does not match the
    empty string). *)
Fixpoint split_date (s : string) : list string :=
  match s with
  | EmptyString => [EmptyString]
  | String c r =>
      let parts := split_date r in
      if is_date_sep c then EmptyString :: parts
      else match parts with
           | p :: ps => String c p :: ps
           | [] => [String c EmptyString]
           end
  end.

(** ** [parseInt(s, 10)] *)

Definition digit_val (c : ascii) : Z := (Z.of_nat (nat_of_ascii c) - 48)%Z.

Fixpoint digits_prefix (s : string) : string :=
  match s with
  | EmptyString => EmptyString
  | String c r => if is_digit c then String c (digits_prefix r) else EmptyString
  end.

Fixpoint dec_value_acc (s : string) (acc : Z) : Z :=
  match s with
  | EmptyString => acc
  | String c r => dec_value_acc r (10 * acc + digit_val c)%Z
  end.

Definition dec_value (s : string) : Z := dec_value_acc s 0.

(** ECMA-262 [parseInt(string, 10)]: skip leading white space, read an
    optional sign, then the longest prefix of decimal digits; [None] is
    [NaN] (no digit).  The sign of zero is dropped: [-0] and [+0] are the
    same argument to the [Date] constructor, the only consumer. *)
Definition parse_int10 (s : string) : option Z :=
  let s1 := trim_start s in
  let '(sign, s2) :=
    match s1 with
    | String c r =>
        if Ascii.eqb c "-" then ((-1)%Z, r)
        else if Ascii.eqb c "+" then (1%Z, r) else (1%Z, s1)
    | EmptyString => (1%Z, s1)
    end in
  let z := digits_prefix s2 in
  if String.eqb z "" then None else Some (sign * dec_value z)%Z.

(** ** [padStart] *)

Fixpoint repeat_char (n : nat) (c : ascii) : string :=
  match n with
  | O => EmptyString
  | S k => String c (repeat_char k c)
  end.

(** [s.padStart(n, c)] with a one-character filler. *)
Definition pad_start (n : nat) (c : ascii) (s : string) : string :=
  (repeat_char (n - String.length s) c ++ s)%string.

(** ** [Number::toString] on integers *)

Definition digit_char (d : Z) : ascii := ascii_of_nat (Z.to_nat d + 48).

(** The decimal digits of [n >= 0] in front of [acc]; [fuel] bounds the
    number of digits. *)
Fixpoint nat_digits (fuel : nat) (n : Z) (acc : string) : string :=
  match fuel with
  | O => acc
  | S f =>
      let acc' := String (digit_char (n mod 10)) acc in
      if (n <? 10)%Z then acc' else nat_digits f (n / 10) acc'
  end.

Definition digits_fuel (n : Z) : nat := S (Z.to_nat (Z.log2 n)).

(** [Number::toString(x)] for an integer [x] with [|x| < 10^21]: the
    decimal digits, after a minus sign when [x < 0]. *)
Definition int_to_string (z : Z) : string :=
  if (z <? 0)%Z then String "-" (nat_digits (digits_fuel (- z)) (- z) "")
  else nat_digits (digits_fuel z) z "".

(** ** [/^\d{4}-\d{2}-\d{2}$/.test(s)] *)

Definition ymd_shape (s : string) : bool :=
  match list_ascii_of_string s with
  | [y1; y2; y3; y4; s1; m1; m2; s2; d1; d2] =>
      is_digit y1 && is_digit y2 && is_digit y3 && is_digit y4
      && Ascii.eqb s1 "-" && is_digit m1 && is_digit m2
      && Ascii.eqb s2 "-" && is_digit d1 && is_digit d2
  | _ => false
  end.

(** ** Lemmas *)

Lemma str_forall_app (p : ascii -> bool) (a b : string) :
  str_forall p (a ++ b) = str_forall p a && str_forall p b.
Proof.
  induction a as [|c a IH]; simpl; [reflexivity|]. now rewrite IH, andb_assoc.
Qed.

Lemma digit_not_ws (c : ascii) : is_digit c = true -> is_ws c = false.
Proof.
  unfold is_digit, is_ws. remember (nat_of_ascii c) as n. intros H.
  apply andb_prop in H as [H1 H2]. apply Nat.leb_le in H1, H2.
  repeat (apply orb_false_intro); apply Nat.eqb_neq; lia.
Qed.

Lemma digit_not_sep (c : ascii) : is_digit c = true -> is_date_sep c = false.
Proof.
  unfold is_digit, is_date_sep. intros H.
  apply andb_prop in H as [H1 H2]. apply Nat.leb_le in H1, H2.
  destruct (Ascii.eqb_spec c "-") as [->|_]; [vm_compute in H1; lia|].
  destruct (Ascii.eqb_spec c "/") as [->|_]; [vm_compute in H1; lia|].
  reflexivity.
Qed.

Lemma trim_start_id (s : string) :
  str_forall (fun c => negb (is_ws c)) s = true -> trim_start s = s.
Proof.
  destruct s as [|c r]; simpl; [reflexivity|].
  intros H. apply andb_prop in H as [H _]. now destruct (is_ws c).
Qed.

Lemma trim_end_id (s : string) :
  str_forall (fun c => negb (is_ws c)) s = true -> trim_end s = s.
Proof.
  induction s as [|c r IH]; simpl; [reflexivity|].
  intros H. apply andb_prop in H as [Hc Hr]. rewrite IH by exact Hr.
  now destruct (is_ws c).
Qed.

Lemma digits_no_ws (s : string) :
  str_forall is_digit s = true -> str_forall (fun c => negb (is_ws c)) s = true.
Proof.
  induction s as [|c r IH]; simpl; [reflexivity|].
  intros H. apply andb_prop in H as [Hc Hr]. now rewrite digit_not_ws, IH.
Qed.

Lemma trim_id (s : string) :
  str_forall (fun c => negb (is_ws c)) s = true -> trim s = s.
Proof. intros H. unfold trim. rewrite trim_start_id, trim_end_id; auto. Qed.

Lemma split_date_no_sep (s : string) :
  str_forall (fun c => negb (is_date_sep c)) s = true -> split_date s = [s].
Proof.
  induction s as [|c r IH]; simpl; [reflexivity|].
  intros H. apply andb_prop in H as [Hc Hr]. rewrite IH by exact Hr.
  now destruct (is_date_sep c).
Qed.

Lemma split_date_app_sep (a b : string) (sep : ascii) :
  str_forall (fun c => negb (is_date_sep c)) a = true ->
  is_date_sep sep = true ->
  split_date (a ++ String sep b) = a :: split_date b.
Proof.
  induction a as [|c r IH]; simpl; intros Ha Hsep.
  - now rewrite Hsep.
  - apply andb_prop in Ha as [Hc Hr]. rewrite IH by assumption.
    now destruct (is_date_sep c).
Qed.

Lemma digits_prefix_id (s : string) :
  str_forall is_digit s = true -> digits_prefix s = s.
Proof.
  induction s as [|c r IH]; simpl; [reflexivity|].
  intros H. apply andb_prop in H as [Hc Hr]. now rewrite Hc, IH.
Qed.

Lemma dec_value_acc_app (a b : string) (acc : Z) :
  dec_value_acc (a ++ b) acc = dec_value_acc b (dec_value_acc a acc).
Proof. revert acc. induction a as [|c r IH]; intros acc; simpl; auto. Qed.

(** [parseInt] reads back a non-empty string of digits as its value. *)
Lemma parse_int10_digits (s : string) :
  s <> EmptyString -> str_forall is_digit s = true ->
  parse_int10 s = Some (dec_value s).
Proof.
  intros Hne Hd. destruct s as [|c r]; [congruence|].
  unfold parse_int10. simpl in Hd |- *. apply andb_prop in Hd as [Hc Hr].
  rewrite (digit_not_ws c Hc).
  assert (Hm : Ascii.eqb c "-" = false).
  { destruct (Ascii.eqb_spec c "-"); subst; [discriminate | reflexivity]. }
  assert (Hp : Ascii.eqb c "+" = false).
  { destruct (Ascii.eqb_spec c "+"); subst; [discriminate | reflexivity]. }
  rewrite Hm, Hp. simpl. rewrite Hc, digits_prefix_id by exact Hr.
  simpl. f_equal. now destruct (dec_value (String c r)).
Qed.

Lemma digit_val_char (d : Z) : (0 <= d <= 9)%Z -> digit_val (digit_char d) = d.
Proof.
  intros H. unfold digit_val, digit_char.
  rewrite nat_ascii_embedding by lia. lia.
Qed.

Lemma digit_char_is_digit (d : Z) : (0 <= d <= 9)%Z -> is_digit (digit_char d) = true.
Proof.
  intros H. unfold is_digit, digit_char. rewrite nat_ascii_embedding by lia.
  apply andb_true_intro; split; apply Nat.leb_le; lia.
Qed.

Lemma nat_digits_app (f : nat) (n : Z) (acc : string) :
  nat_digits f n acc = (nat_digits f n "" ++ acc)%string.
Proof.
  revert n acc. induction f as [|f IH]; intros n acc; simpl; [reflexivity|].
  destruct (n <? 10)%Z; [reflexivity|].
  rewrite IH, (IH _ (String _ "")). now rewrite string_app_assoc.
Qed.

(** Decimal digits with enough fuel: their value, their class and their
    number. *)
Lemma nat_digits_spec (f : nat) (n : Z) (k : nat) :
  (0 <= n)%Z -> (10 ^ Z.of_nat k <= Z.max n 1 < 10 ^ Z.of_nat (S k))%Z ->
  (k < f)%nat ->
  dec_value (nat_digits f n "") = n
  /\ str_forall is_digit (nat_digits f n "") = true
  /\ String.length (nat_digits f n "") = S k.
Proof.
  revert n k. induction f as [|f IH]; intros n k Hn Hk Hf; [lia|].
  simpl. destruct (Z.ltb_spec n 10) as [Hlt|Hge].
  - assert (k = 0%nat).
    { destruct k; [reflexivity|].
      rewrite Nat2Z.inj_succ, Z.pow_succ_r in Hk by lia.
      assert (0 < 10 ^ Z.of_nat k)%Z by (apply Z.pow_pos_nonneg; lia). lia. }
    subst k. unfold dec_value. simpl.
    rewrite Z.mod_small by lia. rewrite digit_val_char, digit_char_is_digit by lia.
    auto.
  - destruct k as [|k].
    { simpl in Hk. lia. }
    assert (Hq : (10 ^ Z.of_nat k <= Z.max (n / 10) 1 < 10 ^ Z.of_nat (S k))%Z).
    { rewrite !Nat2Z.inj_succ, !Z.pow_succ_r in Hk by lia.
      rewrite Nat2Z.inj_succ, Z.pow_succ_r by lia.
      assert (0 < 10 ^ Z.of_nat k)%Z by (apply Z.pow_pos_nonneg; lia).
      split; lia_div. }
    destruct (IH (n / 10)%Z k) as (Hv & Hd & Hl); [lia_div | exact Hq | lia |].
    rewrite nat_digits_app. unfold dec_value in *.
    rewrite dec_value_acc_app, Hv, str_forall_app, Hd, string_length_app, Hl.
    cbn [dec_value_acc str_forall String.length].
    rewrite digit_val_char, digit_char_is_digit by lia_div.
    repeat split; [lia_div | lia].
Qed.

Lemma decimal_magnitude (fuel : nat) (m : Z) :
  (1 <= m < 10 ^ Z.of_nat fuel)%Z ->
  exists k, (10 ^ Z.of_nat k <= m < 10 ^ Z.of_nat (S k))%Z /\ (k < fuel)%nat.
Proof.
  induction fuel as [|f IH]; intros Hm; [simpl in Hm; lia|].
  destruct (Z.ltb_spec m (10 ^ Z.of_nat f)) as [Hlt|Hge].
  - destruct IH as (k & Hk & Hkf); [lia|]. exists k. split; [exact Hk | lia].
  - exists f. split; [lia | lia].
Qed.

Lemma digits_count (n : Z) :
  (0 <= n)%Z ->
  exists k, (10 ^ Z.of_nat k <= Z.max n 1 < 10 ^ Z.of_nat (S k))%Z
            /\ (k < digits_fuel n)%nat.
Proof.
  intros Hn. apply decimal_magnitude. unfold digits_fuel.
  rewrite Nat2Z.inj_succ, Z2Nat.id by apply Z.log2_nonneg.
  assert (H2 : (Z.max n 1 < 2 ^ Z.succ (Z.log2 (Z.max n 1)))%Z)
    by (apply Z.log2_spec; lia).
  assert (H3 : (2 ^ Z.succ (Z.log2 n) <= 10 ^ Z.succ (Z.log2 n))%Z).
  { apply Z.pow_le_mono_l. pose proof (Z.log2_nonneg n). lia. }
  destruct (Z.leb_spec n 1).
  - assert (E : Z.max n 1 = 1%Z) by lia. rewrite E.
    pose proof (Z.log2_nonneg n).
    assert (2 ^ 1 <= 2 ^ Z.succ (Z.log2 n))%Z by (apply Z.pow_le_mono_r; lia).
    change (2 ^ 1)%Z with 2%Z in *. lia.
  - assert (E : Z.max n 1 = n) by lia. rewrite E in *. lia.
Qed.

Lemma decimal_magnitude_unique (m : Z) (k j : nat) :
  (10 ^ Z.of_nat k <= m < 10 ^ Z.of_nat (S k))%Z ->
  (10 ^ Z.of_nat j <= m < 10 ^ Z.of_nat (S j))%Z -> k = j.
Proof.
  intros Hk Hj.
  destruct (Nat.lt_trichotomy k j) as [Hlt|[Heq|Hgt]]; [|exact Heq|].
  - assert (10 ^ Z.of_nat (S k) <= 10 ^ Z.of_nat j)%Z
      by (apply Z.pow_le_mono_r; lia). lia.
  - assert (10 ^ Z.of_nat (S j) <= 10 ^ Z.of_nat k)%Z
      by (apply Z.pow_le_mono_r; lia). lia.
Qed.

(** [Number::toString] of a non-negative integer with [S k] decimal digits
    is a string of [S k] digits whose value is the integer. *)
Lemma int_to_string_nonneg (n : Z) (k : nat) :
  (0 <= n)%Z -> (10 ^ Z.of_nat k <= Z.max n 1 < 10 ^ Z.of_nat (S k))%Z ->
  dec_value (int_to_string n) = n
  /\ str_forall is_digit (int_to_string n) = true
  /\ String.length (int_to_string n) = S k.
Proof.
  intros Hn Hk. unfold int_to_string.
  destruct (Z.ltb_spec n 0) as [|_]; [lia|].
  destruct (digits_count n Hn) as (j & Hj & Hjf).
  rewrite (decimal_magnitude_unique _ _ _ Hk Hj).
  now apply nat_digits_spec.
Qed.

(** [String(n).padStart(2, '0')] for a month or day [1 <= n <= 99]. *)
Lemma pad2_spec (n : Z) :
  (1 <= n <= 99)%Z ->
  dec_value (pad_start 2 "0" (int_to_string n)) = n
  /\ str_forall is_digit (pad_start 2 "0" (int_to_string n)) = true
  /\ String.length (pad_start 2 "0" (int_to_string n)) = 2.
Proof.
  intros Hn. unfold pad_start.
  destruct (Z.leb_spec n 9).
  - destruct (int_to_string_nonneg n 0) as (Hv & Hd & Hl); [lia | simpl; lia |].
    rewrite Hl. simpl. change (dec_value (String "0" (int_to_string n))) with (dec_value (int_to_string n)).
    rewrite Hv, Hd, Hl. auto.
  - destruct (int_to_string_nonneg n 1) as (Hv & Hd & Hl); [lia | simpl; lia |].
    rewrite Hl. simpl. auto.
Qed.

Lemma int_to_string_year (y : Z) :
  (1000 <= y <= 9999)%Z ->
  dec_value (int_to_string y) = y
  /\ str_forall is_digit (int_to_string y) = true
  /\ String.length (int_to_string y) = 4.
Proof. intros Hy. apply int_to_string_nonneg; simpl; lia. Qed.

Lemma trim_end_app_nows (p r : string) :
  str_forall (fun c => negb (is_ws c)) p = true ->
  trim_end (p ++ r) = (p ++ trim_end r)%string.
Proof.
  induction p as [|c p IH]; simpl; [reflexivity|].
  intros H. apply andb_prop in H as [Hc Hp]. rewrite IH by exact Hp.
  now destruct (is_ws c).
Qed.

Lemma trim_app_nows (p r : string) :
  p <> EmptyString -> str_forall (fun c => negb (is_ws c)) p = true ->
  trim (p ++ r) = (p ++ trim_end r)%string.
Proof.
  intros Hne H. unfold trim. destruct p as [|c p]; [congruence|].
  simpl in H |- *. apply andb_prop in H as [Hc Hp].
  destruct (is_ws c) eqn:Hw; [discriminate|].
  change (String c (p ++ r)) with (String c p ++ r)%string.
  apply trim_end_app_nows. simpl. now rewrite Hw, Hp.
Qed.

Lemma prefix_split (s : string) (n : nat) :
  exists r, s = (substring 0 n s ++ r)%string.
Proof.
  revert n. induction s as [|c s IH]; intros n.
  - exists EmptyString. destruct n; reflexivity.
  - destruct n as [|n]; simpl.
    + exists (String c s). reflexivity.
    + destruct (IH n) as [r Hr]. exists r. simpl. now rewrite <- Hr.
Qed.

(** A string of [k] digits has a value in [0, 10^k). *)
Lemma dec_value_acc_bound (s : string) (acc : Z) :
  (0 <= acc)%Z -> str_forall is_digit s = true ->
  (acc * 10 ^ Z.of_nat (String.length s) <= dec_value_acc s acc
   < (acc + 1) * 10 ^ Z.of_nat (String.length s))%Z.
Proof.
  revert acc. induction s as [|c r IH]; intros acc Hacc Hd;
    cbn [dec_value_acc String.length str_forall] in *; [lia|].
  apply andb_prop in Hd as [Hc Hr].
  assert (Hdv : (0 <= digit_val c <= 9)%Z).
  { unfold is_digit in Hc. apply andb_prop in Hc as [H1 H2].
    apply Nat.leb_le in H1, H2. unfold digit_val. lia. }
  specialize (IH (10 * acc + digit_val c)%Z ltac:(lia) Hr).
  rewrite Nat2Z.inj_succ, Z.pow_succ_r by lia.
  assert (0 < 10 ^ Z.of_nat (String.length r))%Z by (apply Z.pow_pos_nonneg; lia).
  split; nia.
Qed.

Lemma dec_value_bound (s : string) :
  str_forall is_digit s = true ->
  (0 <= dec_value s < 10 ^ Z.of_nat (String.length s))%Z.
Proof.
  intros Hd. pose proof (dec_value_acc_bound s 0 ltac:(lia) Hd). unfold dec_value. lia.
Qed.

(** Once the number is below [10^(k+1)], [k + 1] steps of [nat_digits]
    finish: more fuel changes nothing. *)
Lemma nat_digits_enough (k : nat) :
  forall (f : nat) (n : Z) (acc : string),
  (0 <= n < 10 ^ Z.of_nat (S k))%Z -> (k < f)%nat ->
  nat_digits f n acc = nat_digits (S k) n acc.
Proof.
  induction k as [|k IH]; intros f n acc Hn Hf; destruct f as [|f]; try lia;
    cbn [nat_digits].
  - replace (n <? 10)%Z with true by (symmetry; apply Z.ltb_lt; simpl in Hn; lia).
    destruct f; reflexivity.
  - destruct (Z.ltb_spec n 10); [reflexivity|].
    apply IH; [|lia]. rewrite Nat2Z.inj_succ, Z.pow_succ_r in Hn by lia.
    split; [apply Z.div_pos; lia | apply Z.div_lt_upper_bound; lia].
Qed.

(** [Number::toString] of a non-negative integer terminates within its
    fuel [1 + log2 n]: any larger fuel gives the same digits; and
    [parseInt] reads them back as [n]. *)
Lemma int_to_string_fuel (n : Z) (j : nat) :
  (0 <= n)%Z ->
  nat_digits (digits_fuel n + j) n "" = int_to_string n
  /\ parse_int10 (int_to_string n) = Some n.
Proof.
  intros Hn. destruct (digits_count n Hn) as (k & Hk & Hkf).
  assert (Hs : int_to_string n = nat_digits (digits_fuel n) n "").
  { unfold int_to_string. now replace (n <? 0)%Z with false by (symmetry; apply Z.ltb_ge; lia). }
  split.
  - rewrite Hs, (nat_digits_enough k (digits_fuel n + j)), (nat_digits_enough k (digits_fuel n));
      (reflexivity || lia).
  - destruct (int_to_string_nonneg n k Hn Hk) as (Hv & Hd & Hl).
    rewrite parse_int10_digits, Hv; [reflexivity | | exact Hd].
    intros E. rewrite E in Hl. discriminate Hl.
Qed.

End StrBuiltins.
