(* ===== verification/Calendar.v ===== *)
(** * ECMAScript date arithmetic behind [new Date(y, m, d)]

    [parseLocalDate] (src/www/app.js, lines 71 and 73) builds dates with the
    three-argument [Date] constructor, and [toYMD] (lines 89-91) reads them
    back with [getFullYear], [getMonth] and [getDate].  Their meaning is
    the day arithmetic of ECMA-262 21.4.1 (DayFromYear, YearFromTime,
    InLeapYear, MonthFromTime, DateFromTime, MakeDay, TimeClip), modelled
    here on day numbers ([Z], days since 1970-01-01): with the host in UTC,
    every time value these calls produce is midnight of a day.

    The specification defines YearFromTime as "the largest integral year
    [y] such that TimeFromYear(y) <= t"; [year_from_day] computes it from an
    estimate and one correction step, and [year_from_day_greatest] proves it
    meets that definition.  The decoder and [make_day] are inverse
    bijections between valid calendar dates and day numbers
    ([decode_make_day], [make_day_decode]); out-of-range months and days
    roll over ([make_day_rollover]). *)

From Stdlib Require Import ZArith Bool Lia.
From S2P Require Import Prelude.

Module EcmaDate.

Local Open Scope Z_scope.

(** ** Years *)

(** InLeapYear / DaysInYear. *)
Definition leap_year (y : Z) : bool :=
  (y mod 4 =? 0) && (negb (y mod 100 =? 0) || (y mod 400 =? 0)).

Definition leap_z (y : Z) : Z := if leap_year y then 1 else 0.

Definition days_in_year (y : Z) : Z := 365 + leap_z y.

(** DayFromYear(y), with floor division. *)
Definition day_from_year (y : Z) : Z :=
  365 * (y - 1970) + (y - 1969) / 4 - (y - 1901) / 100 + (y - 1601) / 400.

(** An estimate of YearFromTime: [146097] days make 400 years. *)
Definition year_estimate (t : Z) : Z := 1970 + (400 * t) / 146097.

(** YearFromTime on day numbers: the estimate, corrected by one year. *)
Definition year_from_day (t : Z) : Z :=
  let y0 := year_estimate t in
  if t <? day_from_year y0 then y0 - 1
  else if day_from_year (y0 + 1) <=? t then y0 + 1
  else y0.

(** DayWithinYear. *)
Definition day_within_year (t : Z) : Z := t - day_from_year (year_from_day t).

(** ** Months and days *)

(** The day of the year on which month [m] (0-based) starts; [m = 12]
    gives the length of the year.  These are the bounds of the table of
    MonthFromTime and the offsets of DateFromTime. *)
Definition month_start (leap : Z) (m : Z) : Z :=
  match m with
  | 0 => 0 | 1 => 31 | 2 => 59 + leap | 3 => 90 + leap
  | 4 => 120 + leap | 5 => 151 + leap | 6 => 181 + leap
  | 7 => 212 + leap | 8 => 243 + leap | 9 => 273 + leap
  | 10 => 304 + leap | 11 => 334 + leap | _ => 365 + leap
  end.

(** The table of MonthFromTime, on the day within the year [d] and the
    leap flag [l]. *)
Definition month_in_year (l d : Z) : Z :=
  if d <? month_start l 1 then 0
  else if d <? month_start l 2 then 1
  else if d <? month_start l 3 then 2
  else if d <? month_start l 4 then 3
  else if d <? month_start l 5 then 4
  else if d <? month_start l 6 then 5
  else if d <? month_start l 7 then 6
  else if d <? month_start l 8 then 7
  else if d <? month_start l 9 then 8
  else if d <? month_start l 10 then 9
  else if d <? month_start l 11 then 10
  else 11.

(** MonthFromTime ([getMonth], 0-based). *)
Definition month_from_day (t : Z) : Z :=
  month_in_year (leap_z (year_from_day t)) (day_within_year t).

(** DateFromTime ([getDate], 1-based). *)
Definition date_from_day (t : Z) : Z :=
  day_within_year t - month_start (leap_z (year_from_day t)) (month_from_day t) + 1.

(** The number of days of month [m] (1-based) of year [y]. *)
Definition days_in_month (y m : Z) : Z :=
  month_start (leap_z y) m - month_start (leap_z y) (m - 1).

(** A calendar date with a 1-based month. *)
Definition valid_date (y m d : Z) : Prop :=
  1 <= m <= 12 /\ 1 <= d <= days_in_month y m.

(** ** Construction *)

(** MakeDay(year, month, date): the first day of month [month mod 12] of
    year [year + floor(month / 12)], plus [date - 1] days. *)
Definition make_day (year month date : Z) : Z :=
  let ym := year + month / 12 in
  let mn := month mod 12 in
  day_from_year ym + month_start (leap_z ym) mn + date - 1.

Definition ms_per_day : Z := 86400000.

(** TimeClip on a day number: [None] is the time value [NaN] of an
    Invalid Date, for |time| above 8.64e15 ms. *)
Definition time_clip_day (d : Z) : option Z :=
  if Z.abs (d * ms_per_day) <=? 8640000000000000 then Some d else None.

(** [new Date(y, m, d)] on integer arguments (ECMA-262 21.4.2.1): a year
    in 0..99 means 1900..1999, then MakeDay, MakeDate with time 0, UTC
    (the identity in a UTC host) and TimeClip. *)
Definition new_date (y m d : Z) : option Z :=
  let yr := if (0 <=? y) && (y <=? 99) then 1900 + y else y in
  time_clip_day (make_day yr m d).

(** ** Years: lemmas *)

Lemma leap_z_range (y : Z) : 0 <= leap_z y <= 1.
Proof. unfold leap_z. destruct (leap_year y); lia. Qed.

(** DayFromYear stays within two days of [365.2425 (y - 1970)]. *)
Lemma day_from_year_bound (y : Z) :
  -607 <= 400 * day_from_year y - 146097 * (y - 1970) <= 581.
Proof. unfold day_from_year. lia_div. Qed.

Lemma day_from_year_succ (y : Z) :
  day_from_year (y + 1) = day_from_year y + days_in_year y.
Proof.
  unfold day_from_year, days_in_year, leap_z, leap_year.
  destruct (Z.eqb_spec (y mod 4) 0), (Z.eqb_spec (y mod 100) 0),
    (Z.eqb_spec (y mod 400) 0); cbn [andb orb negb]; lia_div.
Qed.

Lemma day_from_year_lt (y1 y2 : Z) :
  y1 < y2 -> day_from_year y1 < day_from_year y2.
Proof.
  intros H. pose proof (day_from_year_bound y1). pose proof (day_from_year_bound y2).
  lia.
Qed.

Lemma day_from_year_le_iff (y1 y2 : Z) :
  day_from_year y1 <= day_from_year y2 <-> y1 <= y2.
Proof.
  split; intros H.
  - destruct (Z.le_gt_cases y1 y2) as [|Hgt]; [assumption|].
    apply day_from_year_lt in Hgt. lia.
  - destruct (Z.eq_dec y1 y2) as [->|Hne]; [lia|].
    apply Z.lt_le_incl, day_from_year_lt. lia.
Qed.

Lemma year_from_day_spec (t : Z) :
  day_from_year (year_from_day t) <= t < day_from_year (year_from_day t + 1).
Proof.
  unfold year_from_day, year_estimate.
  set (y0 := 1970 + 400 * t / 146097).
  assert (Hy0 : 146097 * (y0 - 1970) <= 400 * t < 146097 * (y0 - 1970) + 146097)
    by (unfold y0; lia_div).
  pose proof (day_from_year_bound (y0 - 1)). pose proof (day_from_year_bound (y0 + 2)).
  destruct (Z.ltb_spec t (day_from_year y0)).
  - replace (y0 - 1 + 1) with y0 by lia. lia.
  - destruct (Z.leb_spec (day_from_year (y0 + 1)) t).
    + replace (y0 + 1 + 1) with (y0 + 2) by lia. lia.
    + lia.
Qed.

Lemma year_from_day_unique (t y : Z) :
  day_from_year y <= t < day_from_year (y + 1) -> year_from_day t = y.
Proof.
  intros [H1 H2]. pose proof (year_from_day_spec t) as [H3 H4].
  destruct (Z.lt_trichotomy (year_from_day t) y) as [Hlt|[Heq|Hgt]]; [|exact Heq|].
  - assert (day_from_year (year_from_day t + 1) <= day_from_year y)
      by (apply day_from_year_le_iff; lia). lia.
  - assert (day_from_year (y + 1) <= day_from_year (year_from_day t))
      by (apply day_from_year_le_iff; lia). lia.
Qed.

Lemma day_within_year_range (t : Z) :
  0 <= day_within_year t < days_in_year (year_from_day t).
Proof.
  unfold day_within_year. pose proof (year_from_day_spec t).
  rewrite day_from_year_succ in H. lia.
Qed.

(** ** Months: lemmas *)

Lemma leap_cases (l : Z) : 0 <= l <= 1 -> l = 0 \/ l = 1.
Proof. lia. Qed.

Lemma month_in_year_spec (l d : Z) :
  0 <= l <= 1 -> 0 <= d < 365 + l ->
  0 <= month_in_year l d <= 11
  /\ month_start l (month_in_year l d) <= d < month_start l (month_in_year l d + 1).
Proof.
  intros Hl Hd. unfold month_in_year.
  destruct (leap_cases l Hl) as [->| ->]; case_ifs; zbool_to_prop; simpl in *; lia.
Qed.

Lemma month_in_year_unique (l d m : Z) :
  0 <= l <= 1 -> 0 <= m <= 11 ->
  month_start l m <= d < month_start l (m + 1) -> month_in_year l d = m.
Proof.
  intros Hl Hm Hd.
  assert (m = 0 \/ m = 1 \/ m = 2 \/ m = 3 \/ m = 4 \/ m = 5 \/ m = 6
          \/ m = 7 \/ m = 8 \/ m = 9 \/ m = 10 \/ m = 11) as Hcases by lia.
  unfold month_in_year. destruct (leap_cases l Hl) as [->| ->];
  repeat destruct Hcases as [->|Hcases]; subst; simpl in Hd;
    case_ifs; zbool_to_prop; simpl in *; lia.
Qed.

Lemma month_start_mono (l m : Z) :
  0 <= l <= 1 -> 0 <= m <= 11 -> month_start l m + 28 <= month_start l (m + 1).
Proof.
  intros Hl Hm.
  assert (m = 0 \/ m = 1 \/ m = 2 \/ m = 3 \/ m = 4 \/ m = 5 \/ m = 6
          \/ m = 7 \/ m = 8 \/ m = 9 \/ m = 10 \/ m = 11) as Hcases by lia.
  destruct (leap_cases l Hl) as [->| ->];
  repeat destruct Hcases as [->|Hcases]; subst; simpl; lia.
Qed.

Lemma decode_parts (t : Z) :
  0 <= month_from_day t <= 11
  /\ month_start (leap_z (year_from_day t)) (month_from_day t) <= day_within_year t
     < month_start (leap_z (year_from_day t)) (month_from_day t + 1).
Proof.
  apply month_in_year_spec; [apply leap_z_range|].
  pose proof (day_within_year_range t). unfold days_in_year in H. lia.
Qed.

Lemma make_day_in_year (y m d : Z) :
  0 <= m <= 11 -> make_day y m d = day_from_year y + month_start (leap_z y) m + d - 1.
Proof.
  intros Hm. unfold make_day.
  rewrite (Z.div_small m 12), (Z.mod_small m 12), Z.add_0_r by lia. reflexivity.
Qed.

Lemma month_start_bounds (l m : Z) :
  0 <= l <= 1 -> 0 <= m <= 12 -> 0 <= month_start l m <= 365 + l.
Proof.
  intros Hl Hm.
  assert (m = 0 \/ m = 1 \/ m = 2 \/ m = 3 \/ m = 4 \/ m = 5 \/ m = 6 \/ m = 7
          \/ m = 8 \/ m = 9 \/ m = 10 \/ m = 11 \/ m = 12) as Hc by lia.
  destruct (leap_cases l Hl) as [->| ->];
  repeat destruct Hc as [->|Hc]; subst; simpl; lia.
Qed.

Lemma days_in_month_range (y m : Z) :
  1 <= m <= 12 -> 28 <= days_in_month y m <= 31.
Proof.
  intros Hm. unfold days_in_month. pose proof (leap_z_range y) as Hl.
  assert (m = 1 \/ m = 2 \/ m = 3 \/ m = 4 \/ m = 5 \/ m = 6 \/ m = 7
          \/ m = 8 \/ m = 9 \/ m = 10 \/ m = 11 \/ m = 12) as Hc by lia.
  destruct (leap_cases _ Hl) as [-> | ->];
  repeat destruct Hc as [->|Hc]; subst; simpl; lia.
Qed.

(** ** Theorems *)

(** C28: YearFromTime, as the specification defines it: the executable
    [year_from_day] is the greatest year whose first day is not after [t]. *)
Theorem year_from_day_greatest (t : Z) :
  day_from_year (year_from_day t) <= t
  /\ (forall y, day_from_year y <= t -> y <= year_from_day t).
Proof.
  pose proof (year_from_day_spec t) as [H1 H2]. split; [exact H1|].
  intros y Hy. apply Z.lt_succ_r. apply Z.nle_gt. intros Hle.
  apply day_from_year_le_iff in Hle. unfold Z.succ in Hle. lia.
Qed.

(** The decoder yields valid dates (see [decode_valid]). *)
Lemma decode_valid_date (t : Z) :
  valid_date (year_from_day t) (month_from_day t + 1) (date_from_day t).
Proof.
  pose proof (decode_parts t). unfold valid_date, days_in_month, date_from_day.
  replace (month_from_day t + 1 - 1) with (month_from_day t) by lia. lia.
Qed.

(** The decoder inverts MakeDay on valid dates (see [decode_make_day]). *)
Lemma make_day_decodes (y m d : Z) :
  valid_date y m d ->
  year_from_day (make_day y (m - 1) d) = y
  /\ month_from_day (make_day y (m - 1) d) = m - 1
  /\ date_from_day (make_day y (m - 1) d) = d.
Proof.
  intros [Hm Hd]. unfold days_in_month in Hd.
  pose proof (leap_z_range y).
  pose proof (month_start_bounds (leap_z y) m H ltac:(lia)).
  pose proof (month_start_bounds (leap_z y) (m - 1) H ltac:(lia)).
  rewrite make_day_in_year by lia.
  assert (Hy : year_from_day (day_from_year y + month_start (leap_z y) (m - 1) + d - 1) = y).
  { apply year_from_day_unique. rewrite day_from_year_succ. unfold days_in_year. lia. }
  assert (Hmo : month_from_day (day_from_year y + month_start (leap_z y) (m - 1) + d - 1) = m - 1).
  { unfold month_from_day, day_within_year. rewrite Hy.
    apply month_in_year_unique; [exact H | lia |].
    replace (m - 1 + 1) with m by lia. lia. }
  split; [exact Hy|]. split; [exact Hmo|].
  unfold date_from_day, day_within_year. rewrite Hmo, Hy. lia.
Qed.

(** MakeDay inverts the decoder (see [make_day_decode]). *)
Lemma make_day_of_parts (t : Z) :
  make_day (year_from_day t) (month_from_day t) (date_from_day t) = t.
Proof.
  pose proof (decode_parts t) as [Hm _].
  rewrite make_day_in_year by exact Hm.
  unfold date_from_day, day_within_year. lia.
Qed.

(** C30: MakeDay meets its specification (ECMA-262 21.4.1.28, step 8): the day
    it counts from has year [year + floor(month / 12)], month
    [month mod 12] and date 1. *)
Theorem make_day_first (year month : Z) :
  year_from_day (make_day year month 1) = year + month / 12
  /\ month_from_day (make_day year month 1) = month mod 12
  /\ date_from_day (make_day year month 1) = 1.
Proof.
  assert (Hmod : 0 <= month mod 12 < 12) by (apply Z.mod_pos_bound; lia).
  assert (Hv : valid_date (year + month / 12) (month mod 12 + 1) 1).
  { split; [lia|]. unfold days_in_month.
    replace (month mod 12 + 1 - 1) with (month mod 12) by lia.
    pose proof (month_start_mono (leap_z (year + month / 12)) (month mod 12)
                  (leap_z_range _) ltac:(lia)). lia. }
  destruct (make_day_decodes _ _ _ Hv) as (H1 & H2 & H3).
  replace (month mod 12 + 1 - 1) with (month mod 12) in * by lia.
  replace (make_day year month 1) with (make_day (year + month / 12) (month mod 12) 1).
  - auto.
  - unfold make_day at 2. rewrite make_day_in_year by lia. reflexivity.
Qed.

(** Days past the end of a month continue into the next month: the date
    [d] of month [m] (0-based, 0..11) is the date [d - n] of month [m + 1],
    [n] the length of month [m]. *)
Theorem make_day_rollover (y m d : Z) :
  0 <= m <= 11 ->
  make_day y m d = make_day y (m + 1) (d - days_in_month y (m + 1)).
Proof.
  intros Hm. unfold days_in_month. replace (m + 1 - 1) with m by lia.
  rewrite (make_day_in_year y m d Hm).
  assert (m = 11 \/ m < 11) as [->|Hlt] by lia.
  - replace (11 + 1) with 12 by reflexivity. unfold make_day.
    replace (12 / 12) with 1 by reflexivity. replace (12 mod 12) with 0 by reflexivity.
    cbn [month_start]. rewrite day_from_year_succ. unfold days_in_year. lia.
  - rewrite make_day_in_year by lia. lia.
Qed.

(** C29: [getFullYear], [getMonth] and [getDate] of any day form a valid
    calendar date: a month in 1..12 and a day within that month. *)
Theorem decode_valid (t : Z) :
  valid_date (year_from_day t) (month_from_day t + 1) (date_from_day t).
Proof. exact (decode_valid_date t). Qed.

(** For a valid date, [getFullYear], [getMonth] and [getDate] of
    [MakeDay(y, m - 1, d)] are [y], [m - 1] and [d]. *)
Theorem decode_make_day (y m d : Z) :
  valid_date y m d ->
  year_from_day (make_day y (m - 1) d) = y
  /\ month_from_day (make_day y (m - 1) d) = m - 1
  /\ date_from_day (make_day y (m - 1) d) = d.
Proof. exact (make_day_decodes y m d). Qed.

(** Every day is the [MakeDay] of its own [getFullYear], [getMonth]
    and [getDate]. *)
Theorem make_day_decode (t : Z) :
  make_day (year_from_day t) (month_from_day t) (date_from_day t) = t.
Proof. exact (make_day_of_parts t). Qed.

(** Witness: 29 February 2024, a leap day. *)
Lemma decode_make_day_witness :
  valid_date 2024 2 29
  /\ year_from_day (make_day 2024 (2 - 1) 29) = 2024
  /\ month_from_day (make_day 2024 (2 - 1) 29) = 2 - 1
  /\ date_from_day (make_day 2024 (2 - 1) 29) = 29.
Proof.
  assert (Hv : valid_date 2024 2 29).
  { unfold valid_date. assert (E : days_in_month 2024 2 = 29) by reflexivity.
    rewrite E. lia. }
  split; [exact Hv | exact (decode_make_day 2024 2 29 Hv)].
Defined.

(** Witness: 30 February 2024 is 1 March 2024. *)
Lemma make_day_rollover_witness :
  0 <= 1 <= 11 /\ make_day 2024 1 30 = make_day 2024 (1 + 1) (30 - days_in_month 2024 (1 + 1)).
Proof. split; [lia | apply make_day_rollover; lia]. Defined.

End EcmaDate.
