(* ===== verification/Dates.v ===== *)
(** * Date parsing and formatting of [src/www/app.js]

    [parseLocalDate] (lines 61-74), [formatDate] / [formatDisplayDate]
    (lines 76-85), [toYMD] (lines 87-93), [getTodayYMD] (lines 95-97),
    [syncDateToDisplay] (lines 171-179), the date branch shared by the two
    form submit handlers (lines 292-299 and 332-338) and the date field
    written by [addPayment] and [updatePayment] (lines 186 and 196), on the
    built-ins of [JsString] and the date arithmetic of [Calendar].

    A [Date] object is its time value in days ([js_date], [None] for an
    Invalid Date); [parseLocalDate] returns [option js_date], [None] being
    [null].  The theorems show that the canonical strings ["YYYY-MM-DD"] of
    the years 1000..9999 and the dates of those years are in bijection
    through [parseLocalDate] and [toYMD], that the display form
    ["DD/MM/YYYY"] reads back as the same date, that the regular-expression
    fallback of the form handlers is unreachable, and how the code treats
    the inputs that the specification calls malformed. *)

From Stdlib Require Import ZArith String Ascii List Bool Lia.
From S2P Require Import Prelude JsString Calendar.
Import ListNotations.

Module DateUtil.

Import StrBuiltins EcmaDate.
Local Open Scope string_scope.

(** A [Date] object: its time value in days, [None] for [NaN]. *)
Definition js_date := option Z.

(** ** The functions of the source *)

(** [parseLocalDate(ymdStr)]: [None] is [null]; a four-character first
    field is the year ([new Date(n0, n1 - 1, n2)]), otherwise the first
    field is the day ([new Date(n2, n1 - 1, n0)]). *)
Definition parseLocalDate (ymdStr : string) : option js_date :=
  if String.eqb ymdStr "" || (String.length ymdStr <? 10)%nat then None
  else
    let s := slice0 10 (trim ymdStr) in
    match split_date s with
    | [p0; p1; p2] =>
        match parse_int10 p0, parse_int10 p1, parse_int10 p2 with
        | Some n0, Some n1, Some n2 =>
            if (String.length p0 =? 4)%nat
            then Some (new_date n0 (n1 - 1) n2)
            else Some (new_date n2 (n1 - 1) n0)
        | _, _, _ => None
        end
    | _ => None
    end.

(** [String(n).padStart(2, '0')]. *)
Definition pad2 (n : Z) : string := pad_start 2 "0" (int_to_string n).

(** [y + '-' + m + '-' + d] with the fields of [toYMD]. *)
Definition ymd_string (y m d : Z) : string :=
  (int_to_string y ++ String "-" (pad2 m ++ String "-" (pad2 d)))%string.

(** [toYMD(date)]: [None] is [null]. *)
Definition toYMD (date : option js_date) : string :=
  match date with
  | Some (Some t) => ymd_string (year_from_day t) (month_from_day t + 1) (date_from_day t)
  | _ => ""
  end.

(** [getTodayYMD()], [now] being the current day. *)
Definition getTodayYMD (now : Z) : string := toYMD (Some (Some now)).

(** The year field of [toLocaleDateString('en-GB', {year: 'numeric'})]:
    the year of the era (year 0 is 1 BC). *)
Definition era_year (y : Z) : Z := if (y <=? 0)%Z then (1 - y)%Z else y.

(** [d.toLocaleDateString('en-GB', DATE_FMT)] with [DATE_FMT] of line 5:
    two-digit day and month, numeric year, separated by [/]. *)
Definition locale_en_gb (t : Z) : string :=
  (pad2 (date_from_day t) ++ String "/" (pad2 (month_from_day t + 1)
    ++ String "/" (int_to_string (era_year (year_from_day t)))))%string.

(** [formatDate(str)]: the raw string when it does not parse. *)
Definition formatDate (str : string) : string :=
  if String.eqb str "" then ""
  else match parseLocalDate str with
       | Some (Some t) => locale_en_gb t
       | _ => str
       end.

Definition formatDisplayDate (str : string) : string := formatDate str.

(** [syncDateToDisplay]: the new value of the display input for the value
    [val] of the native date input. *)
Definition syncDateToDisplay (val : string) : string :=
  if String.eqb val "" then ""
  else match parseLocalDate val with
       | Some d => formatDisplayDate (toYMD (Some d))
       | None => val
       end.

(** The date a form submit handler reads: the native date input, or the
    trimmed display input when the native one is empty (lines 292, 332). *)
Definition form_date (native display : string) : string :=
  (native or_else trim display)%js.

(** The [dateStr] the submit handlers compute (lines 294-299, 333-338). *)
Definition submit_date_str (date : string) : string :=
  if String.eqb date "" then ""
  else match parseLocalDate date with
       | Some (Some t) => toYMD (Some (Some t))
       | _ => if ymd_shape (slice0 10 date) then slice0 10 date else ""
       end.

(** The [date] field [addPayment] and [updatePayment] store
    ([date ? date.slice(0, 10) : '']). *)
Definition stored_date (date : string) : string :=
  if String.eqb date "" then "" else slice0 10 date.

(** A date field as [addPayment] and [updatePayment] leave it when the
    user picked or typed a valid date of the years 1000..9999, or none. *)
Definition canonical_or_empty (s : string) : Prop :=
  s = "" \/ exists y m d, valid_date y m d /\ (1000 <= y <= 9999)%Z /\ s = ymd_string y m d.

(** ** Lemmas *)

Definition join3 (a b c : string) (sep : ascii) : string :=
  (a ++ String sep (b ++ String sep c))%string.

Definition digit_field (s : string) : Prop :=
  s <> EmptyString /\ str_forall is_digit s = true.

Lemma digits_no_sep (s : string) :
  str_forall is_digit s = true -> str_forall (fun c => negb (is_date_sep c)) s = true.
Proof.
  induction s as [|c r IH]; simpl; [reflexivity|].
  intros H. apply andb_prop in H as [Hc Hr]. now rewrite digit_not_sep, IH.
Qed.

Lemma join3_length (a b c : string) (sep : ascii) :
  String.length (join3 a b c sep) = String.length a + String.length b + String.length c + 2.
Proof.
  unfold join3. rewrite string_length_app. simpl. rewrite string_length_app. simpl. lia.
Qed.

Lemma join3_no_ws (a b c : string) (sep : ascii) :
  str_forall is_digit a = true -> str_forall is_digit b = true ->
  str_forall is_digit c = true -> is_date_sep sep = true ->
  str_forall (fun c => negb (is_ws c)) (join3 a b c sep) = true.
Proof.
  intros Ha Hb Hc Hsep. unfold join3. rewrite str_forall_app. simpl.
  rewrite str_forall_app. simpl. rewrite !digits_no_ws by assumption.
  assert (is_ws sep = false).
  { unfold is_date_sep in Hsep. apply orb_prop in Hsep as [E|E];
      apply Ascii.eqb_eq in E; subst; reflexivity. }
  now rewrite H.
Qed.

(** A string whose first ten code units, once trimmed, are three digit
    fields and two separators parses field by field. *)
Lemma parse_fields (s a b c : string) (sep : ascii) :
  digit_field a -> digit_field b -> digit_field c -> is_date_sep sep = true ->
  (10 <= String.length s)%nat ->
  slice0 10 (trim s) = join3 a b c sep ->
  parseLocalDate s =
  Some (if (String.length a =? 4)%nat
        then new_date (dec_value a) (dec_value b - 1) (dec_value c)
        else new_date (dec_value c) (dec_value b - 1) (dec_value a)).
Proof.
  intros [Ha Hda] [Hb Hdb] [Hc Hdc] Hsep Hlen Hs.
  unfold parseLocalDate.
  assert (Hne : String.eqb s "" = false).
  { apply String.eqb_neq. intros E. rewrite E in Hlen. simpl in Hlen. lia. }
  rewrite Hne. destruct (Nat.ltb_spec (String.length s) 10) as [|_]; [lia|].
  cbn [orb]. rewrite Hs.
  unfold join3. rewrite split_date_app_sep by (apply digits_no_sep in Hda; auto).
  rewrite split_date_app_sep by (apply digits_no_sep in Hdb; auto).
  rewrite split_date_no_sep by (apply digits_no_sep in Hdc; auto).
  rewrite !parse_int10_digits by assumption.
  destruct (String.length a =? 4)%nat; reflexivity.
Qed.

Lemma parse_join3 (a b c : string) (sep : ascii) :
  digit_field a -> digit_field b -> digit_field c -> is_date_sep sep = true ->
  String.length (join3 a b c sep) = 10 ->
  parseLocalDate (join3 a b c sep) =
  Some (if (String.length a =? 4)%nat
        then new_date (dec_value a) (dec_value b - 1) (dec_value c)
        else new_date (dec_value c) (dec_value b - 1) (dec_value a)).
Proof.
  intros Ha Hb Hc Hsep Hlen. apply (parse_fields _ a b c sep); auto; [lia|].
  destruct Ha, Hb, Hc.
  rewrite trim_id by (apply join3_no_ws; auto). unfold slice0.
  apply substring_0_all. lia.
Qed.

(** The days of the years 1000..9999 are far inside the range of TimeClip. *)
Lemma time_clip_four_digit_year (t : Z) :
  (1000 <= year_from_day t <= 9999)%Z -> time_clip_day t = Some t.
Proof.
  intros Hy. pose proof (year_from_day_spec t) as [H1 H2].
  pose proof (day_from_year_le_iff 1000 (year_from_day t)) as [_ H3].
  pose proof (day_from_year_le_iff (year_from_day t + 1) 10000) as [_ H4].
  specialize (H3 ltac:(lia)). specialize (H4 ltac:(lia)).
  assert (E1 : day_from_year 1000 = (-354285)%Z) by reflexivity.
  assert (E2 : day_from_year 10000 = 2932897%Z) by reflexivity.
  rewrite E1 in H3. rewrite E2 in H4.
  unfold time_clip_day, ms_per_day.
  destruct (Z.leb_spec (Z.abs (t * 86400000)) 8640000000000000); [reflexivity | lia].
Qed.

Lemma ymd_string_join3 (y m d : Z) : ymd_string y m d = join3 (int_to_string y) (pad2 m) (pad2 d) "-".
Proof. reflexivity. Qed.

Lemma canonical_fields (y m d : Z) :
  (1000 <= y <= 9999)%Z -> (1 <= m <= 99)%Z -> (1 <= d <= 99)%Z ->
  digit_field (int_to_string y) /\ digit_field (pad2 m) /\ digit_field (pad2 d)
  /\ String.length (int_to_string y) = 4 /\ String.length (pad2 m) = 2
  /\ String.length (pad2 d) = 2
  /\ dec_value (int_to_string y) = y /\ dec_value (pad2 m) = m /\ dec_value (pad2 d) = d.
Proof.
  intros Hy Hm Hd.
  destruct (int_to_string_year y Hy) as (Hyv & Hyd & Hyl).
  destruct (pad2_spec m Hm) as (Hmv & Hmd & Hml).
  destruct (pad2_spec d Hd) as (Hdv & Hdd & Hdl).
  unfold pad2, digit_field.
  repeat split; auto; intros E;
    [rewrite E in Hyl | rewrite E in Hml | rewrite E in Hdl]; discriminate.
Qed.

Lemma decode_small (t : Z) :
  (1 <= month_from_day t + 1 <= 99)%Z /\ (1 <= date_from_day t <= 99)%Z.
Proof.
  pose proof (decode_valid_date t) as [Hm Hd].
  pose proof (days_in_month_range (year_from_day t) _ Hm). lia.
Qed.

Lemma new_date_no_century (y m d : Z) :
  (100 <= y)%Z -> new_date y m d = time_clip_day (make_day y m d).
Proof.
  intros Hy. unfold new_date. destruct (Z.leb_spec 0 y), (Z.leb_spec y 99); simpl;
    try reflexivity; lia.
Qed.

(** [toYMD] of a day of the years 1000..9999 is the canonical string of its
    date, three digit fields of lengths 4, 2, 2. *)
Lemma toYMD_fields (t : Z) :
  (1000 <= year_from_day t <= 9999)%Z ->
  toYMD (Some (Some t)) =
  join3 (int_to_string (year_from_day t)) (pad2 (month_from_day t + 1))
        (pad2 (date_from_day t)) "-".
Proof. reflexivity. Qed.

Lemma ymd_shape_split (p : string) :
  ymd_shape p = true ->
  exists a b c, p = join3 a b c "-" /\ digit_field a /\ digit_field b /\ digit_field c
                /\ String.length a = 4 /\ String.length b = 2 /\ String.length c = 2.
Proof.
  unfold ymd_shape. intros H.
  destruct p as [|y1 [|y2 [|y3 [|y4 [|s1 [|m1 [|m2 [|s2 [|d1 [|d2 [|? ?]]]]]]]]]]];
    try discriminate.
  simpl in H.
  repeat match goal with E : _ && _ = true |- _ => apply andb_prop in E as [? ?] end.
  repeat match goal with
         | E : Ascii.eqb _ _ = true |- _ => apply Ascii.eqb_eq in E; subst
         end.
  exists (String y1 (String y2 (String y3 (String y4 "")))),
    (String m1 (String m2 "")), (String d1 (String d2 "")).
  split; [reflexivity|]. unfold digit_field. simpl.
  repeat match goal with E : is_digit _ = true |- _ => rewrite E; clear E end.
  repeat split; discriminate.
Qed.

(** [new Date(y, m - 1, d)] is a valid date for fields of at most four,
    two and two digits. *)
Lemma new_date_small (y m d : Z) :
  (0 <= y < 10000)%Z -> (0 <= m < 100)%Z -> (0 <= d < 100)%Z ->
  exists t, new_date y (m - 1) d = Some t.
Proof.
  intros Hy Hm Hd. unfold new_date.
  set (yr := if ((0 <=? y) && (y <=? 99))%Z then (1900 + y)%Z else y).
  assert (Hyr : (100 <= yr <= 9999)%Z \/ (0 <= y <= 99 /\ yr = 1900 + y)%Z).
  { unfold yr. destruct (Z.leb_spec 0 y), (Z.leb_spec y 99); simpl; lia. }
  unfold time_clip_day, make_day, ms_per_day.
  set (ym := (yr + (m - 1) / 12)%Z).
  assert (Hym : (99 <= ym <= 10007)%Z) by (unfold ym; lia_div).
  pose proof (day_from_year_bound ym). pose proof (leap_z_range ym).
  pose proof (month_start_bounds (leap_z ym) ((m - 1) mod 12) (leap_z_range ym)
                ltac:(pose proof (Z.mod_pos_bound (m - 1) 12); lia)).
  eexists. destruct (Z.leb_spec (Z.abs ((day_from_year ym + month_start (leap_z ym) ((m - 1) mod 12) + d - 1) * 86400000)) 8640000000000000);
    [reflexivity | lia].
Qed.

(** A date string always holds its two separators. *)
Lemma join3_nonempty (a b c : string) (sep : ascii) : String.eqb (join3 a b c sep) "" = false.
Proof. unfold join3. destruct a; reflexivity. Qed.

(** The day of a valid date of the years 1000..9999 written back. *)
Lemma toYMD_make_day (y m d : Z) :
  valid_date y m d -> (1000 <= y <= 9999)%Z ->
  time_clip_day (make_day y (m - 1) d) = Some (make_day y (m - 1) d)
  /\ toYMD (Some (Some (make_day y (m - 1) d))) = ymd_string y m d.
Proof.
  intros Hv Hy. destruct (make_day_decodes y m d Hv) as (Ey & Em & Ed).
  rewrite time_clip_four_digit_year by lia. split; [reflexivity|].
  unfold toYMD. rewrite Ey, Em, Ed. now replace (m - 1 + 1)%Z with m by lia.
Qed.

(** A year field of value 0..99 written with four digits. *)
Lemma pad4_small (y : Z) :
  (0 <= y <= 99)%Z ->
  digit_field (pad_start 4 "0" (int_to_string y))
  /\ String.length (pad_start 4 "0" (int_to_string y)) = 4
  /\ dec_value (pad_start 4 "0" (int_to_string y)) = y.
Proof.
  intros Hy. unfold digit_field, pad_start.
  destruct (Z.eq_dec y 0) as [->|Hy0]; [repeat split; [discriminate | reflexivity..]|].
  destruct (Z.leb_spec y 9).
  - destruct (int_to_string_nonneg y 0) as (Hv & Hd & Hl); [lia | simpl; lia |].
    rewrite Hl. simpl. rewrite Hd. repeat split; [discriminate | simpl; lia |].
    change (dec_value (String "0" (String "0" (String "0" (int_to_string y)))))
      with (dec_value (int_to_string y)). exact Hv.
  - destruct (int_to_string_nonneg y 1) as (Hv & Hd & Hl); [lia | simpl; lia |].
    rewrite Hl. simpl. rewrite Hd. repeat split; [discriminate | simpl; lia |].
    change (dec_value (String "0" (String "0" (int_to_string y))))
      with (dec_value (int_to_string y)). exact Hv.
Qed.

(** [new Date(y, m - 1, d)] for a year field of value 0..99. *)
Lemma new_date_century (y m d : Z) :
  (0 <= y <= 99)%Z -> new_date y m d = time_clip_day (make_day (1900 + y) m d).
Proof.
  intros Hy. unfold new_date. destruct (Z.leb_spec 0 y), (Z.leb_spec y 99); [reflexivity|lia..].
Qed.

(** ** Theorems *)

(** C21: Storage form, read back: for every day of the years 1000..9999,
    [parseLocalDate (toYMD d)] is the same day. *)
Theorem parse_toYMD (t : Z) :
  (1000 <= year_from_day t <= 9999)%Z ->
  parseLocalDate (toYMD (Some (Some t))) = Some (Some t).
Proof.
  intros Hy. destruct (decode_small t) as [Hm Hd].
  destruct (canonical_fields _ _ _ Hy Hm Hd) as (Fy & Fm & Fd & Ly & Lm & Ld & Vy & Vm & Vd).
  rewrite toYMD_fields by exact Hy.
  rewrite parse_join3 by (auto; rewrite join3_length; lia).
  rewrite Ly, Vy, Vm, Vd. simpl (4 =? 4)%nat. cbv iota.
  replace (month_from_day t + 1 - 1)%Z with (month_from_day t) by lia.
  rewrite new_date_no_century, make_day_of_parts by lia.
  now rewrite time_clip_four_digit_year.
Qed.

(** A canonical date of the years 1000..9999 parses to a day whose
    [toYMD] is the same string, and it has ten characters. *)
Lemma canonical_parses (y m d : Z) :
  valid_date y m d -> (1000 <= y <= 9999)%Z ->
  String.length (ymd_string y m d) = 10
  /\ exists t, parseLocalDate (ymd_string y m d) = Some (Some t)
               /\ toYMD (Some (Some t)) = ymd_string y m d.
Proof.
  intros Hv Hy. pose proof Hv as [Hm Hd].
  pose proof (days_in_month_range y m Hm).
  destruct (canonical_fields y m d Hy ltac:(lia) ltac:(lia))
    as (Fy & Fm & Fd & Ly & Lm & Ld & Vy & Vm & Vd).
  split; [rewrite ymd_string_join3, join3_length; lia|].
  rewrite ymd_string_join3, parse_join3 by (auto; rewrite join3_length; lia).
  rewrite Ly, Vy, Vm, Vd. simpl (4 =? 4)%nat. cbv iota.
  destruct (make_day_decodes y m d Hv) as (Ey & Em & Ed).
  rewrite new_date_no_century, time_clip_four_digit_year by lia.
  eexists. split; [reflexivity|].
  unfold toYMD. rewrite Ey, Em, Ed. now replace (m - 1 + 1)%Z with m by lia.
Qed.

(** C22: Storage form, written back: a canonical ["YYYY-MM-DD"] of a valid date
    of the years 1000..9999 is a fixed point of [toYMD (parseLocalDate _)]. *)
Theorem toYMD_parse (y m d : Z) :
  valid_date y m d -> (1000 <= y <= 9999)%Z ->
  toYMD (parseLocalDate (ymd_string y m d)) = ymd_string y m d.
Proof.
  intros Hv Hy. destruct (canonical_parses y m d Hv Hy) as (_ & t & -> & Ht). exact Ht.
Qed.

(** A canonical date has at most ten characters. *)
Lemma canonical_slice (s : string) : canonical_or_empty s -> slice0 10 s = s.
Proof.
  intros [->|(y & m & d & Hv & Hy & ->)]; [reflexivity|].
  destruct (canonical_parses y m d Hv Hy) as (Hl & _). apply substring_0_all. lia.
Qed.

(** A canonical date, or none, is stored as it is by a submit handler. *)
Lemma stored_canonical (s : string) : canonical_or_empty s -> stored_date (submit_date_str s) = s.
Proof.
  intros Hc. pose proof (canonical_slice s Hc) as Hs.
  destruct Hc as [->|(y & m & d & Hv & Hy & ->)]; [reflexivity|].
  destruct (canonical_parses y m d Hv Hy) as (Hl & t & Hp & Ht).
  assert (Hb : String.eqb (ymd_string y m d) "" = false).
  { apply String.eqb_neq. intros E. rewrite E in Hl. discriminate Hl. }
  unfold submit_date_str, stored_date. rewrite Hb, Hp, Ht, Hb. exact Hs.
Qed.

(** The display input after the native one changes to a canonical date. *)
Lemma sync_canonical (s : string) : canonical_or_empty s -> syncDateToDisplay s = formatDisplayDate s.
Proof.
  intros [->|(y & m & d & Hv & Hy & ->)]; [reflexivity|].
  destruct (canonical_parses y m d Hv Hy) as (Hl & t & Hp & Ht).
  assert (Hb : String.eqb (ymd_string y m d) "" = false).
  { apply String.eqb_neq. intros E. rewrite E in Hl. discriminate Hl. }
  unfold syncDateToDisplay. rewrite Hb, Hp. exact (f_equal formatDisplayDate Ht).
Qed.

(** The edit sheet writes a stored date into its two date inputs
    ([openEditSheet]); submitting them stores the same date again. *)
Lemma edit_date_roundtrip (s : string) :
  canonical_or_empty s ->
  stored_date (submit_date_str (form_date (if String.eqb s "" then "" else slice0 10 s)
                                          (formatDisplayDate s))) = s.
Proof.
  intros Hc. rewrite (canonical_slice s Hc). destruct (String.eqb_spec s "") as [->|Hne];
    [reflexivity|]. unfold form_date. rewrite str_or_nonempty by exact Hne.
  now apply stored_canonical.
Qed.

(** C25: Display form: [formatDate] of a canonical date is ["DD/MM/YYYY"]. *)
Theorem formatDate_canonical (y m d : Z) :
  valid_date y m d -> (1000 <= y <= 9999)%Z ->
  formatDate (ymd_string y m d) = join3 (pad2 d) (pad2 m) (int_to_string y) "/".
Proof.
  intros Hv Hy. pose proof Hv as [Hm Hd].
  pose proof (days_in_month_range y m Hm).
  destruct (canonical_fields y m d Hy ltac:(lia) ltac:(lia))
    as (Fy & Fm & Fd & Ly & Lm & Ld & Vy & Vm & Vd).
  unfold formatDate.
  assert (Hne : String.eqb (ymd_string y m d) "" = false).
  { apply String.eqb_neq. rewrite ymd_string_join3. intros E.
    apply (f_equal String.length) in E. rewrite join3_length in E. simpl in E. lia. }
  rewrite Hne, ymd_string_join3, parse_join3 by (auto; rewrite join3_length; lia).
  rewrite Ly, Vy, Vm, Vd. simpl (4 =? 4)%nat. cbv iota.
  destruct (make_day_decodes y m d Hv) as (Ey & Em & Ed).
  rewrite new_date_no_century, time_clip_four_digit_year by lia.
  unfold locale_en_gb, era_year. rewrite Ey, Em, Ed.
  replace (m - 1 + 1)%Z with m by lia.
  destruct (Z.leb_spec y 0); [lia | reflexivity].
Qed.

(** C24: Day-first input: ["DD-MM-YYYY"] or ["DD/MM/YYYY"] of a valid date of
    the years 1000..9999 is stored as its canonical ["YYYY-MM-DD"]; in
    particular the display form read back by the edit form is stored as
    the date it displays. *)
Theorem submit_day_first (y m d : Z) (sep : ascii) :
  valid_date y m d -> (1000 <= y <= 9999)%Z -> is_date_sep sep = true ->
  submit_date_str (join3 (pad2 d) (pad2 m) (int_to_string y) sep) = ymd_string y m d.
Proof.
  intros Hv Hy Hsep. pose proof Hv as [Hm Hd].
  pose proof (days_in_month_range y m Hm).
  destruct (canonical_fields y m d Hy ltac:(lia) ltac:(lia))
    as (Fy & Fm & Fd & Ly & Lm & Ld & Vy & Vm & Vd).
  unfold submit_date_str.
  assert (Hne : String.eqb (join3 (pad2 d) (pad2 m) (int_to_string y) sep) "" = false).
  { apply String.eqb_neq. intros E.
    apply (f_equal String.length) in E. rewrite join3_length in E. simpl in E. lia. }
  rewrite Hne, parse_join3 by (auto; rewrite join3_length; lia).
  rewrite Ld, Vy, Vm, Vd. simpl (2 =? 4)%nat. cbv iota.
  destruct (make_day_decodes y m d Hv) as (Ey & Em & Ed).
  rewrite new_date_no_century, time_clip_four_digit_year by lia.
  unfold toYMD. rewrite Ey, Em, Ed. now replace (m - 1 + 1)%Z with m by lia.
Qed.

(** The fallback test [/^\d{4}-\d{2}-\d{2}$/] of the submit handlers
    (lines 298, 337) never decides: whenever it would succeed,
    [parseLocalDate] has already returned a valid date. *)
Theorem ymd_shape_parses (date : string) :
  ymd_shape (slice0 10 date) = true -> exists t, parseLocalDate date = Some (Some t).
Proof.
  intros H. destruct (ymd_shape_split _ H) as (a & b & c & Hp & Fa & Fb & Fc & La & Lb & Lc).
  destruct (prefix_split date 10) as [r Hr].
  assert (Hlen : String.length (slice0 10 date) = 10).
  { rewrite Hp, join3_length. lia. }
  assert (Hdl : (10 <= String.length date)%nat).
  { unfold slice0 in Hlen. rewrite length_substring_0 in Hlen. lia. }
  pose proof Fa as [Ha Hda]. pose proof Fb as [Hb Hdb]. pose proof Fc as [Hc Hdc].
  assert (Hs : slice0 10 (trim date) = join3 a b c "-").
  { change (substring 0 10 date) with (slice0 10 date) in Hr.
    set (p := slice0 10 date) in *.
    assert (Hpne : p <> EmptyString) by (intros E; rewrite E in Hlen; discriminate).
    assert (Hpws : str_forall (fun c => negb (is_ws c)) p = true)
      by (rewrite Hp; apply join3_no_ws; auto).
    rewrite Hr, (trim_app_nows p r Hpne Hpws). unfold slice0 at 1.
    rewrite substring_0_app by (symmetry; exact Hlen). exact Hp. }
  rewrite (parse_fields date a b c "-" Fa Fb Fc eq_refl Hdl Hs), La.
  simpl (4 =? 4)%nat. cbv iota.
  pose proof (dec_value_bound a Hda). pose proof (dec_value_bound b Hdb).
  pose proof (dec_value_bound c Hdc). rewrite La, Lb, Lc in *. simpl in *.
  destruct (new_date_small (dec_value a) (dec_value b) (dec_value c)) as [t Ht];
    [lia | lia | lia |].
  exists t. now rewrite Ht.
Qed.

(** C23: The date the submit handlers compute is [toYMD] of the parsed
    date, or empty: the regular-expression branch is dead code. *)
Corollary submit_date_str_no_fallback (date : string) :
  submit_date_str date =
  match parseLocalDate date with
  | Some (Some t) => toYMD (Some (Some t))
  | _ => ""
  end.
Proof.
  unfold submit_date_str. destruct (String.eqb_spec date "") as [->|Hne]; [reflexivity|].
  destruct (parseLocalDate date) as [[t|]|] eqn:E; [reflexivity| |];
  destruct (ymd_shape (slice0 10 date)) eqn:Hs; try reflexivity;
  destruct (ymd_shape_parses date Hs) as [t' Ht']; congruence.
Qed.

(** The date examples of the specification (section 8): ["2024-03-07"]
    and ["07-03-2024"] both store ["2024-03-07"] and display
    ["07/03/2024"]; ["not-a-date"] does not parse, stores nothing and is
    displayed unchanged. *)
Example spec_date_examples :
  formatDate "2024-03-07" = "07/03/2024" /\ submit_date_str "2024-03-07" = "2024-03-07"
  /\ submit_date_str "07-03-2024" = "2024-03-07" /\ formatDate "07-03-2024" = "07/03/2024"
  /\ parseLocalDate "not-a-date" = None /\ submit_date_str "not-a-date" = ""
  /\ formatDate "not-a-date" = "not-a-date".
Proof. vm_compute. repeat split. Qed.

(** C31: Impossible dates are accepted and rolled over.  For every year
    1000..9999 and month and day fields 1..99 that do not form a valid
    date, the [dateStr] the submit handlers compute for [YYYY-MM-DD] is not
    the empty string (the code's answer to an unusable date) but the
    canonical string of the day [new Date(y, m - 1, d)] rolls over to: a
    valid date other than [(y, m, d)]. *)
Theorem invalid_dates_roll_over (y m d : Z) :
  (1000 <= y <= 9999)%Z -> (1 <= m <= 99)%Z -> (1 <= d <= 99)%Z -> ~ valid_date y m d ->
  submit_date_str (ymd_string y m d) = toYMD (Some (Some (make_day y (m - 1) d)%Z))
  /\ valid_date (year_from_day (make_day y (m - 1) d)) (month_from_day (make_day y (m - 1) d) + 1)
                (date_from_day (make_day y (m - 1) d))
  /\ (year_from_day (make_day y (m - 1) d), month_from_day (make_day y (m - 1) d) + 1,
      date_from_day (make_day y (m - 1) d))%Z <> (y, m, d).
Proof.
  intros Hy Hm Hd Hinv.
  destruct (canonical_fields y m d Hy Hm Hd) as (Fy & Fm & Fd & Ly & Lm & Ld & Vy & Vm & Vd).
  destruct (new_date_small y m d ltac:(lia) ltac:(lia) ltac:(lia)) as [t Ht].
  assert (Et : new_date y (m - 1) d = Some (make_day y (m - 1) d)).
  { rewrite new_date_no_century in * by lia. unfold time_clip_day in *.
    destruct (_ <=? _)%Z; congruence. }
  split; [|split; [apply decode_valid_date|]].
  - rewrite ymd_string_join3. unfold submit_date_str.
    rewrite join3_nonempty, parse_join3 by (auto; rewrite join3_length; lia).
    rewrite Ly, Vy, Vm, Vd. simpl (4 =? 4)%nat. cbv iota. now rewrite Et.
  - intros E. injection E as E1 E2 E3.
    pose proof (decode_valid_date (make_day y (m - 1) d)) as Hv.
    rewrite E1, E2, E3 in Hv. exact (Hinv Hv).
Qed.

(** C32: A year field of value 0..99 is read as 1900..1999, written with
    four digits first ([00YY-MM-DD]) or last ([DD-MM-00YY]): for every
    valid date of such a year, the stored date is in the 1900s. *)
Theorem two_digit_years_1900s (y m d : Z) :
  (0 <= y <= 99)%Z -> valid_date (1900 + y) m d ->
  submit_date_str (join3 (pad_start 4 "0" (int_to_string y)) (pad2 m) (pad2 d) "-")
  = ymd_string (1900 + y) m d
  /\ submit_date_str (join3 (pad2 d) (pad2 m) (pad_start 4 "0" (int_to_string y)) "-")
     = ymd_string (1900 + y) m d.
Proof.
  intros Hy Hv. pose proof Hv as [Hm Hd]. pose proof (days_in_month_range (1900 + y) m Hm).
  destruct (pad4_small y Hy) as (Fy & Ly & Vy).
  destruct (pad2_spec m ltac:(lia)) as (Vm & Dm & Lm).
  destruct (pad2_spec d ltac:(lia)) as (Vd & Dd & Ld).
  assert (Fm : digit_field (pad2 m)) by (split; [intros E; unfold pad2 in E; rewrite E in Lm; discriminate | exact Dm]).
  assert (Fd : digit_field (pad2 d)) by (split; [intros E; unfold pad2 in E; rewrite E in Ld; discriminate | exact Dd]).
  fold (pad2 m) (pad2 d) in *.
  destruct (toYMD_make_day (1900 + y) m d Hv ltac:(lia)) as [Ec Ew].
  unfold submit_date_str. rewrite !join3_nonempty.
  rewrite !parse_join3 by (auto; rewrite join3_length; lia).
  rewrite Ly, Ld, Vy, Vm, Vd. simpl (4 =? 4)%nat. simpl (2 =? 4)%nat. cbv iota.
  rewrite new_date_century, Ec by exact Hy. split; exact Ew.
Qed.

(** Witness: 7 March 2024. *)
Lemma parse_toYMD_witness :
  (1000 <= year_from_day (make_day 2024 2 7) <= 9999)%Z
  /\ parseLocalDate (toYMD (Some (Some (make_day 2024 2 7)))) = Some (Some (make_day 2024 2 7)).
Proof.
  assert (E : year_from_day (make_day 2024 2 7) = 2024%Z) by reflexivity.
  split; [lia | apply parse_toYMD; lia].
Defined.

Lemma valid_2024_03_07 : valid_date 2024 3 7.
Proof.
  unfold valid_date. assert (E : days_in_month 2024 3 = 31%Z) by reflexivity. rewrite E. lia.
Qed.

(** Witness: ["2024-03-07"]. *)
Lemma toYMD_parse_witness :
  valid_date 2024 3 7 /\ (1000 <= 2024 <= 9999)%Z
  /\ toYMD (parseLocalDate (ymd_string 2024 3 7)) = ymd_string 2024 3 7.
Proof.
  split; [exact valid_2024_03_07 | split; [lia | apply toYMD_parse; [exact valid_2024_03_07 | lia]]].
Defined.

(** Witness: ["07/03/2024"]. *)
Lemma submit_day_first_witness :
  valid_date 2024 3 7 /\ (1000 <= 2024 <= 9999)%Z /\ is_date_sep "/" = true
  /\ submit_date_str (join3 (pad2 7) (pad2 3) (int_to_string 2024) "/") = ymd_string 2024 3 7.
Proof.
  split; [exact valid_2024_03_07 | split; [lia | split; [reflexivity |]]].
  apply submit_day_first; [exact valid_2024_03_07 | lia | reflexivity].
Defined.

(** Witness: ["2024-03-07"] is displayed ["07/03/2024"]. *)
Lemma formatDate_canonical_witness :
  valid_date 2024 3 7 /\ (1000 <= 2024 <= 9999)%Z
  /\ formatDate (ymd_string 2024 3 7) = join3 (pad2 7) (pad2 3) (int_to_string 2024) "/".
Proof.
  split; [exact valid_2024_03_07 | split; [lia |]].
  apply formatDate_canonical; [exact valid_2024_03_07 | lia].
Defined.

Lemma invalid_dates_roll_over_witness :
  ~ valid_date 2024 2 30 /\ submit_date_str (ymd_string 2024 2 30) = "2024-03-01".
Proof.
  assert (Hn : ~ valid_date 2024 2 30).
  { intros [_ Hd]. assert (E : days_in_month 2024 2 = 29%Z) by reflexivity. lia. }
  split; [exact Hn|].
  destruct (invalid_dates_roll_over 2024 2 30 ltac:(lia) ltac:(lia) ltac:(lia) Hn) as [-> _].
  vm_compute. reflexivity.
Defined.

Lemma two_digit_years_1900s_witness :
  submit_date_str "0024-03-07" = "1924-03-07" /\ submit_date_str "07-03-0024" = "1924-03-07".
Proof.
  assert (Hv : valid_date (1900 + 24) 3 7).
  { assert (E : days_in_month 1924 3 = 31%Z) by reflexivity. split; simpl; lia. }
  exact (two_digit_years_1900s 24 3 7 ltac:(lia) Hv).
Defined.

End DateUtil.
