(* ===== verification/JsNumber.v ===== *)
(** * JavaScript numbers used by [src/www/app.js]

    Payment ids and amounts are JavaScript numbers, IEEE 754 binary64
    values.  They are modelled by [Corelib]'s [spec_float] at precision 53
    and maximal exponent 1024, with its correctly rounded
    [binary_normalize] and [SFadd].  The operations the source applies are
    modelled from ECMA-262: [Number(string)] (StringToNumber, lines 185,
    193, 195, 202, 238), the coercion [x || 0] (lines 105, 185, 195),
    [Number.isFinite] (line 100), [Math.max] (line 101), [+] (lines 101,
    105) and [===] (lines 193, 202, 238). *)

From Stdlib Require Import ZArith String Ascii List Bool Lia.
From Corelib Require Import SpecFloat.
From S2P Require Import Prelude JsString.
Import ListNotations.

Module JsNum.

Import StrBuiltins.
Local Open Scope Z_scope.

(** ** Values *)

Definition prec : Z := 53.
Definition emax : Z := 1024.

(** A JavaScript number; [S754_nan] is [NaN]. *)
Definition num := spec_float.

Definition pos_zero : num := S754_zero false.
Definition neg_infinity : num := S754_infinity true.

(** The number nearest an integer (ties to even). *)
Definition of_Z (n : Z) : num := binary_normalize prec emax n 0 false.

(** The Number value for [(-1)^neg * m * 10^e], rounded to nearest, ties
    to even (RoundMVResult).  Beyond 10^400 the result is infinite and
    below 10^-330 it is a zero, which keeps the computation small. *)
Definition decimal_to_num (neg : bool) (m e : Z) (ndigits : Z) : num :=
  if m =? 0 then S754_zero neg
  else if 400 <? e then S754_infinity neg
  else if e + ndigits <? -330 then S754_zero neg
  else if 0 <=? e then
    binary_normalize prec emax (cond_Zopp neg (m * 10 ^ e)) 0 neg
  else
    let d := 10 ^ (- e) in
    let k := Z.max 0 (Z.log2 d - Z.log2 m + 56) in
    let q := (m * 2 ^ k) / d in
    let r := (m * 2 ^ k) mod d in
    binary_normalize prec emax
      (cond_Zopp neg (2 * q + (if r =? 0 then 0 else 1))) (- k - 1) neg.

(** ** [Number(string)]: StringToNumber (ECMA-262 7.1.4.1.1) *)

Fixpoint take_digits (s : string) : string * string :=
  match s with
  | EmptyString => (EmptyString, EmptyString)
  | String c r =>
      if is_digit c then let '(ds, rest) := take_digits r in (String c ds, rest)
      else (EmptyString, s)
  end.

(** The exponent part [(e|E) (+|-)? digits], consuming the whole rest. *)
Definition parse_exponent (s : string) : option Z :=
  match s with
  | EmptyString => Some 0
  | String c r =>
      if Ascii.eqb c "e" || Ascii.eqb c "E" then
        let '(sign, r') :=
          match r with
          | String "+" r' => (1, r')
          | String "-" r' => (-1, r')
          | _ => (1, r)
          end in
        let '(ds, rest) := take_digits r' in
        if String.eqb ds "" || negb (String.eqb rest "") then None
        else Some (sign * dec_value ds)
      else None
  end.

(** StrUnsignedDecimalLiteral: [Infinity], or digits with an optional
    fraction and exponent, at least one digit before the exponent. *)
Definition parse_unsigned_decimal (neg : bool) (s : string) : option num :=
  if String.eqb s "Infinity" then Some (S754_infinity neg)
  else
    let '(int, r1) := take_digits s in
    let '(frac, r2) :=
      match r1 with
      | String "." r => take_digits r
      | _ => (EmptyString, r1)
      end in
    if String.eqb (int ++ frac) "" then None
    else match parse_exponent r2 with
         | Some e =>
             let m := dec_value (int ++ frac) in
             let e10 := e - Z.of_nat (String.length frac) in
             Some (decimal_to_num neg m e10 (Z.of_nat (String.length (int ++ frac))))
         | None => None
         end.

Definition hex_digit_val (c : ascii) : option Z :=
  let n := Z.of_nat (nat_of_ascii c) in
  if (48 <=? n) && (n <=? 57) then Some (n - 48)
  else if (97 <=? n) && (n <=? 102) then Some (n - 87)
  else if (65 <=? n) && (n <=? 70) then Some (n - 55)
  else None.

(** The digits of a NonDecimalIntegerLiteral in radix [b], all of them. *)
Fixpoint radix_value (b : Z) (s : string) (acc : Z) : option Z :=
  match s with
  | EmptyString => Some acc
  | String c r =>
      match hex_digit_val c with
      | Some v => if v <? b then radix_value b r (b * acc + v) else None
      | None => None
      end
  end.

Definition parse_non_decimal (s : string) : option num :=
  match s with
  | String "0" (String c r) =>
      let b := if Ascii.eqb c "x" || Ascii.eqb c "X" then 16
               else if Ascii.eqb c "o" || Ascii.eqb c "O" then 8
               else if Ascii.eqb c "b" || Ascii.eqb c "B" then 2 else 0 in
      if (b =? 0) || String.eqb r "" then None
      else option_map of_Z (radix_value b r 0)
  | _ => None
  end.

(** StringToNumber: white space around, then a non-decimal integer or a
    signed decimal; an empty or blank string is [+0]; anything else is
    [NaN]. *)
Definition js_Number (str : string) : num :=
  let s := trim str in
  if String.eqb s "" then pos_zero
  else match parse_non_decimal s with
       | Some v => v
       | None =>
           let r :=
             match s with
             | String "+" r => parse_unsigned_decimal false r
             | String "-" r => parse_unsigned_decimal true r
             | _ => parse_unsigned_decimal false s
             end in
           match r with Some v => v | None => S754_nan end
       end.

(** ** Operators *)

(** [x === y] on two numbers: [NaN] equals nothing, [+0] equals [-0]. *)
Definition strict_eq (x y : num) : bool := SFeqb x y.

(** ToBoolean on a number: [0], [-0] and [NaN] are falsy. *)
Definition truthy (x : num) : bool :=
  match x with
  | S754_zero _ | S754_nan => false
  | _ => true
  end.

(** [x || 0]. *)
Definition or_zero (x : num) : num := if truthy x then x else of_Z 0.

(** [Number.isFinite] on a number. *)
Definition is_finite (x : num) : bool :=
  match x with
  | S754_zero _ | S754_finite _ _ _ => true
  | _ => false
  end.

(** [x + y] on two numbers. *)
Definition num_add (x y : num) : num := SFadd prec emax x y.

(** [Math.max(...xs)] (ECMA-262 21.3.2.24): [-Infinity] for no argument,
    [NaN] as soon as an argument is [NaN], [+0] above [-0]. *)
Fixpoint math_max_from (highest : num) (xs : list num) : num :=
  match xs with
  | [] => highest
  | x :: r =>
      match x with
      | S754_nan => S754_nan
      | _ =>
          let h :=
            match x, highest with
            | S754_zero false, S754_zero true => x
            | _, _ => if SFltb highest x then x else highest
            end in
          math_max_from h r
      end
  end.

Definition math_max (xs : list num) : num := math_max_from neg_infinity xs.

(** ** [Number::toString] (ECMA-262 6.1.6.1.20) *)

(** A positive finite number as the fraction [a / b]. *)
Definition as_fraction (m : positive) (e : Z) : Z * Z :=
  if 0 <=? e then (Zpos m * 2 ^ e, 1) else (Zpos m, 2 ^ (- e)).

(** [a / b >= 10^k]. *)
Definition ge_pow10 (a b k : Z) : bool :=
  if 0 <=? k then b * 10 ^ k <=? a else b <=? a * 10 ^ (- k).

(** The decimal exponent [n] with [10^(n-1) <= a / b < 10^n], searched
    around an estimate from the binary logarithms. *)
Definition decimal_exponent (a b : Z) : Z :=
  let est := ((Z.log2 a - Z.log2 b) * 30103) / 100000 in
  let ok n := ge_pow10 a b (n - 1) && negb (ge_pow10 a b n) in
  match List.find ok (map (fun i => est - 2 + i) [0; 1; 2; 3; 4; 5]) with
  | Some n => n
  | None => est
  end.

(** [a / b] rounded to an integer, ties to even. *)
Definition round_div (a b : Z) : Z :=
  let q := a / b in
  let r := a mod b in
  if b <? 2 * r then q + 1
  else if 2 * r <? b then q
  else if Z.even q then q else q + 1.

(** The [k]-digit candidates for [x = a / b] with decimal exponent [n]:
    [s] with [s * 10^(n - k)] nearest to [x] first, then the other
    neighbour; each with its exponent [n], raised when [s] reaches [10^k]. *)
Definition digit_candidates (a b n k : Z) : list (Z * Z) :=
  let num' := if 0 <=? n - k then a else a * 10 ^ (k - n) in
  let den' := if 0 <=? n - k then b * 10 ^ (n - k) else b in
  let s := round_div num' den' in
  let other := if s * den' <=? num' then s + 1 else s - 1 in
  let norm s := if s =? 10 ^ k then (10 ^ (k - 1), n + 1) else (s, n) in
  [norm s; norm other].

(** The shortest digits [s] (with [k] digits and exponent [n]) such that
    [s * 10^(n - k)] reads back as the positive number [m * 2^e]. *)
Definition shortest_digits (m : positive) (e : Z) : Z * Z * Z :=
  let x := S754_finite false m e in
  let '(a, b) := as_fraction m e in
  let n := decimal_exponent a b in
  let fits '(s, n') k := (10 ^ (k - 1) <=? s) && (s <? 10 ^ k)
                         && SFeqb (decimal_to_num false s (n' - k) k) x in
  let fix search (ks : list Z) :=
    match ks with
    | [] => let '(s, n') := hd (0, n) (digit_candidates a b n 17) in (s, 17, n')
    | k :: rest =>
        match List.find (fun c => fits c k) (digit_candidates a b n k) with
        | Some (s, n') => (s, k, n')
        | None => search rest
        end
    end in
  search (map (fun i => Z.of_nat i + 1) (seq 0 17)).

Definition zeros (n : Z) : string := repeat_char (Z.to_nat n) "0".

(** The formatting steps of Number::toString for digits [s] ([k] of them)
    and decimal exponent [n]. *)
Definition format_decimal (s k n : Z) : string :=
  let ds := int_to_string s in
  if (k <=? n) && (n <=? 21) then (ds ++ zeros (n - k))%string
  else if (0 <? n) && (n <=? 21) then
    (substring 0 (Z.to_nat n) ds ++ String "." (substring (Z.to_nat n) (Z.to_nat (k - n)) ds))%string
  else if (-6 <? n) && (n <=? 0) then
    ("0." ++ zeros (- n) ++ ds)%string
  else
    let sgn := if 0 <? n - 1 then "+"%string else "-"%string in
    let exp := (String "e" sgn ++ int_to_string (Z.abs (n - 1)))%string in
    if k =? 1 then (ds ++ exp)%string
    else (substring 0 1 ds ++ String "." (substring 1 (Z.to_nat (k - 1)) ds) ++ exp)%string.

(** [Number::toString(x)], radix 10. *)
Definition num_to_string (x : num) : string :=
  match x with
  | S754_nan => "NaN"
  | S754_zero _ => "0"
  | S754_infinity false => "Infinity"
  | S754_infinity true => "-Infinity"
  | S754_finite sign m e =>
      let '(sk, n) := shortest_digits m e in
      let '(s, k) := sk in
      ((if sign then "-" else "") ++ format_decimal s k n)%string
  end.

(** ** Lemmas *)

(** A decimal integer with no exponent is rounded as an integer. *)
Lemma decimal_to_num_int (m nd : Z) : 0 <= nd -> decimal_to_num false m 0 nd = of_Z m.
Proof.
  intros H. unfold decimal_to_num, of_Z.
  destruct (m =? 0) eqn:E0; [apply Z.eqb_eq in E0; now subst|].
  replace (0 + nd <? -330) with false by (symmetry; apply Z.ltb_ge; lia).
  cbn -[binary_normalize]. now rewrite Z.mul_1_r.
Qed.

Lemma take_digits_all (s : string) :
  str_forall is_digit s = true -> take_digits s = (s, EmptyString).
Proof.
  induction s as [|c r IH]; simpl; [reflexivity|].
  intros H. apply andb_prop in H as [Hc Hr]. now rewrite Hc, IH.
Qed.

(** [Number] of a non-empty string of decimal digits reads the digits
    without a fraction or an exponent. *)
Lemma parse_unsigned_digits (s : string) :
  s <> EmptyString -> str_forall is_digit s = true ->
  parse_unsigned_decimal false s = Some (of_Z (dec_value s)).
Proof.
  intros Hne H. unfold parse_unsigned_decimal.
  destruct (String.eqb_spec s "Infinity") as [->|_]; [discriminate H|].
  rewrite take_digits_all by exact H. rewrite string_app_empty_r.
  replace (String.eqb s "") with false by (symmetry; apply String.eqb_neq; exact Hne).
  cbn [parse_exponent String.length Z.of_nat]. rewrite Z.sub_0_r.
  now rewrite decimal_to_num_int by lia.
Qed.

(** The first character of a number made of digits is neither a sign
    nor the start of a [0x], [0o] or [0b] literal. *)
Lemma js_Number_digit_dispatch (c : ascii) (r : string) :
  is_digit c = true -> str_forall is_digit r = true ->
  parse_non_decimal (String c r) = None
  /\ (match String c r with
      | String "+" r' => parse_unsigned_decimal false r'
      | String "-" r' => parse_unsigned_decimal true r'
      | _ => parse_unsigned_decimal false (String c r)
      end) = parse_unsigned_decimal false (String c r).
Proof.
  intros Hc Hr. destruct c as [[] [] [] [] [] [] [] []]; try discriminate Hc;
    (split; [|reflexivity]); try reflexivity.
  destruct r as [|c' r']; [reflexivity|]. simpl in Hr. apply andb_prop in Hr as [Hc' _].
  destruct c' as [[] [] [] [] [] [] [] []]; try discriminate Hc'; reflexivity.
Qed.

(** [Number(s)] of a non-empty string of decimal digits is the nearest
    binary64 to its value. *)
Lemma js_Number_digits (s : string) :
  s <> EmptyString -> str_forall is_digit s = true -> js_Number s = of_Z (dec_value s).
Proof.
  intros Hne H. unfold js_Number. rewrite trim_id by (apply digits_no_ws; exact H).
  replace (String.eqb s "") with false by (symmetry; apply String.eqb_neq; exact Hne).
  destruct s as [|c r]; [congruence|]. simpl in H. apply andb_prop in H as [Hc Hr].
  destruct (js_Number_digit_dispatch c r Hc Hr) as [-> ->].
  rewrite parse_unsigned_digits; [reflexivity|discriminate|simpl; now rewrite Hc, Hr].
Qed.

End JsNum.
