(* ===== verification/SafeInt.v ===== *)
(** * Safe integers among the binary64 numbers of [JsNumber.v]

    Ids and, in practice, amounts are integers.  A JavaScript number holds
    every integer of magnitude below [2^53] exactly ([Number.MAX_SAFE_INTEGER]
    is [2^53 - 1]).  This file gives the canonical binary64 of such an
    integer ([canon]) and proves, on [SpecFloat]'s definitions, that the
    operations the program applies to ids and amounts are exact there:
    [of_Z] is [canon]; [+] of two safe integers with a safe sum is their
    sum ([num_add_of_Z]); [===] and [<] compare them as integers
    ([SFcompare_of_Z]); [Math.max] is the integer maximum. *)

From Stdlib Require Import ZArith Zcompare List Bool Lia.
From Corelib Require Import SpecFloat.
From S2P Require Import Prelude JsString JsNumber.
Import ListNotations.

Module SafeInt.

Import JsNum.
Local Open Scope Z_scope.

(** The number of binary digits of [m]. *)
Definition digits (m : positive) : Z := Zpos (digits2_pos m).

(** An integer of a magnitude below [2^53]. *)
Definition safe (n : Z) : Prop := Z.abs n < 2 ^ 53.

(** The 53-digit mantissa of [m]. *)
Definition mant (m : positive) : Z := Zpos m * 2 ^ (53 - digits m).

(** The canonical binary64 of a safe integer: its digits shifted to 53,
    with the exponent that undoes the shift; [+0] for [0]. *)
Definition canon (n : Z) : num :=
  match n with
  | Z0 => S754_zero false
  | Zpos m => S754_finite false (Z.to_pos (mant m)) (digits m - 53)
  | Zneg m => S754_finite true (Z.to_pos (mant m)) (digits m - 53)
  end.

(** ** Binary digits *)

Lemma pow2_succ (x : Z) : 0 <= x -> 2 ^ (x + 1) = 2 * 2 ^ x.
Proof. intros H. rewrite Z.pow_add_r by lia. lia. Qed.

Lemma digits_pos (m : positive) : 1 <= digits m.
Proof. unfold digits. lia. Qed.

Lemma digits_size (m : positive) : digits2_pos m = Pos.size m.
Proof. induction m as [p IH|p IH|]; simpl; rewrite ?IH; reflexivity. Qed.

Lemma digits_spec (m : positive) : 2 ^ (digits m - 1) <= Zpos m < 2 ^ digits m.
Proof.
  unfold digits. rewrite digits_size.
  pose proof (Pos.size_gt m) as Hgt. pose proof (Pos.size_le m) as Hle.
  apply Pos2Z.pos_lt_pos in Hgt. apply Pos2Z.pos_le_pos in Hle.
  rewrite Pos2Z.inj_pow in Hgt, Hle. rewrite Pos2Z.inj_xO in Hle.
  change (2 * 1) with 2 in Hle.
  assert (H2 : 2 ^ Zpos (Pos.size m) = 2 * 2 ^ (Zpos (Pos.size m) - 1)).
  { rewrite <- pow2_succ by lia. f_equal. lia. }
  split; [|exact Hgt]. lia.
Qed.

Lemma digits_unique (m : positive) (t : Z) :
  2 ^ (t - 1) <= Zpos m < 2 ^ t -> digits m = t.
Proof.
  intros Ht. pose proof (digits_spec m) as Hm. pose proof (digits_pos m).
  assert (1 <= t).
  { destruct (Z.lt_ge_cases t 1) as [Hlt|]; [|lia].
    destruct (Z.eq_dec t 0) as [->|]; [simpl in Ht; lia|].
    rewrite (Z.pow_neg_r 2 t) in Ht by lia. lia. }
  destruct (Z.lt_trichotomy (digits m) t) as [Hlt|[Heq|Hgt]]; [|exact Heq|].
  - assert (2 ^ digits m <= 2 ^ (t - 1)) by (apply Z.pow_le_mono_r; lia). lia.
  - assert (2 ^ t <= 2 ^ (digits m - 1)) by (apply Z.pow_le_mono_r; lia). lia.
Qed.

Lemma digits_mul_pow (m : positive) (j : Z) :
  0 <= j -> digits (Z.to_pos (Zpos m * 2 ^ j)) = digits m + j.
Proof.
  intros Hj. pose proof (digits_spec m). pose proof (digits_pos m).
  assert (0 < 2 ^ j) by (apply Z.pow_pos_nonneg; lia).
  apply digits_unique. rewrite Z2Pos.id by nia.
  replace (digits m + j - 1) with (digits m - 1 + j) by lia.
  rewrite !Z.pow_add_r by lia. nia.
Qed.

(** ** Shifts *)

Lemma iter_xO (m q : positive) : Zpos (Pos.iter xO m q) = Zpos m * 2 ^ Zpos q.
Proof.
  induction q as [|q IH] using Pos.peano_ind; [simpl; lia|].
  rewrite Pos.iter_succ, Pos2Z.inj_succ, <- Z.add_1_r, pow2_succ by lia.
  change (Zpos (Pos.iter xO m q)~0) with (2 * Zpos (Pos.iter xO m q)). rewrite IH. lia.
Qed.

Lemma iter_pos_iter {A : Type} (f : A -> A) (p : positive) (x : A) :
  iter_pos f p x = Pos.iter f x p.
Proof.
  revert x. induction p as [p IH|p IH|]; intros x; simpl; [| |reflexivity];
    rewrite !IH; [rewrite !Pos.iter_swap | ]; reflexivity.
Qed.

Lemma shr_1_double (w : Z) :
  shr_1 {| shr_m := 2 * w; shr_r := false; shr_s := false |}
  = {| shr_m := w; shr_r := false; shr_s := false |}.
Proof. destruct w; reflexivity. Qed.

Lemma iter_shr_exact (p : positive) (w : Z) :
  Pos.iter shr_1 {| shr_m := w * 2 ^ Zpos p; shr_r := false; shr_s := false |} p
  = {| shr_m := w; shr_r := false; shr_s := false |}.
Proof.
  revert w. induction p as [|p IH] using Pos.peano_ind; intros w.
  - simpl. rewrite Z.mul_comm. apply shr_1_double.
  - rewrite Pos.iter_succ, Pos2Z.inj_succ, <- Z.add_1_r, pow2_succ by lia.
    replace (w * (2 * 2 ^ Zpos p)) with ((2 * w) * 2 ^ Zpos p) by lia.
    rewrite IH. apply shr_1_double.
Qed.

Lemma shl_align_le (m : positive) (e e' : Z) :
  e' <= e -> Zpos (fst (shl_align m e e')) = Zpos m * 2 ^ (e - e').
Proof.
  intros H. unfold shl_align. destruct (e' - e) eqn:E; simpl.
  - replace (e - e') with 0 by lia. rewrite Z.pow_0_r. lia.
  - lia.
  - rewrite iter_xO. replace (e - e') with (Zpos p) by lia. reflexivity.
Qed.

(** ** Rounding an exact integer *)

Lemma digits_le_53 (a : positive) : Zpos a < 2 ^ 53 -> digits a <= 53.
Proof.
  intros H. pose proof (digits_spec a). destruct (Z.le_gt_cases (digits a) 53); [lia|].
  assert (2 ^ 53 <= 2 ^ (digits a - 1)) by (apply Z.pow_le_mono_r; lia). lia.
Qed.

Lemma mant_pos (a : positive) : Zpos a < 2 ^ 53 -> 0 < mant a.
Proof.
  intros H. unfold mant. pose proof (digits_le_53 a H).
  assert (0 < 2 ^ (53 - digits a)) by (apply Z.pow_pos_nonneg; lia). nia.
Qed.

(** [mant a * 2^p] has [53 + p] digits. *)
Lemma digits_mant (a : positive) (p : Z) :
  Zpos a < 2 ^ 53 -> 0 <= p -> Zdigits2 (mant a * 2 ^ p) = 53 + p.
Proof.
  intros H Hp. pose proof (digits_le_53 a H).
  assert (E : mant a * 2 ^ p = Zpos (Z.to_pos (Zpos a * 2 ^ (53 - digits a + p)))).
  { rewrite Z2Pos.id.
    - unfold mant. rewrite Z.pow_add_r by lia. lia.
    - assert (0 < 2 ^ (53 - digits a + p)) by (apply Z.pow_pos_nonneg; lia). nia. }
  rewrite E. cbn [Zdigits2]. fold (digits (Z.to_pos (Zpos a * 2 ^ (53 - digits a + p)))).
  rewrite digits_mul_pow by lia. lia.
Qed.

Lemma fexp_small (e : Z) : 1 <= e <= 53 -> fexp prec emax e = e - 53.
Proof. intros H. unfold fexp, emin, prec, emax. lia. Qed.

(** Rounding [mant a * 2^p] at the exponent of [a]'s digits drops [p]
    zero bits and loses nothing. *)
Lemma shr_fexp_exact (a : positive) (p : Z) :
  Zpos a < 2 ^ 53 -> 0 <= p ->
  shr_fexp prec emax (mant a * 2 ^ p) (digits a - 53 - p) loc_Exact
  = ({| shr_m := mant a; shr_r := false; shr_s := false |}, digits a - 53).
Proof.
  intros H Hp. pose proof (digits_le_53 a H). pose proof (digits_pos a).
  unfold shr_fexp. rewrite digits_mant by assumption.
  replace (53 + p + (digits a - 53 - p)) with (digits a) by lia.
  rewrite fexp_small by lia. replace (digits a - 53 - (digits a - 53 - p)) with p by lia.
  cbn [shr_record_of_loc]. unfold shr. destruct p as [|q|q]; [| |lia].
  - rewrite Z.mul_1_r. f_equal. lia.
  - rewrite iter_pos_iter, iter_shr_exact. f_equal. lia.
Qed.

Lemma binary_round_aux_exact (s : bool) (a : positive) (p : Z) :
  Zpos a < 2 ^ 53 -> 0 <= p ->
  binary_round_aux prec emax s (mant a * 2 ^ p) (digits a - 53 - p) loc_Exact
  = S754_finite s (Z.to_pos (mant a)) (digits a - 53).
Proof.
  intros H Hp. pose proof (digits_le_53 a H). pose proof (mant_pos a H).
  unfold binary_round_aux. rewrite shr_fexp_exact by assumption.
  cbn [shr_m loc_of_shr_record round_nearest_even].
  pose proof (shr_fexp_exact a 0 H ltac:(lia)) as E.
  rewrite Z.mul_1_r, Z.sub_0_r in E. rewrite E. cbn [shr_m].
  replace (digits a - 53 <=? emax - prec) with true
    by (symmetry; apply Z.leb_le; unfold emax, prec; lia).
  destruct (mant a) as [|w|w]; [lia|reflexivity|lia].
Qed.

Lemma binary_round_exact (s : bool) (a : positive) (k : Z) :
  Zpos a < 2 ^ 53 -> 0 <= k ->
  binary_round prec emax s (Z.to_pos (Zpos a * 2 ^ k)) (- k)
  = S754_finite s (Z.to_pos (mant a)) (digits a - 53).
Proof.
  intros H Hk. pose proof (digits_le_53 a H). pose proof (digits_pos a).
  assert (0 < 2 ^ k) by (apply Z.pow_pos_nonneg; lia).
  unfold binary_round. fold (digits (Z.to_pos (Zpos a * 2 ^ k))).
  rewrite digits_mul_pow, fexp_small by lia.
  replace (digits a + k + - k - 53) with (digits a - 53) by lia.
  unfold shl_align. destruct (digits a - 53 - - k) as [|q|q] eqn:E.
  - rewrite <- (binary_round_aux_exact s a 0 H ltac:(lia)). f_equal.
    + rewrite Z2Pos.id by nia. unfold mant. rewrite Z.mul_1_r. f_equal. f_equal. lia.
    + lia.
  - rewrite <- (binary_round_aux_exact s a (Zpos q) H ltac:(lia)). f_equal.
    + rewrite Z2Pos.id by nia. unfold mant. rewrite <- Z.mul_assoc, <- Z.pow_add_r by lia.
      f_equal. f_equal. lia.
    + lia.
  - rewrite <- (binary_round_aux_exact s a 0 H ltac:(lia)). f_equal.
    + rewrite iter_xO, Z2Pos.id by nia. unfold mant. rewrite Z.mul_1_r, <- Z.mul_assoc,
        <- Z.pow_add_r by lia. f_equal. f_equal. lia.
    + lia.
Qed.

Lemma binary_normalize_exact (n K : Z) :
  safe n -> 0 <= K -> binary_normalize prec emax (n * 2 ^ K) (- K) false = canon n.
Proof.
  unfold safe. intros H HK. assert (0 < 2 ^ K) by (apply Z.pow_pos_nonneg; lia).
  destruct n as [|a|a]; [reflexivity| |].
  - replace (Zpos a * 2 ^ K) with (Zpos (Z.to_pos (Zpos a * 2 ^ K))) by (rewrite Z2Pos.id; nia).
    apply binary_round_exact; simpl in H; lia.
  - replace (Zneg a * 2 ^ K) with (Zneg (Z.to_pos (Zpos a * 2 ^ K))).
    + apply binary_round_exact; simpl in H; lia.
    + rewrite <- Pos2Z.opp_pos, Z2Pos.id by nia. lia.
Qed.

(** [of_Z] of a safe integer is its canonical binary64. *)
Lemma of_Z_canon (n : Z) : safe n -> of_Z n = canon n.
Proof.
  intros H. unfold of_Z. rewrite <- (binary_normalize_exact n 0 H ltac:(lia)).
  now rewrite Z.mul_1_r.
Qed.

(** ** Addition *)

Lemma canon_nonzero (n : Z) :
  n <> 0 -> canon n = S754_finite (n <? 0) (Z.to_pos (mant (Z.to_pos (Z.abs n))))
                                  (digits (Z.to_pos (Z.abs n)) - 53).
Proof. destruct n; [congruence|reflexivity|reflexivity]. Qed.

(** The mantissa of a safe [a] aligned to an exponent [e'] below its own. *)
Lemma align_mant (a : positive) (e' : Z) :
  Zpos a < 2 ^ 53 -> e' <= digits a - 53 ->
  Zpos (fst (shl_align (Z.to_pos (mant a)) (digits a - 53) e')) = Zpos a * 2 ^ (- e').
Proof.
  intros H He. pose proof (digits_le_53 a H). rewrite shl_align_le, Z2Pos.id by
    (auto using mant_pos). unfold mant. rewrite <- Z.mul_assoc, <- Z.pow_add_r by lia.
  f_equal. f_equal. lia.
Qed.

Lemma cond_Zopp_abs (n X : Z) :
  n <> 0 -> cond_Zopp (n <? 0) (Zpos (Z.to_pos (Z.abs n)) * X) = n * X.
Proof.
  intros H. rewrite Z2Pos.id by lia. unfold cond_Zopp.
  destruct (Z.ltb_spec n 0); lia.
Qed.

Lemma SFadd_canon_nonzero (a b : Z) :
  a <> 0 -> b <> 0 -> safe a -> safe b -> safe (a + b) ->
  SFadd prec emax (canon a) (canon b) = canon (a + b).
Proof.
  unfold safe. intros Ha Hb Sa Sb Sab. rewrite (canon_nonzero a Ha), (canon_nonzero b Hb).
  set (pa := Z.to_pos (Z.abs a)). set (pb := Z.to_pos (Z.abs b)).
  assert (Pa : Zpos pa < 2 ^ 53) by (subst pa; rewrite Z2Pos.id; lia).
  assert (Pb : Zpos pb < 2 ^ 53) by (subst pb; rewrite Z2Pos.id; lia).
  pose proof (digits_le_53 pa Pa). pose proof (digits_le_53 pb Pb).
  cbn [SFadd]. set (ez := Z.min (digits pa - 53) (digits pb - 53)).
  rewrite (align_mant pa ez Pa), (align_mant pb ez Pb) by (subst ez; lia).
  subst pa pb. rewrite !cond_Zopp_abs by assumption.
  rewrite <- Z.mul_add_distr_r. replace ez with (- (- ez)) at 2 by lia.
  apply binary_normalize_exact; [exact Sab | subst ez; lia].
Qed.

(** [+] on two safe integers with a safe sum is exact. *)
Lemma num_add_of_Z (a b : Z) :
  safe a -> safe b -> safe (a + b) -> num_add (of_Z a) (of_Z b) = of_Z (a + b).
Proof.
  intros Sa Sb Sab. unfold num_add. rewrite !of_Z_canon by assumption.
  destruct (Z.eq_dec a 0) as [->|Ha]; [destruct b; reflexivity|].
  destruct (Z.eq_dec b 0) as [->|Hb]; [rewrite Z.add_0_r; destruct a; reflexivity|].
  now apply SFadd_canon_nonzero.
Qed.

(** ** Comparison *)

(** Two positive safe integers compare as their exponents, then their
    mantissas. *)
Lemma compare_pos_canon (a b : positive) :
  Zpos a < 2 ^ 53 -> Zpos b < 2 ^ 53 ->
  match Z.compare (digits a - 53) (digits b - 53) with
  | Lt => Lt
  | Gt => Gt
  | Eq => Pos.compare_cont Eq (Z.to_pos (mant a)) (Z.to_pos (mant b))
  end = Z.compare (Zpos a) (Zpos b).
Proof.
  intros Ha Hb. pose proof (digits_spec a). pose proof (digits_spec b).
  destruct (Z.compare_spec (digits a - 53) (digits b - 53)) as [E|E|E].
  - change (Pos.compare_cont Eq ?x ?y) with (Z.compare (Zpos x) (Zpos y)).
    rewrite !Z2Pos.id by auto using mant_pos. unfold mant.
    replace (digits b) with (digits a) by lia. symmetry. apply Zmult_compare_compat_r.
    apply Z.lt_gt, Z.pow_pos_nonneg; [lia|]. pose proof (digits_le_53 a Ha). lia.
  - symmetry. apply Z.compare_lt_iff.
    assert (2 ^ digits a <= 2 ^ (digits b - 1)) by (apply Z.pow_le_mono_r; lia). lia.
  - symmetry. apply Z.compare_gt_iff.
    assert (2 ^ digits b <= 2 ^ (digits a - 1)) by (apply Z.pow_le_mono_r; lia). lia.
Qed.

(** [SFcompare] orders safe integers as [Z.compare]. *)
Lemma SFcompare_canon (a b : Z) :
  safe a -> safe b -> SFcompare (canon a) (canon b) = Some (Z.compare a b).
Proof.
  unfold safe. intros Ha Hb.
  destruct a as [|a|a], b as [|b|b]; try reflexivity; cbn [canon SFcompare]; f_equal.
  - exact (compare_pos_canon a b ltac:(simpl in Ha; lia) ltac:(simpl in Hb; lia)).
  - pose proof (compare_pos_canon a b ltac:(simpl in Ha; lia) ltac:(simpl in Hb; lia)) as E.
    change (Z.compare (Zneg a) (Zneg b)) with (CompOpp (Z.compare (Zpos a) (Zpos b))).
    rewrite <- E. destruct (Z.compare (digits a - 53) (digits b - 53)); reflexivity.
Qed.

Lemma SFeqb_of_Z (a b : Z) : safe a -> safe b -> SFeqb (of_Z a) (of_Z b) = (a =? b).
Proof.
  intros Ha Hb. unfold SFeqb. rewrite !of_Z_canon, SFcompare_canon by assumption.
  destruct (Z.compare_spec a b); subst; [rewrite Z.eqb_refl | ..]; symmetry;
    try (apply Z.eqb_neq; lia); reflexivity.
Qed.

Lemma SFltb_of_Z (a b : Z) : safe a -> safe b -> SFltb (of_Z a) (of_Z b) = (a <? b).
Proof.
  intros Ha Hb. unfold SFltb. rewrite !of_Z_canon, SFcompare_canon by assumption.
  destruct (Z.compare_spec a b); symmetry; [apply Z.ltb_ge | apply Z.ltb_lt | apply Z.ltb_ge];
    lia.
Qed.

(** ** [Math.max], [Number.isFinite], [|| 0] *)

(** One step of [Math.max] on a number that is not [NaN], from a maximum
    so far that is not [-0]. *)
Lemma math_max_from_step (highest x : num) (r : list num) :
  x <> S754_nan -> highest <> S754_zero true ->
  math_max_from highest (x :: r) = math_max_from (if SFltb highest x then x else highest) r.
Proof.
  intros Hx Hh. destruct x as [[]|[]| |[] mx ex]; try congruence; cbn [math_max_from];
    try reflexivity; destruct highest as [[]|[]| |[] mh eh]; congruence.
Qed.

Lemma canon_not_nan (n : Z) : canon n <> S754_nan.
Proof. destruct n; discriminate. Qed.

Lemma canon_not_neg_zero (n : Z) : canon n <> S754_zero true.
Proof. destruct n; discriminate. Qed.

Lemma math_max_from_of_Z (m : Z) (ns : list Z) :
  safe m -> Forall safe ns ->
  math_max_from (of_Z m) (map of_Z ns) = of_Z (fold_left Z.max ns m).
Proof.
  intros Hm Hns. revert m Hm. induction Hns as [|n ns Hn _ IH]; intros m Hm; [reflexivity|].
  cbn [map fold_left]. rewrite math_max_from_step
    by (rewrite of_Z_canon by assumption; auto using canon_not_nan, canon_not_neg_zero).
  rewrite SFltb_of_Z by assumption.
  destruct (Z.ltb_spec m n).
  - rewrite Z.max_r by lia. now apply IH.
  - rewrite Z.max_l by lia. now apply IH.
Qed.

(** [Math.max] of safe integers is their maximum. *)
Lemma math_max_of_Z (n : Z) (ns : list Z) :
  safe n -> Forall safe ns -> math_max (map of_Z (n :: ns)) = of_Z (fold_left Z.max ns n).
Proof.
  intros Hn Hns. unfold math_max. cbn [map].
  rewrite math_max_from_step by (try rewrite of_Z_canon by assumption;
    auto using canon_not_nan; discriminate).
  replace (SFltb neg_infinity (of_Z n)) with true
    by (rewrite of_Z_canon by assumption; destruct n; reflexivity).
  now apply math_max_from_of_Z.
Qed.

Lemma is_finite_of_Z (n : Z) : safe n -> is_finite (of_Z n) = true.
Proof. intros H. rewrite of_Z_canon by exact H. destruct n; reflexivity. Qed.

Lemma or_zero_of_Z (n : Z) : safe n -> or_zero (of_Z n) = of_Z n.
Proof. intros H. unfold or_zero. rewrite of_Z_canon by exact H. destruct n; reflexivity. Qed.

(** ** [2^53], the first integer past the safe range *)

Lemma of_Z_2_53 : of_Z (2 ^ 53) = S754_finite false (2 ^ 52) 1.
Proof. vm_compute. reflexivity. Qed.

Lemma SFltb_safe_2_53 (m : Z) : safe m -> SFltb (of_Z m) (of_Z (2 ^ 53)) = true.
Proof.
  intros Hm. rewrite of_Z_2_53, (of_Z_canon m) by exact Hm.
  destruct m as [|p|p]; [reflexivity| |reflexivity].
  pose proof (digits_le_53 p ltac:(unfold safe in Hm; lia)).
  unfold SFltb, SFcompare, canon. replace (digits p - 53 ?= 1) with Lt by (symmetry; apply Z.compare_lt_iff; lia).
  reflexivity.
Qed.

Lemma SFltb_2_53_safe (m : Z) : safe m -> SFltb (of_Z (2 ^ 53)) (of_Z m) = false.
Proof.
  intros Hm. rewrite of_Z_2_53, (of_Z_canon m) by exact Hm.
  destruct m as [|p|p]; [reflexivity| |reflexivity].
  pose proof (digits_le_53 p ltac:(unfold safe in Hm; lia)).
  unfold SFltb, SFcompare, canon. replace (1 ?= digits p - 53) with Gt by (symmetry; apply Z.compare_gt_iff; lia).
  reflexivity.
Qed.

Lemma of_Z_2_53_ok (z : Z) : z = 2 ^ 53 \/ safe z -> of_Z z <> S754_nan /\ of_Z z <> S754_zero true.
Proof.
  intros [->|Hz]; [rewrite of_Z_2_53; split; discriminate|].
  rewrite of_Z_canon by exact Hz. split; [apply canon_not_nan | apply canon_not_neg_zero].
Qed.

(** [Math.max] keeps [2^53] once it has seen it among safe integers. *)
Lemma math_max_from_2_53 (h : num) (zs : list Z) :
  (h = of_Z (2 ^ 53) \/ exists m, safe m /\ h = of_Z m /\ In (2 ^ 53) zs) ->
  Forall (fun z => z = 2 ^ 53 \/ safe z) zs ->
  math_max_from h (map of_Z zs) = of_Z (2 ^ 53).
Proof.
  intros Hh Hzs. revert h Hh. induction Hzs as [|z zs Hz _ IH]; intros h Hh.
  - destruct Hh as [->|(m & _ & _ & [])]; reflexivity.
  - destruct (of_Z_2_53_ok z Hz) as [Hn _]. cbn [map].
    assert (Hh0 : h <> S754_zero true)
      by (destruct Hh as [->|(m & Hm & -> & _)]; [rewrite of_Z_2_53; discriminate|
          rewrite of_Z_canon by exact Hm; apply canon_not_neg_zero]).
    rewrite math_max_from_step by assumption. apply IH.
    destruct Hh as [->|(m & Hm & -> & Hin)], Hz as [->|Hz].
    + left. now rewrite of_Z_2_53.
    + left. now rewrite SFltb_2_53_safe.
    + left. now rewrite SFltb_safe_2_53.
    + right. destruct Hin as [E|Hin]; [unfold safe in Hz; lia|].
      rewrite SFltb_of_Z by assumption. destruct (m <? z)%Z; eauto.
Qed.

Lemma math_max_2_53 (zs : list Z) :
  In (2 ^ 53) zs -> Forall (fun z => z = 2 ^ 53 \/ safe z) zs ->
  math_max (map of_Z zs) = of_Z (2 ^ 53).
Proof.
  intros Hin Hzs. destruct Hzs as [|z zs Hz Hzs]; [destruct Hin|]. unfold math_max. cbn [map].
  destruct (of_Z_2_53_ok z Hz) as [Hn _].
  rewrite math_max_from_step by (assumption || discriminate).
  replace (SFltb neg_infinity (of_Z z)) with true
    by (destruct Hz as [->|Hz]; [rewrite of_Z_2_53; reflexivity|
        rewrite of_Z_canon by exact Hz; destruct z; reflexivity]).
  apply math_max_from_2_53; [|exact Hzs].
  destruct Hz as [->|Hz]; [now left|]. right. exists z. split; [exact Hz|]. split; [reflexivity|].
  destruct Hin as [E|Hin]; [unfold safe in Hz; lia | exact Hin].
Qed.

Lemma is_finite_2_53 (z : Z) : z = 2 ^ 53 \/ safe z -> is_finite (of_Z z) = true.
Proof. intros [->|Hz]; [reflexivity | now apply is_finite_of_Z]. Qed.

End SafeInt.
