(* ===== verification/Payments.v ===== *)
(** * The payment store of [src/www/app.js]

    The closure variable [payments] (line 7) is a list of records
    [{id, amount, date}] whose [id] and [amount] are numbers ([JsNum.num])
    and [date] a string.  This file models what each store operation does to
    that list: [nextId] (lines 99-102), the record [addPayment] pushes
    (lines 182-187), the in-place update of [updatePayment] (lines 193-196,
    with its early return when no record matches), the [filter] of
    [deletePayment] (line 202), [clearAll] (line 208) and [getTotals]
    (lines 104-107).  The [save()] and [render()] that follow each operation
    are modelled with the page state in [App.v].

    Theorems: the effect of each operation on every branch (present or
    absent id, first match only for update, every match for delete), the
    summary after an addition, the scenario of the specification, and, on
    the safe integers of [SafeInt.v], fresh increasing ids and exact
    totals. *)

From Stdlib Require Import ZArith String Ascii List Bool Lia Permutation.
From Corelib Require Import SpecFloat.
From S2P Require Import Prelude JsString Calendar Dates JsNumber SafeInt.
Import ListNotations.

Module Store.

Import JsNum DateUtil SafeInt.

(** ** Data *)

(** A payment record as [addPayment] creates it. *)
Record payment := mk_payment {
  id : num;
  amount : num;
  date : string
}.

(** ** Operations *)

(** [nextId()]: one more than the largest finite id, or 1. *)
Definition nextId (payments : list payment) : num :=
  let ids := filter is_finite (map id payments) in
  match ids with
  | [] => of_Z 1
  | _ => num_add (math_max ids) (of_Z 1)
  end.

(** [addPayment(amount, date)] on the list: [payments.push] of a record
    with the next id, the amount [Number(amount) || 0] and the date
    [date ? date.slice(0, 10) : '']. *)
Definition addPayment (amount_in date_in : string) (payments : list payment) : list payment :=
  payments ++ [mk_payment (nextId payments) (or_zero (js_Number amount_in)) (stored_date date_in)].

(** The record [payments.find((x) => x.id === Number(id))] returns, and the
    list with that record updated by [f]: the in-place mutation of
    [p.amount] and [p.date] is seen through the list, which holds the
    object. *)
Fixpoint update_first (key : num) (f : payment -> payment) (payments : list payment)
  : option (list payment) :=
  match payments with
  | [] => None
  | p :: rest =>
      if strict_eq (id p) key then Some (f p :: rest)
      else option_map (cons p) (update_first key f rest)
  end.

(** [updatePayment(id, amount, date)] on the list: [None] is the early
    [return] when no record has the id (nothing is saved or rendered). *)
Definition updatePayment (id_in amount_in date_in : string) (payments : list payment)
  : option (list payment) :=
  update_first (js_Number id_in)
    (fun p => mk_payment (id p) (or_zero (js_Number amount_in)) (stored_date date_in))
    payments.

(** [deletePayment(id)] on the list: [payments.filter((p) => p.id !== Number(id))]. *)
Definition deletePayment (id_in : string) (payments : list payment) : list payment :=
  filter (fun p => negb (strict_eq (id p) (js_Number id_in))) payments.

(** [clearAll()] on the list. *)
Definition clearAll (payments : list payment) : list payment := [].

(** [getTotals()]: the sum of [Number(p.amount) || 0] from [0], left to
    right, and the number of records (named [totalMonths] in the source). *)
Definition getTotals (payments : list payment) : num * nat :=
  (fold_left (fun sum p => num_add sum (or_zero (amount p))) payments (of_Z 0),
   length payments).

(** What [nextId] computes on integer ids: their maximum plus one, or 1. *)
Definition next_int (ns : list Z) : Z :=
  match ns with
  | [] => 1
  | n :: rest => fold_left Z.max rest n + 1
  end.

(** Two payments, of 100 on 2024-01-15 and of 200 on 2024-02-20, with
    ids 1 and 2: the state of the specification's scenario. *)
Definition sample_payments : list payment :=
  addPayment "200" "2024-02-20" (addPayment "100" "2024-01-15" []).

(** ** Lemmas *)

Lemma update_first_none (key : num) (f : payment -> payment) (ps : list payment) :
  update_first key f ps = None <-> Forall (fun p => strict_eq (id p) key = false) ps.
Proof.
  induction ps as [|p ps IH]; simpl.
  - split; auto.
  - destruct (strict_eq (id p) key) eqn:E.
    + split; [discriminate | intros H; inversion H; congruence].
    + destruct (update_first key f ps); simpl; split; intros H.
      * discriminate.
      * inversion H; subst. apply IH in H3. discriminate.
      * constructor; [assumption | apply IH; reflexivity].
      * reflexivity.
Qed.

(** When a record has the key, [update_first] splits the list at the first
    such record and replaces that record only. *)
Lemma update_first_some (key : num) (f : payment -> payment) (ps : list payment) :
  Exists (fun p => strict_eq (id p) key = true) ps ->
  exists pre p post,
    ps = pre ++ p :: post
    /\ Forall (fun q => strict_eq (id q) key = false) pre
    /\ strict_eq (id p) key = true
    /\ update_first key f ps = Some (pre ++ f p :: post).
Proof.
  induction ps as [|q ps IH]; intros H; [inversion H|]. simpl.
  destruct (strict_eq (id q) key) eqn:E.
  - exists [], q, ps. auto.
  - inversion H as [? ? Hq|? ? Hex]; subst; [congruence|].
    destruct (IH Hex) as (pre & p & post & -> & Hpre & Hp & Hu).
    exists (q :: pre), p, post. rewrite Hu. simpl. auto.
Qed.

Lemma update_first_ids (key : num) (f : payment -> payment) (ps ps' : list payment) :
  (forall p, id (f p) = id p) ->
  update_first key f ps = Some ps' -> map id ps' = map id ps.
Proof.
  intros Hf. revert ps'. induction ps as [|p ps IH]; intros ps' H; simpl in H; [discriminate|].
  destruct (strict_eq (id p) key).
  - inversion H; subst. simpl. now rewrite Hf.
  - destruct (update_first key f ps) as [r|] eqn:E; simpl in H; [|discriminate].
    inversion H; subst. simpl. now rewrite (IH r eq_refl).
Qed.

Lemma or_zero_idem (x : num) : or_zero (or_zero x) = or_zero x.
Proof. destruct x as [[]|[]| |[] ? ?]; reflexivity. Qed.

(** Ids below [2^53 - 1] in magnitude: their maximum plus one is still a
    safe integer. *)
Definition id_bound (n : Z) : Prop := (Z.abs n < 2 ^ 53 - 1)%Z.

Lemma id_bound_safe (n : Z) : id_bound n -> safe n.
Proof. unfold id_bound, safe. lia. Qed.

Lemma filter_finite_of_Z (ns : list Z) :
  Forall (fun n => is_finite (of_Z n) = true) ns -> filter is_finite (map of_Z ns) = map of_Z ns.
Proof.
  induction 1 as [|n ns Hn _ IH]; [reflexivity|].
  cbn [map filter]. now rewrite Hn, IH.
Qed.

(** [nextId()] on integer ids is their maximum plus one. *)
Lemma nextId_of_Z (ps : list payment) (n : Z) (ns : list Z) :
  map id ps = map of_Z (n :: ns) -> Forall id_bound (n :: ns) ->
  nextId ps = of_Z (fold_left Z.max ns n + 1).
Proof.
  intros Hids Hb. assert (Hs : Forall safe (n :: ns))
    by (eapply Forall_impl; [exact id_bound_safe | exact Hb]).
  assert (HM : id_bound (fold_left Z.max ns n))
    by (eapply Forall_forall; [exact Hb | apply fold_left_max_in]).
  unfold nextId. rewrite Hids, filter_finite_of_Z
    by (eapply Forall_impl; [exact is_finite_of_Z | exact Hs]).
  inversion Hs as [|? ? Hn Hns]; subst. cbn [map].
  change (of_Z n :: map of_Z ns) with (map of_Z (n :: ns)).
  rewrite math_max_of_Z by assumption. unfold id_bound, safe in *.
  apply num_add_of_Z; unfold safe; lia.
Qed.

Lemma ids_nil (ps : list payment) : map id ps = map of_Z [] -> ps = [].
Proof. destruct ps; [reflexivity|discriminate]. Qed.

(** The sum [getTotals] folds, on integer amounts whose partial sums stay
    safe. *)
Lemma fold_amounts_of_Z (ps : list payment) (ns : list Z) (s : Z) :
  map amount ps = map of_Z ns -> Forall (Z.le 0) ns -> (0 <= s)%Z ->
  (s + fold_right Z.add 0%Z ns < 2 ^ 53)%Z ->
  fold_left (fun sum p => num_add sum (or_zero (amount p))) ps (of_Z s)
  = of_Z (s + fold_right Z.add 0%Z ns).
Proof.
  revert ns s. induction ps as [|p ps IH]; intros [|n ns] s Ha Hn Hs Hb; try discriminate Ha.
  - cbn. now rewrite Z.add_0_r.
  - injection Ha as Hp Ha. inversion Hn as [|? ? Hn0 Hns]; subst.
    cbn [fold_left fold_right] in *.
    assert (0 <= fold_right Z.add 0%Z ns)%Z.
    { clear -Hns. induction Hns; simpl; lia. }
    rewrite Hp, or_zero_of_Z, num_add_of_Z by (unfold safe; lia).
    rewrite (IH ns) by (auto; lia). f_equal. lia.
Qed.

Lemma next_int_gt (ns : list Z) : Forall (fun n => (n < next_int ns)%Z) ns.
Proof.
  destruct ns as [|n ns]; [constructor|]. apply Forall_forall. intros k Hk.
  pose proof (fold_left_max_ge ns n k Hk). simpl. lia.
Qed.

Lemma next_int_range (ns : list Z) (k : Z) :
  (0 <= k)%Z -> Forall (fun n => (1 <= n <= k)%Z) ns -> (1 <= next_int ns <= k + 1)%Z.
Proof.
  intros Hk Hb. destruct ns as [|n ns]; simpl; [lia|].
  pose proof (fold_left_max_in ns n) as Hin. rewrite Forall_forall in Hb.
  specialize (Hb _ Hin). lia.
Qed.

Lemma NoDup_snoc_fresh (ns : list Z) (m : Z) :
  NoDup ns -> Forall (fun n => (n < m)%Z) ns -> NoDup (ns ++ [m]).
Proof.
  intros Hnd Hlt. apply (Permutation_NoDup (Permutation_app_comm _ _)).
  constructor; [|exact Hnd]. intros Hin. rewrite Forall_forall in Hlt.
  specialize (Hlt _ Hin). lia.
Qed.

(** [addPayment] on integer ids appends the id [next_int]. *)
Lemma addPayment_ids (amount_in date_in : string) (ps : list payment) (ns : list Z) :
  map id ps = map of_Z ns -> Forall id_bound ns ->
  map id (addPayment amount_in date_in ps) = map of_Z (ns ++ [next_int ns]).
Proof.
  intros Hids Hb. unfold addPayment. rewrite !List.map_app, Hids. f_equal.
  destruct ns as [|n ns]; [now apply ids_nil in Hids; subst|].
  cbn [map]. now rewrite (nextId_of_Z ps n ns Hids Hb).
Qed.

Lemma next_int_bound (ns : list Z) :
  Forall id_bound ns -> safe (next_int ns).
Proof.
  intros Hb. unfold safe. destruct ns as [|n ns]; simpl; [lia|].
  assert (HM : id_bound (fold_left Z.max ns n))
    by (eapply Forall_forall; [exact Hb | apply fold_left_max_in]).
  unfold id_bound in HM. lia.
Qed.

(** [deletePayment] on integer ids keeps the ids the filter keeps. *)
Lemma deletePayment_ids (id_in : string) (ps : list payment) (ns : list Z) :
  map id ps = map of_Z ns ->
  map id (deletePayment id_in ps)
  = map of_Z (filter (fun n => negb (strict_eq (of_Z n) (js_Number id_in))) ns).
Proof.
  revert ns. induction ps as [|p ps IH]; intros [|n ns] H; try discriminate H; [reflexivity|].
  injection H as Hp H. unfold deletePayment in *. cbn [filter]. rewrite Hp.
  destruct (negb (strict_eq (of_Z n) (js_Number id_in))); cbn [map]; rewrite ?Hp;
    now rewrite (IH ns).
Qed.

(** When [find] returns [p] and [f] leaves [p] as it is, [update_first]
    gives the list back. *)
Lemma update_first_find (key : num) (f : payment -> payment) (ps : list payment) (p : payment) :
  find (fun x => strict_eq (id x) key) ps = Some p -> f p = p -> update_first key f ps = Some ps.
Proof.
  intros Hf Hp. induction ps as [|q ps IH]; [discriminate|]. cbn [find update_first] in *.
  destruct (strict_eq (id q) key).
  - injection Hf as ->. now rewrite Hp.
  - now rewrite IH.
Qed.

(** ** Theorems *)

(** C2: [updatePayment] with an id no record has is the early return: nothing
    is changed, saved or rendered. *)
Theorem updatePayment_absent (id_in amount_in date_in : string) (ps : list payment) :
  Forall (fun p => strict_eq (id p) (js_Number id_in) = false) ps ->
  updatePayment id_in amount_in date_in ps = None.
Proof. intros H. now apply update_first_none. Qed.

(** C1: [updatePayment] with an id some record has replaces the amount and the
    date of the first such record, keeps its id, and leaves every other
    record, and the order, as they were. *)
Theorem updatePayment_present (id_in amount_in date_in : string) (ps : list payment) :
  Exists (fun p => strict_eq (id p) (js_Number id_in) = true) ps ->
  exists pre p post,
    ps = pre ++ p :: post
    /\ Forall (fun q => strict_eq (id q) (js_Number id_in) = false) pre
    /\ strict_eq (id p) (js_Number id_in) = true
    /\ updatePayment id_in amount_in date_in ps
       = Some (pre ++ mk_payment (id p) (or_zero (js_Number amount_in)) (stored_date date_in)
                 :: post).
Proof. intros H. now apply update_first_some. Qed.

(** [updatePayment] never changes an id nor the number of records. *)
Theorem updatePayment_keeps_ids (id_in amount_in date_in : string) (ps ps' : list payment) :
  updatePayment id_in amount_in date_in ps = Some ps' ->
  map id ps' = map id ps /\ length ps' = length ps.
Proof.
  intros H. apply update_first_ids in H; [|reflexivity].
  split; [exact H|]. rewrite <- (length_map id ps'), H. apply length_map.
Qed.

(** C3: [deletePayment] keeps exactly the records whose id differs from
    [Number(id)]: all matching records go, in their order the others stay. *)
Theorem deletePayment_spec (id_in : string) (ps : list payment) (p : payment) :
  In p (deletePayment id_in ps) <-> In p ps /\ strict_eq (id p) (js_Number id_in) = false.
Proof.
  unfold deletePayment. rewrite filter_In. now rewrite negb_true_iff.
Qed.

(** C4: [deletePayment] with an id no record has leaves the list unchanged. *)
Theorem deletePayment_absent (id_in : string) (ps : list payment) :
  Forall (fun p => strict_eq (id p) (js_Number id_in) = false) ps ->
  deletePayment id_in ps = ps.
Proof.
  induction 1 as [|p ps Hp _ IH]; [reflexivity|].
  unfold deletePayment in *. simpl. now rewrite Hp, IH.
Qed.

(** C5: [deletePayment] of an id exactly one record has removes one record. *)
Theorem deletePayment_one (id_in : string) (ps : list payment) :
  length (filter (fun p => strict_eq (id p) (js_Number id_in)) ps) = 1%nat ->
  length (deletePayment id_in ps) = (length ps - 1)%nat.
Proof.
  intros H. unfold deletePayment.
  pose proof (filter_length (fun p => strict_eq (id p) (js_Number id_in)) ps) as Hl.
  cbv beta in Hl. lia.
Qed.

(** After [addPayment], the summary is the previous total plus the
    coerced amount (one more binary64 addition), and one more record. *)
Theorem getTotals_addPayment (amount_in date_in : string) (ps : list payment) :
  getTotals (addPayment amount_in date_in ps)
  = (num_add (fst (getTotals ps)) (or_zero (js_Number amount_in)), S (length ps)).
Proof.
  unfold getTotals, addPayment. simpl fst.
  rewrite fold_left_snoc, length_app. simpl. rewrite or_zero_idem.
  f_equal. lia.
Qed.

(** After [clearAll], the next payment gets the id 1. *)
Theorem addPayment_after_clearAll (amount_in date_in : string) (ps : list payment) :
  addPayment amount_in date_in (clearAll ps)
  = [mk_payment (of_Z 1) (or_zero (js_Number amount_in)) (stored_date date_in)].
Proof. reflexivity. Qed.

(** C11: Ids stay unique and increasing: on distinct integer ids below
    [2^53 - 1] in magnitude, [addPayment] gives the new record an integer id
    greater than every id present, itself a safe integer, so the ids stay
    distinct. *)
Theorem addPayment_fresh_id (amount_in date_in : string) (ps : list payment) (ns : list Z) :
  map id ps = map of_Z ns -> NoDup ns -> Forall id_bound ns ->
  exists m, map id (addPayment amount_in date_in ps) = map of_Z (ns ++ [m])
            /\ NoDup (ns ++ [m]) /\ safe m /\ Forall (fun n => (n < m)%Z) ns.
Proof.
  intros Hids Hnd Hb. exists (next_int ns).
  split; [exact (addPayment_ids amount_in date_in ps ns Hids Hb)|].
  split; [exact (NoDup_snoc_fresh ns _ Hnd (next_int_gt ns))|].
  split; [exact (next_int_bound ns Hb) | exact (next_int_gt ns)].
Qed.

(** C12: The spec's sum, where it holds: amounts that are non-negative
    integers with a total below [2^53] are added exactly, so [getTotals]
    is their arithmetic sum and the number of records. *)
Theorem getTotals_exact (ps : list payment) (ns : list Z) :
  map amount ps = map of_Z ns -> Forall (Z.le 0) ns -> (fold_right Z.add 0%Z ns < 2 ^ 53)%Z ->
  getTotals ps = (of_Z (fold_right Z.add 0%Z ns), length ps).
Proof.
  intros Ha Hn Hb. unfold getTotals. rewrite fold_amounts_of_Z with (ns := ns) by (auto; lia).
  reflexivity.
Qed.

(** The scenario of the specification (section 8): two additions of 100
    and 200, the summary [300, 2], deletion of id 1, the summary [200, 1]. *)
Example spec_scenario :
  getTotals (addPayment "200" "2024-02-20" (addPayment "100" "2024-01-15" [])) = (of_Z 300, 2%nat)
  /\ getTotals (deletePayment "1" (addPayment "200" "2024-02-20" (addPayment "100" "2024-01-15" [])))
     = (of_Z 200, 1%nat).
Proof. vm_compute. split; reflexivity. Qed.

(** Witness: the amount of payment 2 becomes 250. *)
Lemma updatePayment_present_witness :
  Exists (fun p => strict_eq (id p) (js_Number "2") = true) sample_payments
  /\ exists pre p post,
    sample_payments = pre ++ p :: post
    /\ Forall (fun q => strict_eq (id q) (js_Number "2") = false) pre
    /\ strict_eq (id p) (js_Number "2") = true
    /\ updatePayment "2" "250" "2024-02-21" sample_payments
       = Some (pre ++ mk_payment (id p) (or_zero (js_Number "250")) (stored_date "2024-02-21")
                 :: post).
Proof.
  assert (H : Exists (fun p => strict_eq (id p) (js_Number "2") = true) sample_payments).
  { apply Exists_of_existsb. vm_compute. reflexivity. }
  split; [exact H | exact (updatePayment_present "2" "250" "2024-02-21" sample_payments H)].
Defined.

(** Witness: there is no payment 3. *)
Lemma updatePayment_absent_witness :
  Forall (fun p => strict_eq (id p) (js_Number "3") = false) sample_payments
  /\ updatePayment "3" "250" "" sample_payments = None.
Proof.
  assert (H : Forall (fun p => strict_eq (id p) (js_Number "3") = false) sample_payments).
  { apply Forall_false_of_forallb. vm_compute. reflexivity. }
  split; [exact H | exact (updatePayment_absent "3" "250" "" sample_payments H)].
Defined.

(** Witness: deleting the absent payment 3. *)
Lemma deletePayment_absent_witness :
  Forall (fun p => strict_eq (id p) (js_Number "3") = false) sample_payments
  /\ deletePayment "3" sample_payments = sample_payments.
Proof.
  assert (H : Forall (fun p => strict_eq (id p) (js_Number "3") = false) sample_payments).
  { apply Forall_false_of_forallb. vm_compute. reflexivity. }
  split; [exact H | exact (deletePayment_absent "3" sample_payments H)].
Defined.

(** Witness: deleting payment 1. *)
Lemma deletePayment_one_witness :
  length (filter (fun p => strict_eq (id p) (js_Number "1")) sample_payments) = 1%nat
  /\ length (deletePayment "1" sample_payments) = (length sample_payments - 1)%nat.
Proof.
  assert (H : length (filter (fun p => strict_eq (id p) (js_Number "1")) sample_payments) = 1%nat)
    by (vm_compute; reflexivity).
  split; [exact H | exact (deletePayment_one "1" sample_payments H)].
Defined.

(** Witness: the update of payment 2. *)
Lemma updatePayment_keeps_ids_witness :
  updatePayment "2" "250" "" sample_payments
  = Some (addPayment "250" "" (addPayment "100" "2024-01-15" []))
  /\ map id (addPayment "250" "" (addPayment "100" "2024-01-15" [])) = map id sample_payments
  /\ length (addPayment "250" "" (addPayment "100" "2024-01-15" [])) = length sample_payments.
Proof.
  assert (H : updatePayment "2" "250" "" sample_payments
              = Some (addPayment "250" "" (addPayment "100" "2024-01-15" [])))
    by (vm_compute; reflexivity).
  split; [exact H | exact (updatePayment_keeps_ids _ _ _ _ _ H)].
Defined.

(** C34: [nextId] stops at [2^53].  When the ids are integers, one of
    them [2^53] and the others safe, [Math.max(...ids) + 1] rounds back to
    [2^53]: [nextId] returns an id already present, so the next
    [addPayment] gives two records the same id. *)
Theorem nextId_repeats_2_53 (ps : list payment) (zs : list Z) :
  map id ps = map of_Z zs -> In (2 ^ 53)%Z zs ->
  Forall (fun z => z = (2 ^ 53)%Z \/ safe z) zs ->
  nextId ps = of_Z (2 ^ 53) /\ In (nextId ps) (map id ps).
Proof.
  intros Hids Hin Hzs.
  assert (E : nextId ps = of_Z (2 ^ 53)).
  { unfold nextId. rewrite Hids, filter_finite_of_Z
      by (eapply Forall_impl; [exact is_finite_2_53 | exact Hzs]).
    destruct zs as [|z zs]; [destruct Hin|]. cbn [map].
    change (of_Z z :: map of_Z zs) with (map of_Z (z :: zs)).
    rewrite math_max_2_53 by assumption. vm_compute. reflexivity. }
  split; [exact E|]. rewrite E, Hids. now apply in_map.
Qed.

Lemma nextId_repeats_2_53_witness :
  map id [mk_payment (js_Number "9007199254740992") (of_Z 5) ""; mk_payment (of_Z 7) (of_Z 1) ""]
  = map of_Z [2 ^ 53; 7]%Z
  /\ nextId [mk_payment (js_Number "9007199254740992") (of_Z 5) ""; mk_payment (of_Z 7) (of_Z 1) ""]
     = of_Z (2 ^ 53).
Proof.
  assert (H : map id [mk_payment (js_Number "9007199254740992") (of_Z 5) "";
                      mk_payment (of_Z 7) (of_Z 1) ""] = map of_Z [2 ^ 53; 7]%Z)
    by (vm_compute; reflexivity).
  split; [exact H|].
  refine (proj1 (nextId_repeats_2_53 _ _ H _ _)); [now left |].
  constructor; [now left | constructor; [right; unfold safe; lia | constructor]].
Defined.

Lemma addPayment_fresh_id_witness :
  map id sample_payments = map of_Z [1; 2]%Z /\ NoDup [1; 2]%Z /\ Forall id_bound [1; 2]%Z
  /\ exists m, map id (addPayment "5" "" sample_payments) = map of_Z ([1; 2] ++ [m])%Z
               /\ NoDup ([1; 2] ++ [m])%Z /\ safe m /\ Forall (fun n => (n < m)%Z) [1; 2]%Z.
Proof.
  assert (H1 : map id sample_payments = map of_Z [1; 2]%Z) by (vm_compute; reflexivity).
  assert (H2 : NoDup [1; 2]%Z) by (repeat constructor; simpl; lia).
  assert (H3 : Forall id_bound [1; 2]%Z) by (repeat constructor; unfold id_bound; lia).
  split; [exact H1 | split; [exact H2 | split; [exact H3 |]]].
  exact (addPayment_fresh_id "5" "" sample_payments [1; 2]%Z H1 H2 H3).
Defined.

Lemma getTotals_exact_witness :
  map amount sample_payments = map of_Z [100; 200]%Z /\ Forall (Z.le 0) [100; 200]%Z
  /\ (fold_right Z.add 0%Z [100; 200] < 2 ^ 53)%Z
  /\ getTotals sample_payments = (of_Z 300, 2%nat).
Proof.
  assert (H1 : map amount sample_payments = map of_Z [100; 200]%Z) by (vm_compute; reflexivity).
  assert (H2 : Forall (Z.le 0) [100; 200]%Z) by (repeat constructor; lia).
  assert (H3 : (fold_right Z.add 0%Z [100; 200] < 2 ^ 53)%Z) by (simpl; lia).
  split; [exact H1 | split; [exact H2 | split; [exact H3 |]]].
  exact (getTotals_exact sample_payments [100; 200]%Z H1 H2 H3).
Defined.

End Store.
