(* ===== verification/Storage.v ===== *)
(** * Persistence of [src/www/app.js]: [load] and [save]

    [save()] (lines 55-59) writes [JSON.stringify(payments)] to the
    storage slot ['loan-payment-tracker'] and swallows a failing write
    (the quota error of [localStorage.setItem]).  [load()] (lines 46-53)
    reads the slot: an absent or empty slot gives [[]], text that
    [JSON.parse] rejects gives [[]], and any other JSON value becomes the
    new [payments], whatever its shape.

    The slot is an [option string] ([None]: no item).  [JSON.stringify] is
    modelled on the payment records the program creates (objects with the
    properties [id], [amount], [date] in this order); [JSON.parse] on all
    JSON texts, its result a [jvalue].  A JSON value is read back as a
    typed payment list when it has exactly the shape [save] writes
    ([decode_payments]); any other value is kept as [Foreign]: the program
    then holds a non-list or untyped records, which the typed store does
    not model.  Strings are code units 0..255: a string literal with a
    [\u] escape above [00ff], which [JSON.parse] accepts, is read as the
    value [JWide] (its text not kept), so such a slot loads as [Foreign]
    and stays outside the typed model instead of being taken for a syntax
    error. *)

From Stdlib Require Import ZArith String Ascii List Bool Lia.
From Corelib Require Import SpecFloat.
From S2P Require Import Prelude JsString Calendar Dates JsNumber Payments.
Import ListNotations.

Module Persist.

Import StrBuiltins JsNum Store.
Local Open Scope string_scope.

(** ** JSON values *)

Inductive jvalue :=
| JNull
| JBool (b : bool)
| JNumber (n : num)
| JString (s : string)
| JWide
| JArray (items : list jvalue)
| JObject (fields : list (string * jvalue)).

(** The double quote, written by its code. *)
Definition dq : ascii := ascii_of_nat 34.
Definition backslash : ascii := ascii_of_nat 92.

(** ** [JSON.stringify] *)

Definition hex_char (d : nat) : ascii :=
  if (d <? 10)%nat then ascii_of_nat (d + 48) else ascii_of_nat (d + 87).

(** The escape of one code unit by QuoteJSONString (ECMA-262 25.5.2.3). *)
Definition quote_char (c : ascii) : string :=
  let n := nat_of_ascii c in
  if (n =? 8)%nat then String backslash "b"
  else if (n =? 9)%nat then String backslash "t"
  else if (n =? 10)%nat then String backslash "n"
  else if (n =? 12)%nat then String backslash "f"
  else if (n =? 13)%nat then String backslash "r"
  else if (n =? 34)%nat then String backslash (String dq "")
  else if (n =? 92)%nat then String backslash (String backslash "")
  else if (n <? 32)%nat then
    String backslash (String "u" (String "0" (String "0"
      (String (hex_char (n / 16)) (String (hex_char (n mod 16)) "")))))
  else String c "".

Fixpoint quote_chars (s : string) : string :=
  match s with
  | EmptyString => ""
  | String c r => quote_char c ++ quote_chars r
  end.

Definition json_quote (s : string) : string := String dq (quote_chars s ++ String dq "").

(** SerializeJSONProperty of a number: [null] when it is not finite. *)
Definition json_number (x : num) : string :=
  if is_finite x then num_to_string x else "null".

Fixpoint join_comma (items : list string) : string :=
  match items with
  | [] => ""
  | [x] => x
  | x :: rest => x ++ String "," (join_comma rest)
  end.

(** One member [k:v] of an object, from the serialized value [v]. *)
Definition json_member (kv : string * string) : string :=
  json_quote (fst kv) ++ String ":" (snd kv).

(** SerializeJSONObject: [{"k":v,...}] from the serialized members. *)
Definition json_object (members : list (string * string)) : string :=
  String "{" (join_comma (map json_member members) ++ "}").

(** SerializeJSONArray: [[v,...]] from the serialized elements. *)
Definition json_array (items : list string) : string :=
  String "[" (join_comma items ++ "]").

(** [JSON.stringify] of one record [{id, amount, date}], its properties in
    creation order. *)
Definition payment_json (p : payment) : string :=
  json_object [("id", json_number (id p)); ("amount", json_number (amount p));
               ("date", json_quote (date p))].

(** [JSON.stringify(payments)]. *)
Definition stringify_payments (ps : list payment) : string :=
  json_array (map payment_json ps).

(** ** [JSON.parse] *)

Definition json_ws (c : ascii) : bool :=
  let n := nat_of_ascii c in (n =? 32)%nat || (n =? 9)%nat || (n =? 10)%nat || (n =? 13)%nat.

Fixpoint skip_ws (s : string) : string :=
  match s with
  | String c r => if json_ws c then skip_ws r else s
  | EmptyString => s
  end.

Definition hex_val (c : ascii) : option nat :=
  option_map Z.to_nat (hex_digit_val c).

(** One decoded code unit in front of the text read so far. *)
Definition cons_unit (d : ascii) (p : option string * string) : option string * string :=
  (option_map (String d) (fst p), snd p).

(** The characters of a string literal after its opening quote, up to the
    closing quote: escapes decoded, raw control characters refused.  The
    text is [None] when a [\u] escape gives a code unit above [00ff],
    which [JSON.parse] accepts but the model's strings cannot hold. *)
Fixpoint parse_chars (fuel : nat) (s : string) : option (option string * string) :=
  match fuel with
  | O => None
  | S f =>
      match s with
      | EmptyString => None
      | String c r =>
          if Ascii.eqb c dq then Some (Some "", r)
          else if (nat_of_ascii c <? 32)%nat then None
          else if Ascii.eqb c backslash then
            match r with
            | String e r' =>
                let simple :=
                  if Ascii.eqb e dq then Some dq
                  else if Ascii.eqb e backslash then Some backslash
                  else if Ascii.eqb e "/" then Some "/"%char
                  else if Ascii.eqb e "b" then Some (ascii_of_nat 8)
                  else if Ascii.eqb e "f" then Some (ascii_of_nat 12)
                  else if Ascii.eqb e "n" then Some (ascii_of_nat 10)
                  else if Ascii.eqb e "r" then Some (ascii_of_nat 13)
                  else if Ascii.eqb e "t" then Some (ascii_of_nat 9)
                  else None in
                match simple with
                | Some d => option_map (cons_unit d) (parse_chars f r')
                | None =>
                    match r' with
                    | String h1 (String h2 (String h3 (String h4 r''))) =>
                        if Ascii.eqb e "u" then
                          match hex_val h1, hex_val h2, hex_val h3, hex_val h4 with
                          | Some a, Some b, Some c3, Some d4 =>
                              let code := a * 4096 + b * 256 + c3 * 16 + d4 in
                              if (code <? 256)%nat then
                                option_map (cons_unit (ascii_of_nat code)) (parse_chars f r'')
                              else option_map (fun p => (None, snd p)) (parse_chars f r'')
                          | _, _, _, _ => None
                          end
                        else None
                    | _ => None
                    end
                end
            | EmptyString => None
            end
          else option_map (cons_unit c) (parse_chars f r)
      end
  end.

(** A JSON number: [-? (0 | [1-9][0-9]* ) (. [0-9]+)? ([eE] [+-]? [0-9]+)?]. *)
Definition parse_json_number (s : string) : option (num * string) :=
  let '(neg, s1) := match s with String "-" r => (true, r) | _ => (false, s) end in
  let '(int, r1) := take_digits s1 in
  let int_ok :=
    match int with
    | EmptyString => false
    | String "0" rest => String.eqb rest ""
    | _ => true
    end in
  if negb int_ok then None else
  let '(frac, ok_frac, r2) :=
    match r1 with
    | String "." r => let '(ds, r') := take_digits r in (ds, negb (String.eqb ds ""), r')
    | _ => ("", true, r1)
    end in
  if negb ok_frac then None else
  let '(e, ok_exp, r3) :=
    match r2 with
    | String c r =>
        if Ascii.eqb c "e" || Ascii.eqb c "E" then
          let '(sign, r') := match r with
                             | String "+" r' => (1%Z, r')
                             | String "-" r' => ((-1)%Z, r')
                             | _ => (1%Z, r)
                             end in
          let '(ds, r'') := take_digits r' in
          ((sign * dec_value ds)%Z, negb (String.eqb ds ""), r'')
        else (0%Z, true, r2)
    | EmptyString => (0%Z, true, r2)
    end in
  if negb ok_exp then None else
  let m := dec_value (int ++ frac) in
  let e10 := (e - Z.of_nat (String.length frac))%Z in
  Some (decimal_to_num neg m e10 (Z.of_nat (String.length (int ++ frac))), r3).

(** [s] without the prefix [p], when [s] starts with [p]. *)
Fixpoint strip_prefix (p s : string) : option string :=
  match p, s with
  | EmptyString, _ => Some s
  | String a p', String b s' => if Ascii.eqb a b then strip_prefix p' s' else None
  | _, _ => None
  end.

(** The value of a string literal: [JWide] for a text the model cannot hold. *)
Definition string_value (t : option string) : jvalue :=
  match t with
  | Some t => JString t
  | None => JWide
  end.

(** A member of an object; one whose key holds a code unit above [00ff]
    is kept as [("", JWide)]. *)
Definition member (k : option string) (v : jvalue) : string * jvalue :=
  match k with
  | Some k => (k, v)
  | None => ("", JWide)
  end.

(** The elements of an array after its first element starts, with the
    value parser [pv]; [g] bounds their number. *)
Fixpoint parse_items (pv : string -> option (jvalue * string)) (g : nat) (t : string)
    (acc : list jvalue) : option (jvalue * string) :=
  match g with
  | O => None
  | S g' =>
      match pv t with
      | Some (v, t1) =>
          match skip_ws t1 with
          | String c t2 =>
              if Ascii.eqb c "," then parse_items pv g' t2 (v :: acc)
              else if Ascii.eqb c "]" then Some (JArray (rev (v :: acc)), t2)
              else None
          | EmptyString => None
          end
      | None => None
      end
  end.

(** The members of an object after its opening brace, with the value
    parser [pv]; [g] bounds their number. *)
Fixpoint parse_members (pv : string -> option (jvalue * string)) (g : nat) (t : string)
    (acc : list (string * jvalue)) : option (jvalue * string) :=
  match g with
  | O => None
  | S g' =>
      match skip_ws t with
      | String q t0 =>
          if Ascii.eqb q dq then
            match parse_chars (String.length t0) t0 with
            | Some (k, t1) =>
                match skip_ws t1 with
                | String c t2 =>
                    if Ascii.eqb c ":" then
                      match pv t2 with
                      | Some (v, t3) =>
                          match skip_ws t3 with
                          | String d t4 =>
                              if Ascii.eqb d "," then parse_members pv g' t4 (member k v :: acc)
                              else if Ascii.eqb d "}" then Some (JObject (rev (member k v :: acc)), t4)
                              else None
                          | EmptyString => None
                          end
                      | None => None
                      end
                    else None
                | EmptyString => None
                end
            | None => None
            end
          else None
      | EmptyString => None
      end
  end.

(** A JSON value after white space, and the rest of the text; [fuel]
    bounds the nesting depth. *)
Fixpoint parse_value (fuel : nat) (s : string) : option (jvalue * string) :=
  match fuel with
  | O => None
  | S f =>
      let s := skip_ws s in
      match s with
      | EmptyString => None
      | String c r =>
          if Ascii.eqb c "n" then option_map (fun r' => (JNull, r')) (strip_prefix "ull" r)
          else if Ascii.eqb c "t" then option_map (fun r' => (JBool true, r')) (strip_prefix "rue" r)
          else if Ascii.eqb c "f" then option_map (fun r' => (JBool false, r')) (strip_prefix "alse" r)
          else if Ascii.eqb c "[" then
            match skip_ws r with
            | String "]" r' => Some (JArray [], r')
            | _ => parse_items (parse_value f) (String.length r) r []
            end
          else if Ascii.eqb c "{" then
            match skip_ws r with
            | String "}" r' => Some (JObject [], r')
            | _ => parse_members (parse_value f) (String.length r) r []
            end
          else if Ascii.eqb c dq then
            option_map (fun p => (string_value (fst p), snd p)) (parse_chars (String.length r) r)
          else option_map (fun '(x, rest) => (JNumber x, rest)) (parse_json_number s)
      end
  end.

(** [JSON.parse(text)]: one value and nothing after it but white space;
    [None] is the SyntaxError. *)
Definition json_parse (text : string) : option jvalue :=
  match parse_value (S (String.length text)) text with
  | Some (v, rest) => if String.eqb (skip_ws rest) "" then Some v else None
  | None => None
  end.

(** ** Reading back what [JSON.stringify] wrote *)

(** The delimiters that can follow a serialized value. *)
Definition delimiter (c : ascii) : Prop := c = ","%char \/ c = "}"%char \/ c = "]"%char.

(** The text [t] is read by [pv] as [v], whatever delimiter follows. *)
Definition reads_as (pv : string -> option (jvalue * string)) (t : string) (v : jvalue) : Prop :=
  forall c rest, delimiter c -> pv (t ++ String c rest) = Some (v, String c rest).

(** The JSON text of the number [x] reads back as [x]: true of every
    finite number whose [Number::toString] digits read back as itself, and
    false of [NaN], the infinities (written [null]) and [-0] (written [0]). *)
Definition reads_back (x : num) : Prop :=
  forall c rest, delimiter c ->
    parse_json_number (json_number x ++ String c rest) = Some (x, String c rest).



(** The value [JSON.parse] gives for one record. *)
Definition payment_value (p : payment) : jvalue :=
  JObject [("id", JNumber (id p)); ("amount", JNumber (amount p)); ("date", JString (date p))].

(** The numbers of a record read back. *)
Definition numbers_read_back (p : payment) : Prop := reads_back (id p) /\ reads_back (amount p).

(** The value [JSON.parse] gives back for a number [JSON.stringify] wrote:
    [null] for [NaN] and the infinities. *)
Definition number_value (x : num) : jvalue := if is_finite x then JNumber x else JNull.

(** The value [JSON.parse] gives back for a record [JSON.stringify] wrote. *)
Definition written_value (p : payment) : jvalue :=
  JObject [("id", number_value (id p)); ("amount", number_value (amount p));
           ("date", JString (date p))].

(** A number whose JSON text is [null] or reads back as itself. *)
Definition written_ok (x : num) : Prop := reads_back x \/ is_finite x = false.

(** The storage key of line 4. *)
Definition STORAGE_KEY : string := "loan-payment-tracker".

(** A record of the shape [save] writes. *)
Definition decode_payment (v : jvalue) : option payment :=
  match v with
  | JObject [("id", JNumber i); ("amount", JNumber a); ("date", JString d)] =>
      Some (mk_payment i a d)
  | _ => None
  end.

Fixpoint decode_all (vs : list jvalue) : option (list payment) :=
  match vs with
  | [] => Some []
  | v :: rest =>
      match decode_payment v, decode_all rest with
      | Some p, Some ps => Some (p :: ps)
      | _, _ => None
      end
  end.

Definition decode_payments (v : jvalue) : option (list payment) :=
  match v with
  | JArray vs => decode_all vs
  | _ => None
  end.

(** What [load()] leaves in [payments]: a typed list, or a JSON value of
    another shape. *)
Inductive loaded :=
| Loaded (ps : list payment)
| Foreign (v : jvalue).

(** [load()] on the content of the slot: [raw ? JSON.parse(raw) : []],
    and [[]] when [JSON.parse] throws. *)
Definition load (raw : option string) : loaded :=
  match raw with
  | None => Loaded []
  | Some text =>
      if String.eqb text "" then Loaded []
      else match json_parse text with
           | None => Loaded []
           | Some v =>
               match decode_payments v with
               | Some ps => Loaded ps
               | None => Foreign v
               end
           end
  end.

(** [save()]: the new content of the slot; [write_ok = false] is a
    [setItem] that throws (quota), swallowed, the slot keeping its old
    content. *)
Definition save (write_ok : bool) (ps : list payment) (slot : option string) : option string :=
  if write_ok then Some (stringify_payments ps) else slot.

(** ** The storage port

    The interface the store relies on (the spec's [load() -> Collection],
    [save(Collection) -> Result]): reading the slot, and writing a
    collection to it, which may fail and leave the slot as it was. *)
Class StoragePort := {
  port_load : option string -> loaded;
  port_write : list payment -> option string -> option string
}.

(** What a port promises: an absent slot is the empty collection, and a
    write either fails, leaving the slot, or stores what reloads as the
    collection written. *)
Class StoragePortLaws `{StoragePort} : Prop := {
  port_absent : port_load None = Loaded [];
  port_write_sound : forall ps slot, Forall numbers_read_back ps ->
    port_write ps slot = slot \/ port_load (port_write ps slot) = Loaded ps
}.

(** A port whose writes never fail on collections that read back. *)
Definition port_reliable `{StoragePort} : Prop :=
  forall ps slot, Forall numbers_read_back ps -> port_load (port_write ps slot) = Loaded ps.

(** [localStorage] under the key [STORAGE_KEY]: [fits text] says whether
    [setItem] accepts [text] (it throws when the quota is exceeded). *)
#[export] Instance local_storage (fits : string -> bool) : StoragePort := {|
  port_load := load;
  port_write ps slot := save (fits (stringify_payments ps)) ps slot
|}.

(** ** Lemmas *)

(** Every code unit, escaped by [quote_char], is read back by one step of
    [parse_chars]; checked on the 256 code units. *)
Lemma parse_quote_char (c : ascii) (f : nat) (r : string) :
  parse_chars (S f) (quote_char c ++ r) = option_map (cons_unit c) (parse_chars f r).
Proof. destruct c as [[] [] [] [] [] [] [] []]; reflexivity. Qed.

Lemma parse_quote_chars (s r : string) (f : nat) :
  (String.length s < f)%nat ->
  parse_chars f (quote_chars s ++ String dq r) = Some (Some s, r).
Proof.
  revert f. induction s as [|c s IH]; intros f Hf.
  - destruct f; [simpl in Hf; lia | reflexivity].
  - destruct f as [|f]; [simpl in Hf; lia|]. simpl quote_chars.
    rewrite string_app_assoc, parse_quote_char, IH by (simpl in Hf; lia). reflexivity.
Qed.

Lemma length_quote_chars (s : string) : (String.length s <= String.length (quote_chars s))%nat.
Proof.
  induction s as [|c s IH]; simpl; [lia|]. rewrite string_length_app.
  assert (1 <= String.length (quote_char c))%nat.
  { destruct c as [[] [] [] [] [] [] [] []]; vm_compute; lia. }
  lia.
Qed.

Lemma delimiter_not_ws (c : ascii) : delimiter c -> json_ws c = false.
Proof. intros [->|[->| ->]]; reflexivity. Qed.

Lemma skip_ws_delim (c : ascii) (rest : string) :
  delimiter c -> skip_ws (String c rest) = String c rest.
Proof. intros H. simpl. now rewrite delimiter_not_ws. Qed.

(** A JSON number starts with a minus sign or a digit. *)
Lemma parse_json_number_start (s : string) (v : num) (r : string) :
  parse_json_number s = Some (v, r) ->
  exists c s', s = String c s' /\ (c = "-"%char \/ is_digit c = true).
Proof.
  destruct s as [|c s']; [discriminate|].
  destruct c as [[] [] [] [] [] [] [] []];
    first [ intros _; eexists _, _; split;
              [reflexivity | first [left; reflexivity | right; reflexivity]]
          | intros H; cbv in H; discriminate H ].
Qed.

(** A value that starts with neither white space, a literal, a bracket, a
    brace nor a quote is read as a number. *)
Lemma parse_value_other (f : nat) (c0 : ascii) (s' : string) :
  json_ws c0 = false -> Ascii.eqb c0 "n" = false -> Ascii.eqb c0 "t" = false ->
  Ascii.eqb c0 "f" = false -> Ascii.eqb c0 "[" = false -> Ascii.eqb c0 "{" = false ->
  Ascii.eqb c0 dq = false ->
  parse_value (S f) (String c0 s')
  = option_map (fun '(x, rest) => (JNumber x, rest)) (parse_json_number (String c0 s')).
Proof.
  intros Hw H1 H2 H3 H4 H5 H6. cbn [parse_value skip_ws].
  rewrite Hw, H1, H2, H3, H4, H5, H6. reflexivity.
Qed.

Lemma number_start_dispatch (c0 : ascii) :
  c0 = "-"%char \/ is_digit c0 = true ->
  json_ws c0 = false /\ Ascii.eqb c0 "n" = false /\ Ascii.eqb c0 "t" = false
  /\ Ascii.eqb c0 "f" = false /\ Ascii.eqb c0 "[" = false /\ Ascii.eqb c0 "{" = false
  /\ Ascii.eqb c0 dq = false.
Proof.
  intros [->|Hd]; [repeat split; reflexivity|].
  destruct c0 as [[] [] [] [] [] [] [] []]; try discriminate Hd; repeat split; reflexivity.
Qed.

Lemma parse_value_number (f : nat) (x : num) :
  reads_back x -> reads_as (parse_value (S f)) (json_number x) (JNumber x).
Proof.
  intros Hx c rest Hc. pose proof (Hx c rest Hc) as H.
  destruct (parse_json_number_start _ _ _ H) as (c0 & s' & E & Hc0).
  destruct (number_start_dispatch c0 Hc0) as (H0 & H1 & H2 & H3 & H4 & H5 & H6).
  rewrite E in *. rewrite parse_value_other, H by assumption. reflexivity.
Qed.

Lemma parse_value_string (f : nat) (d : string) :
  reads_as (parse_value (S f)) (json_quote d) (JString d).
Proof.
  intros c rest Hc. unfold json_quote. simpl. rewrite string_app_assoc. simpl.
  rewrite parse_quote_chars; [reflexivity|].
  rewrite string_length_app. pose proof (length_quote_chars d). simpl. lia.
Qed.

Lemma parse_member_step (pv : string -> option (jvalue * string)) (k t : string) (v : jvalue)
    (g : nat) (c : ascii) (rest : string) (acc : list (string * jvalue)) :
  reads_as pv t v -> delimiter c ->
  parse_members pv (S g) (json_member (k, t) ++ String c rest) acc
  = if Ascii.eqb c "," then parse_members pv g rest ((k, v) :: acc)
    else if Ascii.eqb c "}" then Some (JObject (rev ((k, v) :: acc)), rest)
    else None.
Proof.
  intros Ht Hc. unfold json_member, json_quote. simpl fst. simpl snd.
  cbn [parse_members]. rewrite !string_app_assoc. simpl (String dq _ ++ _)%string.
  cbn [skip_ws]. change (json_ws dq) with false. change (Ascii.eqb dq dq) with true. cbv iota.
  rewrite string_app_assoc. simpl (String dq _ ++ _)%string.
  rewrite parse_quote_chars by (rewrite string_length_app; pose proof (length_quote_chars k); simpl; lia).
  cbn [skip_ws]. change (json_ws ":") with false. change (Ascii.eqb ":" ":") with true.
  cbv iota. rewrite (Ht c rest Hc), skip_ws_delim by exact Hc. reflexivity.
Qed.

Lemma parse_members_spec (pv : string -> option (jvalue * string)) (ms : list (string * string))
    (vs : list jvalue) (g : nat) (acc : list (string * jvalue)) (rest : string) :
  ms <> [] -> Forall2 (fun kt v => reads_as pv (snd kt) v) ms vs -> (length ms <= g)%nat ->
  parse_members pv g (join_comma (map json_member ms) ++ String "}" rest) acc
  = Some (JObject (rev acc ++ combine (map fst ms) vs), rest).
Proof.
  intros Hne Hf. revert g acc Hne. induction Hf as [|[k t] v ms vs Hv Hf IH]; intros g acc Hne Hg;
    [congruence|].
  destruct g as [|g]; [simpl in Hg; lia|].
  destruct ms as [|kt' ms'].
  - inversion Hf; subst. simpl join_comma.
    rewrite (parse_member_step _ _ _ v) by (auto; unfold delimiter; auto). reflexivity.
  - change (join_comma (map json_member ((k, t) :: kt' :: ms')))
      with (json_member (k, t) ++ String "," (join_comma (map json_member (kt' :: ms'))))%string.
    rewrite string_app_assoc. simpl (String "," _ ++ _)%string.
    rewrite (parse_member_step _ _ _ v) by (auto; unfold delimiter; auto). cbv iota.
    rewrite IH by (simpl in *; auto; try discriminate; lia).
    simpl. now rewrite <- app_assoc.
Qed.

Lemma parse_item_step (pv : string -> option (jvalue * string)) (t : string) (v : jvalue)
    (g : nat) (c : ascii) (rest : string) (acc : list jvalue) :
  reads_as pv t v -> delimiter c ->
  parse_items pv (S g) (t ++ String c rest) acc
  = if Ascii.eqb c "," then parse_items pv g rest (v :: acc)
    else if Ascii.eqb c "]" then Some (JArray (rev (v :: acc)), rest)
    else None.
Proof.
  intros Ht Hc. cbn [parse_items]. rewrite (Ht c rest Hc), skip_ws_delim by exact Hc.
  reflexivity.
Qed.

Lemma parse_items_spec (pv : string -> option (jvalue * string)) (ts : list string)
    (vs : list jvalue) (g : nat) (acc : list jvalue) (rest : string) :
  ts <> [] -> Forall2 (reads_as pv) ts vs -> (length ts <= g)%nat ->
  parse_items pv g (join_comma ts ++ String "]" rest) acc = Some (JArray (rev acc ++ vs), rest).
Proof.
  intros Hne Hf. revert g acc Hne. induction Hf as [|t v ts vs Hv Hf IH]; intros g acc Hne Hg;
    [congruence|].
  destruct g as [|g]; [simpl in Hg; lia|].
  destruct ts as [|t' ts'].
  - inversion Hf; subst. simpl join_comma.
    rewrite (parse_item_step _ _ v) by (auto; unfold delimiter; auto). reflexivity.
  - change (join_comma (t :: t' :: ts')) with (t ++ String "," (join_comma (t' :: ts')))%string.
    rewrite string_app_assoc. simpl (String "," _ ++ _)%string.
    rewrite (parse_item_step _ _ v) by (auto; unfold delimiter; auto). cbv iota.
    rewrite IH by (simpl in *; auto; try discriminate; lia).
    simpl. now rewrite <- app_assoc.
Qed.

(** [join_comma] writes at least one character per non-empty item. *)
Lemma join_comma_length (ts : list string) :
  Forall (fun t => t <> EmptyString) ts -> (length ts <= String.length (join_comma ts))%nat.
Proof.
  induction 1 as [|t ts Ht _ IH]; [simpl; lia|].
  destruct ts as [|t' ts'].
  - destruct t; [congruence|simpl; lia].
  - change (join_comma (t :: t' :: ts')) with (t ++ String "," (join_comma (t' :: ts')))%string.
    rewrite string_length_app. simpl in *. lia.
Qed.

Lemma parse_value_object (f : nat) (ms : list (string * string)) (vs : list jvalue) :
  ms <> [] -> Forall2 (fun kt v => reads_as (parse_value f) (snd kt) v) ms vs ->
  reads_as (parse_value (S f)) (json_object ms) (JObject (combine (map fst ms) vs)).
Proof.
  intros Hne Hf c rest Hc. unfold json_object. simpl (String "{" _ ++ _)%string.
  rewrite string_app_assoc. simpl ("}" ++ _)%string.
  cbn [parse_value skip_ws]. change (json_ws "{") with false. cbv iota.
  destruct ms as [|[k t] ms']; [congruence|].
  set (r := (join_comma (map json_member ((k, t) :: ms')) ++ String "}" (String c rest))%string).
  assert (Hr : skip_ws r = r /\ exists r', r = String dq r').
  { subst r. destruct ms'; cbn [map join_comma]; unfold json_member, json_quote; simpl fst;
      rewrite ?string_app_assoc; simpl; split; eauto. }
  destruct Hr as [Hs [r' Hr']]. rewrite Hs, Hr'. cbv iota. simpl (Ascii.eqb dq _).
  rewrite <- Hr'. subst r. rewrite parse_members_spec with (vs := vs);
    [reflexivity | discriminate | exact Hf |].
  rewrite string_length_app, <- (length_map json_member ((k, t) :: ms')).
  assert (Forall (fun t => t <> EmptyString) (map json_member ((k, t) :: ms'))).
  { apply Forall_forall. intros x Hx. apply in_map_iff in Hx as [[k' t'] [<- _]].
    unfold json_member, json_quote. simpl. discriminate. }
  pose proof (join_comma_length _ H). lia.
Qed.

Lemma parse_value_null (f : nat) : reads_as (parse_value (S f)) "null" JNull.
Proof. intros c rest Hc. reflexivity. Qed.

Lemma reads_back_finite (x : num) : reads_back x -> is_finite x = true.
Proof.
  intros H. destruct (is_finite x) eqn:E; [reflexivity|].
  specialize (H ","%char "" ltac:(left; reflexivity)). unfold json_number in H. rewrite E in H.
  discriminate H.
Qed.

Lemma parse_value_written (f : nat) (x : num) :
  written_ok x -> reads_as (parse_value (S f)) (json_number x) (number_value x).
Proof.
  intros [Hx|Hx].
  - unfold number_value. rewrite (reads_back_finite x Hx). now apply parse_value_number.
  - unfold json_number, number_value. rewrite Hx. apply parse_value_null.
Qed.

Lemma parse_payment (f : nat) (p : payment) :
  written_ok (id p) -> written_ok (amount p) ->
  reads_as (parse_value (S (S f))) (payment_json p) (written_value p).
Proof.
  intros Hi Ha. unfold payment_json, written_value.
  refine (parse_value_object (S f)
            [("id", json_number (id p)); ("amount", json_number (amount p));
             ("date", json_quote (date p))]
            [number_value (id p); number_value (amount p); JString (date p)] _ _); [discriminate|].
  repeat constructor; simpl snd;
    [apply parse_value_written; exact Hi | apply parse_value_written; exact Ha |
     apply parse_value_string].
Qed.

Lemma parse_payments (f : nat) (ps : list payment) :
  Forall (fun p => written_ok (id p) /\ written_ok (amount p)) ps ->
  Forall2 (reads_as (parse_value (S (S f)))) (map payment_json ps) (map written_value ps).
Proof. induction 1 as [|p ps [Hi Ha]]; constructor; auto using parse_payment. Qed.

(** [JSON.parse] of what [JSON.stringify] wrote, [null] for the numbers
    that are not finite. *)
Lemma json_parse_stringify (ps : list payment) :
  Forall (fun p => written_ok (id p) /\ written_ok (amount p)) ps ->
  json_parse (stringify_payments ps) = Some (JArray (map written_value ps)).
Proof.
  intros Hps. destruct ps as [|p ps']; [reflexivity|].
  unfold json_parse, stringify_payments, json_array.
  set (r := (join_comma (map payment_json (p :: ps')) ++ "]")%string).
  assert (Hr : exists r', r = String "{" r').
  { subst r. destruct ps'; cbn [map join_comma]; unfold payment_json, json_object;
      simpl; eauto. }
  destruct Hr as [r' Hr'].
  assert (Hlen : exists f, String.length (String "[" r) = S (S f)).
  { rewrite Hr'. simpl. eauto. }
  destruct Hlen as [f Hf]. rewrite Hf.
  cbn [parse_value skip_ws]. change (json_ws "[") with false. cbv iota.
  rewrite Hr'. cbn [skip_ws]. change (json_ws "{") with false. cbv iota. rewrite <- Hr'.
  subst r. change "]"%string with (String "]" "").
  rewrite parse_items_spec with (vs := map written_value (p :: ps'));
    [reflexivity | discriminate | apply parse_payments; exact Hps |].
  rewrite string_length_app.
  assert (Forall (fun t => t <> EmptyString) (map payment_json (p :: ps'))).
  { apply Forall_forall. intros x Hx. apply in_map_iff in Hx as [q [<- _]].
    unfold payment_json, json_object. discriminate. }
  pose proof (join_comma_length _ H). lia.
Qed.

Lemma written_value_read_back (p : payment) :
  numbers_read_back p -> written_value p = payment_value p.
Proof.
  intros [Hi Ha]. unfold written_value, payment_value, number_value.
  now rewrite (reads_back_finite _ Hi), (reads_back_finite _ Ha).
Qed.

Lemma decode_all_values (ps : list payment) : decode_all (map payment_value ps) = Some ps.
Proof. induction ps as [|[i a d] ps IH]; [reflexivity|]. simpl. now rewrite IH. Qed.

Lemma decode_all_none (vs : list jvalue) :
  Exists (fun v => decode_payment v = None) vs -> decode_all vs = None.
Proof.
  induction 1 as [v vs Hv|v vs _ IH]; cbn [decode_all]; [now rewrite Hv|].
  rewrite IH. now destruct (decode_payment v).
Qed.

Lemma save_nonempty (ps : list payment) : String.eqb (stringify_payments ps) "" = false.
Proof. reflexivity. Qed.

Lemma load_save (ps : list payment) (slot : option string) :
  Forall numbers_read_back ps -> load (save true ps slot) = Loaded ps.
Proof.
  intros Hps. unfold load, save. rewrite save_nonempty, json_parse_stringify.
  - cbn [decode_payments]. rewrite (map_ext_in written_value payment_value).
    + now rewrite decode_all_values.
    + intros p Hp. apply written_value_read_back. rewrite Forall_forall in Hps. now apply Hps.
  - eapply Forall_impl; [|exact Hps]. intros p [Hi Ha]. split; left; assumption.
Qed.

#[export] Instance local_storage_laws (fits : string -> bool) :
  @StoragePortLaws (local_storage fits).
Proof.
  split; [reflexivity|]. intros ps slot Hps. simpl.
  destruct (fits (stringify_payments ps)); [right; exact (load_save ps slot Hps) | now left].
Qed.

Lemma local_storage_reliable : @port_reliable (local_storage (fun _ => true)).
Proof. intros ps slot Hps. exact (load_save ps slot Hps). Qed.

(** Checks [reads_back] of a concrete number on the three delimiters. *)
Ltac reads_back_tac := intros ? ? [-> | [-> | ->]]; vm_compute; reflexivity.

(** ** Properties of [load] and [save] *)

(** C6: Round trip.  What [save] writes reloads as the same collection,
    whenever each id and amount is a number whose JSON text reads back as
    itself (every finite number but [-0], as [Number::toString] writes it). *)
Theorem save_then_load (ps : list payment) (slot : option string) :
  Forall numbers_read_back ps -> load (save true ps slot) = Loaded ps.
Proof. exact (load_save ps slot). Qed.

Lemma save_then_load_witness :
  Forall numbers_read_back sample_payments
  /\ load (save true sample_payments None) = Loaded sample_payments.
Proof.
  assert (H : Forall numbers_read_back sample_payments)
    by (repeat constructor; reads_back_tac).
  split; [exact H | apply (save_then_load sample_payments None); exact H].
Defined.

(** C33: A number that is not finite does not survive a reload.  For
    every list whose numbers are written as [null] or read back, if some
    id or amount is [NaN] or infinite ([Number("1e999") || 0] keeps
    [Infinity]), [JSON.stringify] writes [null] for it, and what [save]
    wrote reloads as a value of another shape, not as the list. *)
Theorem non_finite_not_restored (ps : list payment) (slot : option string) :
  Forall (fun p => written_ok (id p) /\ written_ok (amount p)) ps ->
  Exists (fun p => is_finite (id p) = false \/ is_finite (amount p) = false) ps ->
  load (save true ps slot) = Foreign (JArray (map written_value ps))
  /\ load (save true ps slot) <> Loaded ps.
Proof.
  intros Hw He. assert (E : load (save true ps slot) = Foreign (JArray (map written_value ps))).
  { unfold load, save. rewrite save_nonempty, json_parse_stringify by exact Hw.
    cbn [decode_payments]. rewrite decode_all_none; [reflexivity|].
    apply Exists_map. eapply Exists_impl; [|exact He]. intros p [Hp|Hp];
      unfold written_value, number_value; rewrite Hp; [reflexivity|].
    now destruct (is_finite (id p)). }
  split; [exact E|]. rewrite E. discriminate.
Qed.

Lemma non_finite_not_restored_witness :
  let p := mk_payment (of_Z 1) (or_zero (js_Number "1e999")) "2024-01-15" in
  Forall (fun p => written_ok (id p) /\ written_ok (amount p)) [p]
  /\ Exists (fun p => is_finite (id p) = false \/ is_finite (amount p) = false) [p]
  /\ load (save true [p] None) <> Loaded [p].
Proof.
  cbv zeta.
  assert (Hw : Forall (fun p => written_ok (id p) /\ written_ok (amount p))
                 [mk_payment (of_Z 1) (or_zero (js_Number "1e999")) "2024-01-15"]).
  { constructor; [split; [left; reads_back_tac | right; vm_compute; reflexivity] | constructor]. }
  assert (He : Exists (fun p => is_finite (id p) = false \/ is_finite (amount p) = false)
                 [mk_payment (of_Z 1) (or_zero (js_Number "1e999")) "2024-01-15"]).
  { apply Exists_cons_hd. right. vm_compute. reflexivity. }
  split; [exact Hw|]. split; [exact He|].
  exact (proj2 (non_finite_not_restored _ None Hw He)).
Defined.

End Persist.
