(* ===== verification/App.v ===== *)
(** * The event handlers of [src/www/app.js]

    The page state is the variable [payments] (line 7), the storage slot,
    and the parts of the DOM the handlers write: the [is-open] class of the
    dropdown, the two sheets and the two modals (lines 115-169, 250-253),
    the confirmation callback [el.confirmOk.onclick] (lines 155-169), the
    values of the form inputs (lines 115-138, 171-179, 304-312) and what
    [render] (lines 109-113, 213-248) writes: the two summary texts and the
    list of cards.  Every listener of lines 255-359 is one constructor of
    [event] and one branch of [handle]; the mutations [addPayment],
    [updatePayment], [deletePayment] and [clearAll] (lines 181-211) change
    [payments], write the slot through the storage port and re-render.

    The storage is reached through the [StoragePort] interface of
    [Storage.v]: the handlers are defined for any port, the invariants are
    proved from its laws, and [local_storage] instantiates it. *)

From Stdlib Require Import ZArith String Ascii List Bool Lia.
From Corelib Require Import SpecFloat.
From S2P Require Import Prelude JsString Calendar Dates JsNumber Payments Storage.
Import ListNotations.

Module App.

Import StrBuiltins JsNum DateUtil Store Persist.
Local Open Scope string_scope.

(** ** State *)

(** The callback [confirm(message, onOk)] installs as
    [el.confirmOk.onclick] (lines 245 and 273). *)
Inductive on_ok :=
| DeleteOne (id_attr : string)
| DeleteAll.

(** One card of the list (lines 225-232): its [data-id], the amount text
    and the display date. *)
Record card := mk_card { card_id : string; card_amount : string; card_date : string }.

(** What [render] writes: [#totalPaid], [#totalMonth] and the cards of
    [#paymentList] (no card: the "No payments yet" item). *)
Record view := mk_view { total_paid : string; total_month : string; cards : list card }.

(** The [is-open] class of the overlays and the confirmation modal's
    message and [onclick]. *)
Record overlays := mk_overlays {
  dropdown_open : bool;
  add_open : bool;
  edit_open : bool;
  about_open : bool;
  confirm_open : bool;
  confirm_message : string;
  confirm_ok : option on_ok
}.

(** A form: the amount input, the display date input and the native date
    input; [input_id] is [#editId] (unused in the add form). *)
Record form := mk_form { input_id : string; input_amount : string; input_date : string;
                         input_native : string }.

Record state := mk_state {
  payments : list payment;
  slot : option string;
  shown : view;
  ov : overlays;
  add_form : form;
  edit_form : form
}.

Definition empty_form : form := mk_form "" "" "" "".

Definition closed : overlays := mk_overlays false false false false false "" None.

(** A quota that every write fits in. *)
Definition always_fits (_ : string) : bool := true.

(** ** Events *)

(** The listeners of lines 255-359, each with what the browser hands it:
    the current time for the handlers that read [new Date()], the value
    the user types or picks, the card clicked.  A click also reaches the
    [document] listener of line 278 ([DocumentClick], with whether the
    target lies in the dropdown or the menu button). *)
Inductive event :=
| MenuClick
| NavAdd (now : Z)
| NavAbout
| NavDeleteAll
| DocumentClick (inside_menu : bool)
| AddBackdrop
| EditBackdrop
| AboutBackdrop
| AboutClose
| ConfirmBackdrop
| ConfirmCancel
| ConfirmOk
| SubmitAdd
| SubmitEdit
| EditCard (i : nat)
| DeleteCard (i : nat)
| TypeAddAmount (s : string)
| TypeAddDate (s : string)
| TypeEditAmount (s : string)
| TypeEditDate (s : string)
| OpenAddPicker (now : Z)
| OpenEditPicker (now : Z)
| PickAddDate (v : string)
| PickEditDate (v : string).

(** ** Updates of one part of the state *)

Definition with_dropdown (b : bool) (o : overlays) : overlays :=
  mk_overlays b (add_open o) (edit_open o) (about_open o) (confirm_open o) (confirm_message o)
    (confirm_ok o).

Definition with_add (b : bool) (o : overlays) : overlays :=
  mk_overlays (dropdown_open o) b (edit_open o) (about_open o) (confirm_open o)
    (confirm_message o) (confirm_ok o).

Definition with_edit (b : bool) (o : overlays) : overlays :=
  mk_overlays (dropdown_open o) (add_open o) b (about_open o) (confirm_open o)
    (confirm_message o) (confirm_ok o).

Definition with_about (b : bool) (o : overlays) : overlays :=
  mk_overlays (dropdown_open o) (add_open o) (edit_open o) b (confirm_open o)
    (confirm_message o) (confirm_ok o).

Definition with_confirm (b : bool) (msg : string) (k : option on_ok) (o : overlays) : overlays :=
  mk_overlays (dropdown_open o) (add_open o) (edit_open o) (about_open o) b msg k.

Definition map_ov (f : overlays -> overlays) (st : state) : state :=
  mk_state (payments st) (slot st) (shown st) (f (ov st)) (add_form st) (edit_form st).

Definition map_add_form (f : form -> form) (st : state) : state :=
  mk_state (payments st) (slot st) (shown st) (ov st) (f (add_form st)) (edit_form st).

Definition map_edit_form (f : form -> form) (st : state) : state :=
  mk_state (payments st) (slot st) (shown st) (ov st) (add_form st) (f (edit_form st)).

Definition with_amount (s : string) (fm : form) : form :=
  mk_form (input_id fm) s (input_date fm) (input_native fm).

Definition with_date (s : string) (fm : form) : form :=
  mk_form (input_id fm) (input_amount fm) s (input_native fm).

Definition with_native (s : string) (fm : form) : form :=
  mk_form (input_id fm) (input_amount fm) (input_date fm) s.

(** ** Overlays (lines 115-169, 250-253) *)

Definition closeDropdown : state -> state := map_ov (with_dropdown false).

(** [openAddSheet()]: [formAdd.reset()], today's date in both date inputs. *)
Definition openAddSheet (now : Z) (st : state) : state :=
  let today := getTodayYMD now in
  map_ov (with_add true)
    (map_add_form (fun _ => mk_form "" "" (formatDisplayDate today) today) st).

Definition closeAddSheet : state -> state := map_ov (with_add false).

(** [openEditSheet(payment)]: the record's fields in the edit form. *)
Definition openEditSheet (p : payment) (st : state) : state :=
  map_ov (with_edit true)
    (map_edit_form (fun _ =>
       mk_form (num_to_string (id p)) (num_to_string (amount p)) (formatDisplayDate (date p))
               (if String.eqb (date p) "" then "" else slice0 10 (date p))) st).

Definition closeEditSheet : state -> state := map_ov (with_edit false).

Definition openAbout : state -> state := map_ov (with_about true).

Definition closeAbout : state -> state := map_ov (with_about false).

(** [confirm(message, onOk)]: the modal open, [onOk] behind its button. *)
Definition confirm (message : string) (k : on_ok) : state -> state :=
  map_ov (with_confirm true message (Some k)).

(** [closeConfirm()]: the modal closed, [onclick = null]; the message stays. *)
Definition closeConfirm (st : state) : state :=
  map_ov (fun o => with_confirm false (confirm_message o) None o) st.

(** [openDatePicker(input, displayInput)]: today's date in an empty form;
    [showPicker()] itself changes no state. *)
Definition openDatePicker (now : Z) (fm : form) : form :=
  if String.eqb (input_native fm) "" then
    let today := getTodayYMD now in with_date (formatDisplayDate today) (with_native today fm)
  else fm.

(** A [change] of the native date input to [v]: [syncDateToDisplay]. *)
Definition pick_date (v : string) (fm : form) : form :=
  with_date (syncDateToDisplay v) (with_native v fm).

Section Handlers.

Context `{port : StoragePort}.

(** ** Rendering *)

Definition card_of (p : payment) : card :=
  mk_card (num_to_string (id p)) (num_to_string (amount p)) (formatDisplayDate (date p)).

(** [render()]: [renderSummary()] then the cards, none for an empty list. *)
Definition render_view (ps : list payment) : view :=
  let '(totalAmount, totalMonths) := getTotals ps in
  mk_view (num_to_string totalAmount) (num_to_string (of_Z (Z.of_nat totalMonths)))
          (map card_of ps).

Definition render (st : state) : state :=
  mk_state (payments st) (slot st) (render_view (payments st)) (ov st) (add_form st) (edit_form st).

(** [payments = ps; save();]: the new collection, written to the slot. *)
Definition persist (ps : list payment) (st : state) : state :=
  mk_state ps (port_write ps (slot st)) (shown st) (ov st) (add_form st) (edit_form st).

(** ** Mutations (lines 181-211) *)

Definition addPayment_h (amount date : string) (st : state) : state :=
  render (persist (addPayment amount date (payments st)) st).

Definition updatePayment_h (id amount date : string) (st : state) : state :=
  match updatePayment id amount date (payments st) with
  | None => st
  | Some ps => render (persist ps st)
  end.

Definition deletePayment_h (id : string) (st : state) : state :=
  render (persist (deletePayment id (payments st)) st).

Definition clearAll_h (st : state) : state :=
  render (persist (clearAll (payments st)) st).

(** ** Listeners (lines 255-359) *)

(** The callback behind [#confirmOk]. *)
Definition run_ok (k : on_ok) (st : state) : state :=
  match k with
  | DeleteOne id_attr => deletePayment_h id_attr st
  | DeleteAll => clearAll_h st
  end.

(** The submit listener of [#formAdd] (lines 289-302): nothing without an
    amount, else [addPayment] and the sheet closed. *)
Definition submitAdd (st : state) : state :=
  let fm := add_form st in
  let amount := trim (input_amount fm) in
  let date := form_date (input_native fm) (input_date fm) in
  if String.eqb amount "" then st
  else closeAddSheet (addPayment_h amount (submit_date_str date) st).

(** The submit listener of [#formEdit] (lines 328-341): [updatePayment]
    with the id of [#editId], then the sheet closed in any case. *)
Definition submitEdit (st : state) : state :=
  let fm := edit_form st in
  let amount := trim (input_amount fm) in
  let date := form_date (input_native fm) (input_date fm) in
  closeEditSheet (updatePayment_h (input_id fm) amount (submit_date_str date) st).

(** The listeners of a card's edit and delete buttons (lines 236-247),
    which read the [data-id] written by the last [render]. *)
Definition editCard (i : nat) (st : state) : state :=
  match nth_error (cards (shown st)) i with
  | Some c =>
      match find (fun x => strict_eq (id x) (js_Number (card_id c))) (payments st) with
      | Some p => openEditSheet p st
      | None => st
      end
  | None => st
  end.

Definition deleteCard (i : nat) (st : state) : state :=
  match nth_error (cards (shown st)) i with
  | Some c => confirm "Delete this payment?" (DeleteOne (card_id c)) st
  | None => st
  end.

(** [#navDeleteAll] (lines 270-276): nothing to confirm on an empty list. *)
Definition navDeleteAll (st : state) : state :=
  let st := closeDropdown st in
  if Nat.eqb (length (payments st)) 0 then st
  else confirm "Delete all payments? This cannot be undone." DeleteAll st.

(** [#confirmOk]: its [onclick], when one is installed, closes the modal
    and runs the callback. *)
Definition confirmOk (st : state) : state :=
  match confirm_ok (ov st) with
  | Some k => run_ok k (closeConfirm st)
  | None => st
  end.

Definition handle (e : event) (st : state) : state :=
  match e with
  | MenuClick => map_ov (fun o => with_dropdown (negb (dropdown_open o)) o) st
  | NavAdd now => openAddSheet now (closeDropdown st)
  | NavAbout => openAbout (closeDropdown st)
  | NavDeleteAll => navDeleteAll st
  | DocumentClick inside => if inside then st else closeDropdown st
  | AddBackdrop => closeAddSheet st
  | EditBackdrop => closeEditSheet st
  | AboutBackdrop | AboutClose => closeAbout st
  | ConfirmBackdrop | ConfirmCancel => closeConfirm st
  | ConfirmOk => confirmOk st
  | SubmitAdd => submitAdd st
  | SubmitEdit => submitEdit st
  | EditCard i => editCard i st
  | DeleteCard i => deleteCard i st
  | TypeAddAmount s => map_add_form (with_amount s) st
  | TypeAddDate s => map_add_form (with_date s) st
  | TypeEditAmount s => map_edit_form (with_amount s) st
  | TypeEditDate s => map_edit_form (with_date s) st
  | OpenAddPicker now => map_add_form (openDatePicker now) st
  | OpenEditPicker now => map_edit_form (openDatePicker now) st
  | PickAddDate v => map_add_form (pick_date v) st
  | PickEditDate v => map_edit_form (pick_date v) st
  end.

(** Start-up (lines 361-362): [load()] then [render()].  A stored value
    that is not a list of records is outside the model ([None]). *)
Definition init (raw : option string) : option state :=
  match port_load raw with
  | Loaded ps =>
      Some (render (mk_state ps raw (mk_view "" "" []) closed empty_form empty_form))
  | Foreign _ => None
  end.

(** A run of listeners, one after the other. *)
Definition run (es : list event) (st : state) : state := fold_left (fun s e => handle e s) es st.

(** The states reachable from start-up on the slot content [raw]. *)
Inductive reachable (raw : option string) : state -> Prop :=
| reach_init st : init raw = Some st -> reachable raw st
| reach_step st e : reachable raw st -> reachable raw (handle e st).

(** The page shows what [render] computes from [payments]. *)
Definition view_ok (st : state) : Prop := shown st = render_view (payments st).

(** The confirmation modal is open exactly when its button has a callback. *)
Definition confirm_ok_inv (st : state) : Prop :=
  confirm_open (ov st) = match confirm_ok (ov st) with Some _ => true | None => false end.

(** The slot reloads as [payments], when its numbers read back. *)
Definition synced (st : state) : Prop :=
  Forall numbers_read_back (payments st) -> port_load (slot st) = Loaded (payments st).

(** A listener leaves [payments] and the slot alone, or writes its new
    [payments] to the slot. *)
Definition stored (st st' : state) : Prop :=
  (payments st' = payments st /\ slot st' = slot st)
  \/ slot st' = port_write (payments st') (slot st).

End Handlers.

(** Clicks that dismiss every overlay: outside the menu, on the two sheet
    backdrops, on the About close button and on Cancel. *)
Definition dismiss_all : list event :=
  [DocumentClick false; AddBackdrop; EditBackdrop; AboutClose; ConfirmCancel].

(** The additions a listener can make: one for a submit of the add form. *)
Definition adds (e : event) : Z := match e with SubmitAdd => 1 | _ => 0 end%Z.

Definition count_adds (es : list event) : Z := fold_right (fun e n => adds e + n)%Z 0%Z es.

(** The ids are distinct integers of [1..k]. *)
Definition ids_ok (k : Z) (ps : list payment) : Prop :=
  exists ns, map id ps = map of_Z ns /\ NoDup ns /\ Forall (fun n => (1 <= n <= k)%Z) ns.

(** The page on an empty slot, before any event. *)
Definition start_state : state :=
  render (mk_state [] None (mk_view "" "" []) closed empty_form empty_form).

(** The scenario of the specification through the page, on 2024-01-01
    (day 19723): two payments added with the add sheet, then the first
    card deleted and confirmed. *)
Definition spec_events : list event :=
  [NavAdd 19723; TypeAddAmount "100"; PickAddDate "2024-01-15"; SubmitAdd;
   NavAdd 19723; TypeAddAmount "200"; PickAddDate "2024-02-20"; SubmitAdd;
   DeleteCard 0; ConfirmOk].

(** ** Proof tools *)

(** Unfolds the listeners down to record operations. *)
Ltac app_unfold :=
  unfold handle, submitAdd, submitEdit, editCard, deleteCard, navDeleteAll, confirmOk, run_ok,
    addPayment_h, updatePayment_h, deletePayment_h, clearAll_h, closeDropdown, openAddSheet,
    closeAddSheet, openEditSheet, closeEditSheet, openAbout, closeAbout, confirm, closeConfirm,
    render, persist, map_ov, map_add_form, map_edit_form in *.

(** Case analysis on the tests and matches the listeners make. *)
Ltac app_simpl :=
  cbn [payments slot shown ov add_form edit_form dropdown_open add_open edit_open
       about_open confirm_open confirm_message confirm_ok with_dropdown with_add
       with_edit with_about with_confirm] in *.

Ltac app_cases :=
  app_simpl;
  repeat (first [ match goal with
                  | |- context [match ?b with true => _ | false => _ end] =>
                      let E := fresh "E" in destruct b eqn:E
                  end
                | match goal with
                  | |- context [match ?x with Some _ => _ | None => _ end] =>
                      let E := fresh "E" in destruct x eqn:E; try rewrite E in *
                  | |- context [match ?x with DeleteOne _ => _ | DeleteAll => _ end] =>
                      let E := fresh "E" in destruct x eqn:E; try rewrite E in *
                  end ]; app_simpl).

Section Invariants.

Context `{port : StoragePort}.

Lemma handle_view (e : event) (st : state) : view_ok st -> view_ok (handle e st).
Proof. unfold view_ok. intros H. destruct e; app_unfold; app_cases; auto. Qed.

Lemma handle_confirm (e : event) (st : state) : confirm_ok_inv st -> confirm_ok_inv (handle e st).
Proof. unfold confirm_ok_inv. intros H. destruct e; app_unfold; app_cases; congruence. Qed.

Lemma handle_stored (e : event) (st : state) : stored st (handle e st).
Proof. unfold stored. destruct e; app_unfold; app_cases; auto. Qed.

Lemma init_state (raw : option string) (st : state) :
  init raw = Some st ->
  exists ps, port_load raw = Loaded ps /\ payments st = ps /\ slot st = raw
             /\ shown st = render_view ps /\ ov st = closed.
Proof.
  unfold init. destruct (port_load raw) as [ps|v]; [|discriminate].
  intros H. inversion H; subst. now exists ps.
Qed.

Lemma reachable_view (raw : option string) (st : state) : reachable raw st -> view_ok st.
Proof.
  induction 1 as [st Hi|st e _ IH]; [|now apply handle_view].
  destruct (init_state raw st Hi) as (ps & _ & Hp & _ & Hv & _). unfold view_ok. congruence.
Qed.

Lemma reachable_confirm (raw : option string) (st : state) :
  reachable raw st -> confirm_ok_inv st.
Proof.
  induction 1 as [st Hi|st e _ IH]; [|now apply handle_confirm].
  destruct (init_state raw st Hi) as (ps & _ & _ & _ & _ & Ho). unfold confirm_ok_inv.
  now rewrite Ho.
Qed.

Lemma reachable_synced (raw : option string) (st : state) :
  port_reliable -> reachable raw st -> synced st.
Proof.
  intros Hrel. induction 1 as [st Hi|st e _ IH]; unfold synced in *.
  - destruct (init_state raw st Hi) as (ps & Hl & Hp & Hs & _). congruence.
  - intros Hnrb. destruct (handle_stored e st) as [[Hp Hs] | Hs].
    + rewrite Hs, Hp. apply IH. now rewrite <- Hp.
    + rewrite Hs. now apply Hrel.
Qed.

(** The ids of [payments] a listener other than [#confirmOk] keeps. *)
Lemma ids_kept (e : event) (st : state) :
  e <> ConfirmOk -> incl (map id (payments st)) (map id (payments (handle e st))).
Proof.
  intros He. destruct e; try congruence; app_unfold; app_cases; try apply incl_refl.
  - unfold addPayment. apply incl_map, incl_appl, incl_refl.
  - match goal with H : updatePayment _ _ _ _ = Some _ |- _ => rename H into Hu end.
    unfold updatePayment in Hu. apply update_first_ids in Hu; [|reflexivity].
    rewrite Hu. apply incl_refl.
Qed.

(** The only ways a listener changes [payments]: an addition by the add
    form, an update, a deletion, or emptying. *)
Lemma handle_payments (e : event) (st : state) :
  let ps := payments st in
  let ps' := payments (handle e st) in
  ps' = ps \/ (e = SubmitAdd /\ exists a d, ps' = addPayment a d ps)
  \/ (exists i a d, updatePayment i a d ps = Some ps')
  \/ (exists i, ps' = deletePayment i ps) \/ ps' = [].
Proof. cbv zeta. destruct e; app_unfold; app_cases; eauto 10. Qed.

Lemma count_adds_nonneg (es : list event) : (0 <= count_adds es)%Z.
Proof.
  unfold count_adds. induction es as [|e es IH]; cbn [fold_right]; [lia|].
  destruct e; cbn [adds]; lia.
Qed.

Lemma ids_ok_mono (k k' : Z) (ps : list payment) :
  (k <= k')%Z -> ids_ok k ps -> ids_ok k' ps.
Proof.
  intros Hk (ns & Hm & Hnd & Hb). exists ns. split; [exact Hm | split; [exact Hnd|]].
  eapply Forall_impl; [|exact Hb]. simpl. lia.
Qed.

Lemma ids_ok_bound (k : Z) (ns : list Z) :
  (k < 2 ^ 53 - 1)%Z -> Forall (fun n => (1 <= n <= k)%Z) ns -> Forall id_bound ns.
Proof. intros Hk. apply Forall_impl. unfold id_bound. lia. Qed.

(** One listener keeps the ids distinct integers of [1..k + adds e]. *)
Lemma handle_ids_ok (e : event) (st : state) (k : Z) :
  (0 <= k)%Z -> (k + adds e < 2 ^ 53 - 1)%Z ->
  ids_ok k (payments st) -> ids_ok (k + adds e) (payments (handle e st)).
Proof.
  intros Hk Hlt Hok. assert (Ha : (0 <= adds e)%Z) by (destruct e; simpl; lia).
  destruct Hok as (ns & Hm & Hnd & Hb).
  destruct (handle_payments e st) as [E|[[He (a & d & E)]|[(i & a & d & E)|[(i & E)|E]]]];
    [rewrite E | rewrite E | | rewrite E | rewrite E].
  - apply (ids_ok_mono k); [lia|]. now exists ns.
  - subst e. cbn [adds] in *. exists (ns ++ [next_int ns])%list.
    split; [apply addPayment_ids; [exact Hm | eapply ids_ok_bound; [|exact Hb]; lia]|].
    split; [exact (NoDup_snoc_fresh ns _ Hnd (next_int_gt ns))|].
    apply Forall_app. split; [eapply Forall_impl; [|exact Hb]; simpl; lia|].
    constructor; [pose proof (next_int_range ns k Hk Hb); lia | constructor].
  - apply (ids_ok_mono k); [lia|]. exists ns. split; [|auto].
    unfold updatePayment in E. apply update_first_ids in E; [|reflexivity].
    rewrite E. exact Hm.
  - apply (ids_ok_mono k); [lia|]. eexists. split; [exact (deletePayment_ids i _ ns Hm)|].
    split; [now apply NoDup_filter|]. apply Forall_forall. intros n Hn.
    apply filter_In in Hn as [Hn _]. rewrite Forall_forall in Hb. now apply Hb.
  - exists []. repeat constructor.
Qed.

Lemma reachable_run (raw : option string) (es : list event) (st : state) :
  reachable raw st -> reachable raw (run es st).
Proof.
  revert st. induction es as [|e es IH]; intros st H; [exact H|].
  apply IH. now apply reach_step.
Qed.

Lemma nth_error_cards (st : state) (i : nat) (p : payment) :
  view_ok st -> nth_error (payments st) i = Some p ->
  nth_error (cards (shown st)) i = Some (card_of p).
Proof.
  unfold view_ok, render_view. intros Hv Hp. rewrite Hv.
  destruct (getTotals (payments st)). cbn [cards]. now rewrite nth_error_map, Hp.
Qed.

End Invariants.

Section Properties.

Context `{port : StoragePort}.

(** C9: Whatever the listeners did, the summary shows [getTotals]: the
    sum of the amounts and, as [totalMonth], the number of records; the
    list shows one card per record, in order. *)
Theorem reachable_shows_totals (raw : option string) (st : state) :
  reachable raw st ->
  total_paid (shown st) = num_to_string (fst (getTotals (payments st)))
  /\ total_month (shown st) = num_to_string (of_Z (Z.of_nat (snd (getTotals (payments st)))))
  /\ cards (shown st) = map card_of (payments st).
Proof. intros H. apply reachable_view in H. unfold view_ok in H. rewrite H. now split. Qed.

(** C26: The confirmation modal is open exactly when its OK button holds
    a callback: a callback never outlives the modal. *)
Theorem reachable_confirm_consistent (raw : option string) (st : state) :
  reachable raw st -> confirm_open (ov st) = true <-> confirm_ok (ov st) <> None.
Proof.
  intros H. apply reachable_confirm in H. unfold confirm_ok_inv in H. rewrite H.
  destruct (confirm_ok (ov st)); split; congruence.
Qed.

(** C7: Over a port whose writes succeed, the slot reloads, at any point
    of any run, as the current [payments] (when its numbers read back). *)
Theorem reload_gives_payments (raw : option string) (st : state) :
  port_reliable -> reachable raw st -> Forall numbers_read_back (payments st) ->
  port_load (slot st) = Loaded (payments st).
Proof. intros Hr H. exact (reachable_synced raw st Hr H). Qed.

(** C8: Records leave [payments] only through the OK button of the
    confirmation modal: any other listener keeps every id. *)
Theorem ids_removed_only_on_confirm (e : event) (st : state) (i : num) :
  In i (map id (payments st)) -> ~ In i (map id (payments (handle e st))) -> e = ConfirmOk.
Proof.
  intros Hin Hout.
  destruct e; try reflexivity; exfalso; apply Hout, ids_kept; (discriminate || exact Hin).
Qed.

(** C17: Cancelling the confirmation disarms it: after [Cancel], a click
    on OK deletes nothing and writes nothing. *)
Theorem cancel_prevents_delete (i : nat) (st : state) :
  payments (run [DeleteCard i; ConfirmCancel; ConfirmOk] st) = payments st
  /\ slot (run [DeleteCard i; ConfirmCancel; ConfirmOk] st) = slot st.
Proof.
  cbn [run fold_left handle]. app_unfold. app_cases; auto.
Qed.

(** C10: Deleting the [i]-th card and confirming removes, as
    [deletePayment], the records whose id is the card's [data-id], the
    text of the [i]-th record's id. *)
Theorem delete_card_confirmed (raw : option string) (st : state) (i : nat) (p : payment) :
  reachable raw st -> nth_error (payments st) i = Some p ->
  payments (run [DeleteCard i; ConfirmOk] st)
  = deletePayment (num_to_string (id p)) (payments st).
Proof.
  intros Hr Hp. pose proof (nth_error_cards st i p (reachable_view raw st Hr) Hp) as Hc.
  cbn [run fold_left handle]. unfold deleteCard. rewrite Hc.
  app_unfold. app_simpl. reflexivity.
Qed.

(** C18: [Delete all] asks for confirmation only when there is something
    to delete; confirmed, it empties [payments]. *)
Theorem delete_all_confirmed (st : state) :
  (payments st = [] -> ov (handle NavDeleteAll st) = with_dropdown false (ov st))
  /\ (payments st <> [] -> payments (run [NavDeleteAll; ConfirmOk] st) = []).
Proof.
  split; intros H; cbn [run fold_left handle]; app_unfold; app_simpl.
  - now rewrite H.
  - destruct (payments st); [congruence|]. reflexivity.
Qed.

(** C19: The add form's submit does nothing without an amount (the sheet
    stays open); with one, it appends the record [addPayment] builds from
    the trimmed amount and the submitted date, and closes the sheet. *)
Theorem submit_add_spec (st : state) :
  let fm := add_form st in
  let amount := trim (input_amount fm) in
  (amount = "" -> handle SubmitAdd st = st)
  /\ (amount <> "" ->
      payments (handle SubmitAdd st)
      = addPayment amount (submit_date_str (form_date (input_native fm) (input_date fm)))
          (payments st)
      /\ add_open (ov (handle SubmitAdd st)) = false).
Proof.
  cbv zeta. split; intros H; cbn [handle]; unfold submitAdd.
  - now rewrite H.
  - apply String.eqb_neq in H. rewrite H. app_unfold. app_simpl. now split.
Qed.

(** Submitting the edit form for an id no record has any more
    changes neither [payments] nor the slot, and closes the sheet. *)
Theorem submit_edit_absent (st : state) :
  let fm := edit_form st in
  updatePayment (input_id fm) (trim (input_amount fm))
    (submit_date_str (form_date (input_native fm) (input_date fm))) (payments st) = None ->
  payments (handle SubmitEdit st) = payments st /\ slot (handle SubmitEdit st) = slot st
  /\ edit_open (ov (handle SubmitEdit st)) = false.
Proof.
  cbv zeta. intros H. cbn [handle]. unfold submitEdit, updatePayment_h. rewrite H.
  app_unfold. app_simpl. auto.
Qed.

(** C27: No state traps the user: from any state, the clicks of
    [dismiss_all] close the dropdown, both sheets and both modals and
    disarm the confirmation, without touching [payments] or the slot. *)
Theorem overlays_dismissable (st : state) :
  let st' := run dismiss_all st in
  payments st' = payments st /\ slot st' = slot st
  /\ dropdown_open (ov st') = false /\ add_open (ov st') = false
  /\ edit_open (ov st') = false /\ about_open (ov st') = false
  /\ confirm_open (ov st') = false /\ confirm_ok (ov st') = None.
Proof. cbv zeta. cbn [run fold_left handle dismiss_all]. app_unfold. app_simpl. auto 10. Qed.

(** C14: Editing without a change changes nothing: opening the edit sheet
    of the [i]-th card and submitting it as filled in leaves [payments] as
    it was, when the card's id text finds its record, the amount text
    reads back as the amount and the date is canonical or empty. *)
Theorem edit_unchanged (raw : option string) (st : state) (i : nat) (p : payment) :
  reachable raw st -> nth_error (payments st) i = Some p ->
  find (fun x => strict_eq (id x) (js_Number (num_to_string (id p)))) (payments st) = Some p ->
  or_zero (js_Number (trim (num_to_string (amount p)))) = amount p ->
  canonical_or_empty (date p) ->
  payments (run [EditCard i; SubmitEdit] st) = payments st.
Proof.
  intros Hr Hi Hf Ha Hd. pose proof (nth_error_cards st i p (reachable_view raw st Hr) Hi) as Hc.
  cbn [run fold_left handle]. unfold editCard. rewrite Hc. cbn [card_id card_of]. rewrite Hf.
  unfold submitEdit, updatePayment_h, openEditSheet, map_ov, map_edit_form. app_simpl.
  cbn [input_id input_amount input_date input_native]. unfold updatePayment.
  rewrite (update_first_find _ _ _ p Hf).
  - reflexivity.
  - rewrite Ha, (edit_date_roundtrip _ Hd). now destruct p.
Qed.

(** C20: The date the user picks is the date stored.  When the native
    date input of the add form changes to a canonical date [v] (what a
    date picker gives, years 1000..9999), the display input shows [v] as
    [formatDisplayDate v]; submitting the form with an amount then appends
    one record, at the end of the list, whose date is [v]. *)
Theorem picked_date_stored (st : state) (v : string) :
  canonical_or_empty v -> v <> "" -> trim (input_amount (add_form st)) <> "" ->
  input_date (add_form (handle (PickAddDate v) st)) = formatDisplayDate v
  /\ exists p, payments (run [PickAddDate v; SubmitAdd] st) = (payments st ++ [p])%list
               /\ date p = v.
Proof.
  intros Hc Hne Ha. split; [exact (sync_canonical v Hc)|].
  cbn [run fold_left handle]. unfold submitAdd, map_add_form, pick_date, with_date, with_native.
  app_simpl. cbn [input_amount input_date input_native].
  apply String.eqb_neq in Ha as Hb. rewrite Hb. unfold addPayment_h, closeAddSheet, map_ov.
  app_unfold. app_simpl. unfold addPayment. eexists. split; [reflexivity|]. cbn [date].
  unfold form_date. rewrite str_or_nonempty by exact Hne. exact (stored_canonical v Hc).
Qed.

(** C13: Ids stay distinct over any run of the listeners: from a list whose
    ids are distinct integers of [1..k], after a run with [a] submits of
    the add form they are distinct integers of [1..k + a], as long as
    [k + a] stays below [2^53 - 1]. *)
Theorem ids_distinct_run (es : list event) (st : state) (k : Z) :
  (0 <= k)%Z -> (k + count_adds es < 2 ^ 53 - 1)%Z -> ids_ok k (payments st) ->
  ids_ok (k + count_adds es) (payments (run es st)).
Proof.
  unfold run. revert st k. induction es as [|e es IH]; intros st k Hk Hlt Hok;
    cbn [fold_left count_adds fold_right] in *; [now rewrite Z.add_0_r|].
  fold (count_adds es) in *. assert (Ha : (0 <= adds e)%Z) by (destruct e; simpl; lia).
  pose proof (count_adds_nonneg es) as Hc.
  replace (k + (adds e + count_adds es))%Z with (k + adds e + count_adds es)%Z by lia.
  apply IH; [lia | lia | apply handle_ids_ok; [lia | lia | exact Hok]].
Qed.

End Properties.

(** ** Witnesses *)

Lemma start_reachable : @reachable (local_storage always_fits) None start_state.
Proof. apply reach_init. vm_compute. reflexivity. Qed.

Lemma run_reachable (es : list event) :
  @reachable (local_storage always_fits) None (@run (local_storage always_fits) es start_state).
Proof. apply reachable_run, start_reachable. Qed.

Lemma reachable_shows_totals_witness :
  let st := @run (local_storage always_fits) spec_events start_state in
  total_paid (shown st) = "200" /\ total_month (shown st) = "1"
  /\ cards (shown st) = [mk_card "2" "200" "20/02/2024"].
Proof.
  cbv zeta.
  destruct (reachable_shows_totals None _ (run_reachable spec_events)) as (H1 & H2 & H3).
  rewrite H1, H2, H3. vm_compute. repeat split.
Defined.

Lemma reachable_confirm_consistent_witness :
  let st := @run (local_storage always_fits) (firstn 9 spec_events) start_state in
  confirm_open (ov st) = true /\ confirm_ok (ov st) <> None.
Proof.
  cbv zeta. pose proof (reachable_confirm_consistent None _ (run_reachable (firstn 9 spec_events))) as H.
  assert (Ho : confirm_open (ov (@run (local_storage always_fits) (firstn 9 spec_events) start_state))
               = true) by (vm_compute; reflexivity).
  split; [exact Ho | now apply H].
Defined.

Lemma reload_gives_payments_witness :
  let st := @run (local_storage always_fits) spec_events start_state in
  load (slot st) = Loaded (payments st).
Proof.
  cbv zeta.
  assert (Hp : payments (@run (local_storage always_fits) spec_events start_state)
               = [mk_payment (of_Z 2) (of_Z 200) "2024-02-20"]) by (vm_compute; reflexivity).
  refine (@reload_gives_payments (local_storage always_fits) None
            (@run (local_storage always_fits) spec_events start_state)
            local_storage_reliable (run_reachable spec_events) _).
  rewrite Hp. repeat constructor; reads_back_tac.
Defined.

Lemma ids_removed_only_on_confirm_witness :
  let st := @run (local_storage always_fits) (firstn 9 spec_events) start_state in
  In (of_Z 1) (map id (payments st))
  /\ ~ In (of_Z 1) (map id (payments (@handle (local_storage always_fits) ConfirmOk st)))
  /\ ConfirmOk = ConfirmOk.
Proof.
  cbv zeta.
  assert (H1 : In (of_Z 1) (map id (payments
                 (@run (local_storage always_fits) (firstn 9 spec_events) start_state))))
    by (vm_compute; left; reflexivity).
  assert (H2 : ~ In (of_Z 1) (map id (payments (@handle (local_storage always_fits) ConfirmOk
                 (@run (local_storage always_fits) (firstn 9 spec_events) start_state)))))
    by (vm_compute; intros [H|[]]; discriminate H).
  split; [exact H1 | split; [exact H2 | exact (ids_removed_only_on_confirm _ _ _ H1 H2)]].
Defined.

Lemma delete_card_confirmed_witness :
  let st := @run (local_storage always_fits) (firstn 8 spec_events) start_state in
  nth_error (payments st) 0 = Some (mk_payment (of_Z 1) (of_Z 100) "2024-01-15")
  /\ payments (@run (local_storage always_fits) [DeleteCard 0; ConfirmOk] st)
     = deletePayment "1" (payments st).
Proof.
  cbv zeta.
  assert (H : nth_error (payments (@run (local_storage always_fits) (firstn 8 spec_events)
                                     start_state)) 0
              = Some (mk_payment (of_Z 1) (of_Z 100) "2024-01-15")) by (vm_compute; reflexivity).
  split; [exact H|].
  rewrite (delete_card_confirmed None _ 0 _ (run_reachable (firstn 8 spec_events)) H).
  reflexivity.
Defined.

Lemma delete_all_confirmed_witness :
  let st := @run (local_storage always_fits) (firstn 8 spec_events) start_state in
  payments st <> [] /\ payments (@run (local_storage always_fits) [NavDeleteAll; ConfirmOk] st) = [].
Proof.
  cbv zeta.
  assert (H : payments (@run (local_storage always_fits) (firstn 8 spec_events) start_state) <> [])
    by (vm_compute; discriminate).
  split; [exact H | exact (proj2 (delete_all_confirmed _) H)].
Defined.

Lemma submit_add_spec_witness :
  let st := @run (local_storage always_fits) [NavAdd 19723; TypeAddAmount " 7 "] start_state in
  trim (input_amount (add_form st)) <> ""
  /\ payments (@handle (local_storage always_fits) SubmitAdd st)
     = [mk_payment (of_Z 1) (of_Z 7) "2024-01-01"].
Proof.
  cbv zeta.
  assert (H : trim (input_amount (add_form (@run (local_storage always_fits)
                [NavAdd 19723; TypeAddAmount " 7 "] start_state))) <> "")
    by (vm_compute; discriminate).
  split; [exact H|]. rewrite (proj1 (proj2 (submit_add_spec _) H)). vm_compute. reflexivity.
Defined.

Lemma submit_edit_absent_witness :
  updatePayment "" "" "" [] = None
  /\ payments (@handle (local_storage always_fits) SubmitEdit start_state) = [].
Proof.
  assert (H : updatePayment "" "" "" [] = None) by reflexivity.
  split; [exact H | exact (proj1 (submit_edit_absent (port := local_storage always_fits)
                                    start_state H))].
Defined.

Lemma edit_unchanged_witness :
  let st := @run (local_storage always_fits) (firstn 8 spec_events) start_state in
  let p := mk_payment (of_Z 1) (of_Z 100) "2024-01-15" in
  nth_error (payments st) 0 = Some p
  /\ find (fun x => strict_eq (id x) (js_Number (num_to_string (id p)))) (payments st) = Some p
  /\ or_zero (js_Number (trim (num_to_string (amount p)))) = amount p
  /\ canonical_or_empty (date p)
  /\ payments (@run (local_storage always_fits) [EditCard 0; SubmitEdit] st) = payments st.
Proof.
  cbv zeta.
  set (st := @run (local_storage always_fits) (firstn 8 spec_events) start_state).
  set (p := mk_payment (of_Z 1) (of_Z 100) "2024-01-15").
  assert (H1 : nth_error (payments st) 0 = Some p) by (vm_compute; reflexivity).
  assert (H2 : find (fun x => strict_eq (id x) (js_Number (num_to_string (id p)))) (payments st)
               = Some p) by (vm_compute; reflexivity).
  assert (H3 : or_zero (js_Number (trim (num_to_string (amount p)))) = amount p)
    by (vm_compute; reflexivity).
  assert (H4 : canonical_or_empty (date p)).
  { right. exists 2024%Z, 1%Z, 15%Z. split; [split; [lia|] | split; [lia | reflexivity]].
    split; [lia | apply Z.leb_le; vm_compute; reflexivity]. }
  split; [exact H1 | split; [exact H2 | split; [exact H3 | split; [exact H4 |]]]].
  exact (edit_unchanged None st 0 p (run_reachable (firstn 8 spec_events)) H1 H2 H3 H4).
Defined.

Lemma ids_distinct_run_witness :
  (0 <= 0)%Z /\ (0 + count_adds spec_events < 2 ^ 53 - 1)%Z /\ ids_ok 0 (payments start_state)
  /\ ids_ok (0 + count_adds spec_events)
       (payments (@run (local_storage always_fits) spec_events start_state)).
Proof.
  assert (H1 : (0 <= 0)%Z) by lia.
  assert (H2 : (0 + count_adds spec_events < 2 ^ 53 - 1)%Z) by (vm_compute; reflexivity).
  assert (H3 : ids_ok 0 (payments start_state)) by (exists []; repeat constructor).
  split; [exact H1 | split; [exact H2 | split; [exact H3 |]]].
  exact (ids_distinct_run spec_events start_state 0 H1 H2 H3).
Defined.

(** The scenario of the specification through the listeners: after
    the two additions the page shows [300] for 2 records, after the
    confirmed deletion of the first card [200] for 1, and the slot holds
    the remaining record. *)
Example spec_scenario_ui :
  let st8 := @run (local_storage always_fits) (firstn 8 spec_events) start_state in
  let st := @run (local_storage always_fits) spec_events start_state in
  total_paid (shown st8) = "300" /\ total_month (shown st8) = "2"
  /\ cards (shown st8) = [mk_card "1" "100" "15/01/2024"; mk_card "2" "200" "20/02/2024"]
  /\ total_paid (shown st) = "200" /\ total_month (shown st) = "1"
  /\ payments st = [mk_payment (of_Z 2) (of_Z 200) "2024-02-20"]
  /\ slot st = Some (stringify_payments [mk_payment (of_Z 2) (of_Z 200) "2024-02-20"]).
Proof. vm_compute. repeat split. Qed.

Lemma picked_date_stored_witness :
  canonical_or_empty "2024-03-07" /\ "2024-03-07" <> ""
  /\ trim (input_amount (add_form (map_add_form (with_amount "150") start_state))) <> ""
  /\ input_date (add_form (@handle (local_storage always_fits) (PickAddDate "2024-03-07")
                            (map_add_form (with_amount "150") start_state)))
     = formatDisplayDate "2024-03-07"
  /\ exists p, payments (@run (local_storage always_fits) [PickAddDate "2024-03-07"; SubmitAdd]
                              (map_add_form (with_amount "150") start_state))
               = (payments (map_add_form (with_amount "150") start_state) ++ [p])%list
               /\ date p = "2024-03-07".
Proof.
  assert (Hc : canonical_or_empty "2024-03-07").
  { right. exists 2024%Z, 3%Z, 7%Z. split; [exact valid_2024_03_07|]. split; [lia|].
    reflexivity. }
  assert (Hn : "2024-03-07" <> "") by discriminate.
  assert (Ha : trim (input_amount (add_form (map_add_form (with_amount "150") start_state))) <> "")
    by (vm_compute; discriminate).
  split; [exact Hc|]. split; [exact Hn|]. split; [exact Ha|].
  exact (picked_date_stored _ _ Hc Hn Ha).
Defined.

End App.
