(* ===== verification/Render.v ===== *)
(** * The markup of [render] in [src/www/app.js] (lines 213-248)

    [render()] writes the summary texts and, into [#paymentList], either
    the item "No payments yet" or one [<li>] per record, built by the
    template literal of lines 225-232 and joined with [join('')].  The
    page state of [App.v] keeps of that markup only the [card] of each
    record (its [data-id], amount text and display date), which the edit
    and delete listeners of lines 236-247 read back through [dataset.id].

    This file models the markup itself ([card_html], [list_html], the two
    SVG icons) and a reader of it ([read_list]): the attribute values and
    the text of each [<span>] as the DOM exposes them, for markup without
    character references.  Theorems: the markup of a list reads back as the
    cards of [render_view], numbered from 1, when no date holds [<], [&] or
    a double quote; every date the forms store is such a date, so along
    every run from such a slot the markup carries exactly the cards the
    listeners use.  A date read from the slot is inserted unescaped: one
    with [<] in it is markup, which is outside what the reader models. *)

From Stdlib Require Import ZArith String Ascii List Bool Lia.
From Corelib Require Import SpecFloat.
From S2P Require Import Prelude JsString Calendar Dates JsNumber SafeInt Payments Storage App.
Import ListNotations.

Module Render.

Import StrBuiltins JsNum DateUtil Store Persist App.
Local Open Scope string_scope.

(** ** The template of lines 219-234 *)

Definition quot : ascii := "034"%char.
Definition newline : ascii := "010"%char.

(** [s] in double quotes, as an attribute value. *)
Definition qt (s : string) : string := String quot (s ++ String quot "").

(** A new line of the template literal indented by [k] spaces. *)
Definition line (k : nat) (s : string) : string := String newline (repeat_char k " " ++ s).

Definition svg_open : string :=
  "<svg viewBox=" ++ qt "0 0 24 24" ++ " fill=" ++ qt "none" ++ " stroke="
  ++ qt "currentColor" ++ " stroke-width=" ++ qt "2" ++ ">".

Definition svg_path (d : string) : string := "<path d=" ++ qt d ++ "/>".

(** [editSvg] (lines 221-222). *)
Definition editSvg : string :=
  svg_open ++ svg_path "M11 4H4a2 2 0 0 0-2 2v14a2 2 0 0 0 2 2h14a2 2 0 0 0 2-2v-7"
  ++ svg_path "M18.5 2.5a2.12 2.12 0 0 1 3 3L12 15l-4 1 1-4 9.5-9.5z" ++ "</svg>".

(** [delSvg] (lines 223-224). *)
Definition delSvg : string :=
  svg_open
  ++ svg_path "M3 6h18M8 6V4a2 2 0 0 1 2-2h4a2 2 0 0 1 2 2v2m3 0v14a2 2 0 0 1-2 2H7a2 2 0 0 1-2-2V6h14z"
  ++ svg_path "M10 11v6M14 11v6" ++ "</svg>".

(** [${i + 1}]: the index [i] of [map] is a number, [+ 1] a binary64
    addition, and the template converts with [Number::toString]. *)
Definition index_text (i : nat) : string := num_to_string (num_add (of_Z (Z.of_nat i)) (of_Z 1)).

(** A button of the card (lines 230-231). *)
Definition card_button (cls pid action label svg : string) : string :=
  "<button type=" ++ qt "button" ++ " class=" ++ qt cls ++ " data-id=" ++ qt pid
  ++ " data-action=" ++ qt action ++ " aria-label=" ++ qt label ++ ">" ++ svg ++ "</button>".

(** The template literal of lines 225-232 for the record [p] at index [i]. *)
Definition card_html (i : nat) (p : payment) : string :=
  let pid := num_to_string (id p) in
  line 8 ("<li class=" ++ qt "payment-card" ++ " data-id=" ++ qt pid ++ ">")
  ++ line 10 ("<span class=" ++ qt "index" ++ ">" ++ index_text i ++ ".</span>")
  ++ line 10 ("<span class=" ++ qt "amount" ++ ">" ++ num_to_string (amount p) ++ "</span>")
  ++ line 10 ("<span class=" ++ qt "date" ++ ">" ++ formatDisplayDate (date p) ++ "</span>")
  ++ line 10 (card_button "btn-edit" pid "edit" "Edit" editSvg)
  ++ line 10 (card_button "btn-delete" pid "delete" "Delete" delSvg)
  ++ line 8 "</li>".

(** [payments.map((p, i) => ...).join('')] from index [i]. *)
Fixpoint cards_html (i : nat) (ps : list payment) : string :=
  match ps with
  | [] => ""
  | p :: rest => card_html i p ++ cards_html (S i) rest
  end.

(** The item of line 216. *)
Definition empty_item : string :=
  "<li class=" ++ qt "payment-list-empty" ++ ">No payments yet. Use Add from the menu.</li>".

(** [el.paymentList.innerHTML] after [render()] (lines 215-234). *)
Definition list_html (ps : list payment) : string :=
  match ps with
  | [] => empty_item
  | _ => cards_html 0 ps
  end.

(** ** Reading the markup back

    What the DOM exposes of a card: the [data-id] attributes (read by
    [dataset.id], lines 238 and 244) and the text of the three spans.  An
    attribute value ends at a double quote and a text at [<]; the reader
    handles no character references, so a field holding [&] is refused. *)

(** A character that neither ends a field nor starts a reference. *)
Definition inert (c : ascii) : bool :=
  negb (Ascii.eqb c "<") && negb (Ascii.eqb c "&") && negb (Ascii.eqb c quot).

Definition no_amp (s : string) : bool := str_forall (fun c => negb (Ascii.eqb c "&")) s.

(** The text of [s] up to the first [stop], and the rest from [stop] on. *)
Fixpoint read_until (stop : ascii) (s : string) : string * string :=
  match s with
  | EmptyString => (EmptyString, EmptyString)
  | String c r =>
      if Ascii.eqb c stop then (EmptyString, s)
      else let '(a, b) := read_until stop r in (String c a, b)
  end.

(** Markup made of fixed pieces with a field after each: the piece, and
    the character that ends the field after it. *)
Fixpoint fill (pieces : list (string * ascii)) (last : string) (fields : list string) : string :=
  match pieces, fields with
  | (l, _) :: ps, h :: hs => l ++ h ++ fill ps last hs
  | [], _ => last
  | _ :: _, [] => ""
  end.

(** Reads the fields of [fill pieces last] off [s], and the rest of [s]. *)
Fixpoint read_fields (pieces : list (string * ascii)) (last : string) (s : string)
  : option (list string * string) :=
  match pieces with
  | [] => option_map (fun r => ([], r)) (strip_prefix last s)
  | (l, c) :: ps =>
      match strip_prefix l s with
      | Some r =>
          let '(h, r') := read_until c r in
          option_map (fun '(hs, r'') => (h :: hs, r'')) (read_fields ps last r')
      | None => None
      end
  end.

Definition starts_with (c : ascii) (s : string) : bool :=
  match s with
  | String d _ => Ascii.eqb c d
  | EmptyString => false
  end.

Definition head_piece (pieces : list (string * ascii)) (last : string) : string :=
  match pieces with
  | [] => last
  | (l, _) :: _ => l
  end.

(** Every field is followed by a piece that starts with its end mark. *)
Fixpoint stops_ok (pieces : list (string * ascii)) (last : string) : bool :=
  match pieces with
  | [] => true
  | (_, c) :: ps => starts_with c (head_piece ps last) && stops_ok ps last
  end.

(** The template of [card_html] cut at its six fields. *)
Definition card_pieces : list (string * ascii) :=
  [(String newline (repeat_char 8 " " ++ "<li class=" ++ qt "payment-card" ++ " data-id="
      ++ String quot ""), quot);
   (String quot (">" ++ line 10 ("<span class=" ++ qt "index" ++ ">")), "<"%char);
   ("</span>" ++ line 10 ("<span class=" ++ qt "amount" ++ ">"), "<"%char);
   ("</span>" ++ line 10 ("<span class=" ++ qt "date" ++ ">"), "<"%char);
   ("</span>" ++ line 10 ("<button type=" ++ qt "button" ++ " class=" ++ qt "btn-edit"
      ++ " data-id=" ++ String quot ""), quot);
   (String quot (" data-action=" ++ qt "edit" ++ " aria-label=" ++ qt "Edit" ++ ">" ++ editSvg
      ++ "</button>" ++ line 10 ("<button type=" ++ qt "button" ++ " class=" ++ qt "btn-delete"
      ++ " data-id=" ++ String quot "")), quot)].

Definition card_last : string :=
  String quot (" data-action=" ++ qt "delete" ++ " aria-label=" ++ qt "Delete" ++ ">" ++ delSvg
    ++ "</button>" ++ line 8 "</li>").

(** The number the [k]-th card shows: [k + 1] and a full stop. *)
Definition index_label (k : nat) : string := num_to_string (of_Z (Z.of_nat k + 1)) ++ ".".

(** The [k]-th card at the start of [s]: the three [data-id] values agree,
    the index is [k + 1], and the card the listeners see. *)
Definition read_card (k : nat) (s : string) : option (card * string) :=
  match read_fields card_pieces card_last s with
  | Some ([a; b; c; d; e; f], r) =>
      if String.eqb a e && String.eqb a f && String.eqb b (index_label k)
         && forallb no_amp [a; b; c; d]
      then Some (mk_card a c d, r) else None
  | _ => None
  end.

Fixpoint read_cards (fuel k : nat) (s : string) : option (list card) :=
  match s with
  | EmptyString => Some []
  | _ =>
      match fuel with
      | O => None
      | S f =>
          match read_card k s with
          | Some (c, r) => option_map (cons c) (read_cards f (S k) r)
          | None => None
          end
      end
  end.

(** The cards of the list's markup; [None] for any other markup. *)
Definition read_list (s : string) : option (list card) :=
  if String.eqb s empty_item then Some [] else read_cards (String.length s) 0 s.

(** The fields [card_html] fills in, in the order of [card_pieces]. *)
Definition card_fields (i : nat) (p : payment) : list string :=
  let pid := num_to_string (id p) in
  [pid; index_text i ++ "."; num_to_string (amount p); formatDisplayDate (date p); pid; pid].

(** A record whose date text needs no escaping in the markup. *)
Definition date_inert (p : payment) : bool := str_forall inert (date p).

(** A slot whose records all have such dates (an absent slot, or one that
    [save] wrote from the records of the forms). *)
Definition slot_inert `{StoragePort} (raw : option string) : Prop :=
  forall ps, port_load raw = Loaded ps -> forallb date_inert ps = true.

(** ** Lemmas on strings *)

Lemma strip_prefix_app (p s : string) : strip_prefix p (p ++ s) = Some s.
Proof. induction p as [|c p IH]; simpl; [reflexivity|]. now rewrite Ascii.eqb_refl. Qed.

Lemma read_until_app (c : ascii) (h t : string) :
  str_forall (fun x => negb (Ascii.eqb x c)) h = true -> read_until c (h ++ String c t) = (h, String c t).
Proof.
  induction h as [|x h IH]; simpl; intros H; [now rewrite Ascii.eqb_refl|].
  apply andb_prop in H as [Hx Hh]. apply negb_true_iff in Hx. now rewrite Hx, IH.
Qed.

Lemma str_forall_impl (p q : ascii -> bool) (s : string) :
  (forall c, p c = true -> q c = true) -> str_forall p s = true -> str_forall q s = true.
Proof.
  intros Hpq. induction s as [|c s IH]; simpl; [reflexivity|].
  intros H. apply andb_prop in H as [Hc Hs]. now rewrite Hpq, IH.
Qed.

Lemma str_forall_substring (p : ascii -> bool) (n m : nat) (s : string) :
  str_forall p s = true -> str_forall p (substring n m s) = true.
Proof.
  revert n m. induction s as [|c s IH]; intros n m H; destruct n as [|n]; [destruct m| |destruct m|];
    simpl in *; auto; apply andb_prop in H as [Hc Hs]; rewrite ?Hc; simpl; auto.
Qed.

Lemma str_forall_repeat (p : ascii -> bool) (n : nat) (c : ascii) :
  p c = true -> str_forall p (repeat_char n c) = true.
Proof. intros H. induction n as [|n IH]; simpl; [reflexivity|]. now rewrite H, IH. Qed.

(** ** Characters of the numbers and dates the cards show *)

Section Chars.

Variable p : ascii -> bool.
Hypothesis p_digit : forall c, is_digit c = true -> p c = true.

Lemma str_forall_nat_digits (f : nat) (n : Z) (acc : string) :
  str_forall p acc = true -> str_forall p (nat_digits f n acc) = true.
Proof.
  revert n acc. induction f as [|f IH]; intros n acc H; simpl; [exact H|].
  assert (Hd : p (digit_char (n mod 10)) = true)
    by (apply p_digit, digit_char_is_digit; pose proof (Z.mod_pos_bound n 10); lia).
  destruct (n <? 10)%Z; [|apply IH]; simpl; now rewrite Hd, H.
Qed.

Hypothesis p_minus : p "-"%char = true.

Lemma str_forall_int_to_string (z : Z) : str_forall p (int_to_string z) = true.
Proof.
  unfold int_to_string. destruct (z <? 0)%Z; [cbn [str_forall]; rewrite p_minus|];
    apply str_forall_nat_digits; reflexivity.
Qed.

Lemma str_forall_pad2 (n : Z) : str_forall p (pad2 n) = true.
Proof.
  unfold pad2, pad_start. rewrite str_forall_app, str_forall_repeat, str_forall_int_to_string;
    [reflexivity | apply p_digit; reflexivity].
Qed.

End Chars.

Lemma digit_inert (c : ascii) : is_digit c = true -> inert c = true.
Proof.
  unfold is_digit, inert. intros H. apply andb_prop in H as [H1 H2].
  apply Nat.leb_le in H1, H2.
  destruct (Ascii.eqb_spec c "<") as [->|]; [cbn in H2; lia|].
  destruct (Ascii.eqb_spec c "&") as [->|]; [cbn in H1; lia|].
  destruct (Ascii.eqb_spec c quot) as [->|]; [cbn in H1; lia | reflexivity].
Qed.

#[local] Hint Resolve digit_inert : core.

Lemma int_to_string_inert (z : Z) : str_forall inert (int_to_string z) = true.
Proof. apply str_forall_int_to_string; auto. Qed.

Lemma pad2_inert (n : Z) : str_forall inert (pad2 n) = true.
Proof. apply str_forall_pad2; auto. Qed.

(** Splits [str_forall inert] over the pieces of a string. *)
Ltac inert_simpl :=
  repeat progress (rewrite ?str_forall_app, ?pad2_inert, ?int_to_string_inert; cbn [str_forall]);
  try reflexivity.

(** Every character [Number::toString] writes is a digit, a sign, [.],
    [e] or a letter of [NaN] and [Infinity]. *)
Lemma num_to_string_inert (x : num) : str_forall inert (num_to_string x) = true.
Proof.
  destruct x as [s|[]| |s m e]; try reflexivity. unfold num_to_string.
  destruct (shortest_digits m e) as [[d k] n]. unfold format_decimal, zeros.
  assert (Hd := int_to_string_inert d). assert (He := int_to_string_inert (Z.abs (n - 1))).
  assert (Hz : forall j, str_forall inert (repeat_char j "0") = true)
    by (intros j; apply str_forall_repeat; reflexivity).
  rewrite str_forall_app. destruct s; simpl;
    repeat match goal with |- context [if ?b then _ else _] => destruct b end; simpl;
    rewrite ?str_forall_app, ?Hd, ?Hz, ?He, ?str_forall_substring; simpl;
    rewrite ?str_forall_app, ?Hd, ?Hz, ?He, ?str_forall_substring; auto.
Qed.

Lemma formatDate_inert (s : string) : str_forall inert s = true -> str_forall inert (formatDate s) = true.
Proof.
  intros H. unfold formatDate. destruct (String.eqb s ""); [reflexivity|].
  destruct (parseLocalDate s) as [[t|]|]; [|exact H|exact H].
  unfold locale_en_gb. inert_simpl.
Qed.

(** The strings [/^\d{4}-\d{2}-\d{2}$/] accepts are digits and dashes. *)
Lemma ymd_shape_inert (x : string) : ymd_shape x = true -> str_forall inert x = true.
Proof.
  intros H. apply (str_forall_impl (fun c => is_digit c || Ascii.eqb c "-")).
  - intros c Hc. apply orb_prop in Hc as [Hc|Hc]; [now apply digit_inert|].
    now apply Ascii.eqb_eq in Hc as ->.
  - unfold ymd_shape in H. do 10 (destruct x as [|? x]; [discriminate|]).
    destruct x; [|discriminate]. cbn [list_ascii_of_string] in H. cbn [str_forall].
    repeat match goal with Hb : _ && _ = true |- _ => apply andb_prop in Hb as [? ?] end.
    repeat match goal with Hb : _ = true |- _ => rewrite Hb; clear Hb end.
    now rewrite ?orb_true_r.
Qed.

(** Whatever the user types or picks, the date a submit handler stores
    is digits and dashes or empty. *)
Lemma submit_date_inert (s : string) : str_forall inert (stored_date (submit_date_str s)) = true.
Proof.
  enough (H : str_forall inert (submit_date_str s) = true).
  { unfold stored_date. destruct (String.eqb _ ""); [reflexivity|].
    now apply str_forall_substring. }
  unfold submit_date_str. destruct (String.eqb s ""); [reflexivity|].
  destruct (parseLocalDate s) as [[t|]|].
  - unfold toYMD, ymd_string. inert_simpl.
  - destruct (ymd_shape (slice0 10 s)) eqn:E; [now apply ymd_shape_inert | reflexivity].
  - destruct (ymd_shape (slice0 10 s)) eqn:E; [now apply ymd_shape_inert | reflexivity].
Qed.

(** ** The markup reads back *)

Lemma fill_head (ps : list (string * ascii)) (last : string) (hs : list string) (rest : string) :
  length ps = length hs -> exists t, fill ps last hs ++ rest = head_piece ps last ++ t.
Proof.
  destruct ps as [|[l c] ps], hs as [|h hs]; simpl; intros H; try discriminate;
    eexists; now rewrite ?string_app_assoc.
Qed.

(** Each field without its end mark, the reader returns the fields and
    the text after the markup. *)
Lemma read_fields_fill (ps : list (string * ascii)) (last : string) (hs : list string) (rest : string) :
  Forall2 (fun pc h => str_forall (fun x => negb (Ascii.eqb x (snd pc))) h = true) ps hs ->
  stops_ok ps last = true ->
  read_fields ps last (fill ps last hs ++ rest) = Some (hs, rest).
Proof.
  induction 1 as [|[l c] h ps hs Hh H2 IH]; simpl; intros Hs.
  - now rewrite strip_prefix_app.
  - apply andb_prop in Hs as [Hc Hs].
    destruct (fill_head ps last hs rest) as [t Ht]; [exact (Forall2_length H2)|].
    destruct (head_piece ps last) as [|c' p'] eqn:E; [discriminate|].
    simpl in Hc. apply Ascii.eqb_eq in Hc. subst c'.
    rewrite !string_app_assoc, strip_prefix_app, Ht. simpl. rewrite read_until_app by exact Hh.
    change (String c (p' ++ t)) with (String c p' ++ t). rewrite <- Ht, IH by exact Hs.
    reflexivity.
Qed.

Lemma card_html_fill (i : nat) (p : payment) :
  card_html i p = fill card_pieces card_last (card_fields i p).
Proof.
  unfold card_html, card_fields, card_pieces, card_last, card_button, line. cbn [fill].
  generalize (num_to_string (id p)), (index_text i), (num_to_string (amount p)),
    (formatDisplayDate (date p)). intros a b c d.
  unfold qt. autorewrite with jsdb. simpl. autorewrite with jsdb. reflexivity.
Qed.

Lemma inert_not (c d : ascii) :
  inert c = true -> d = "<"%char \/ d = "&"%char \/ d = quot -> negb (Ascii.eqb c d) = true.
Proof.
  unfold inert. intros H Hd. apply andb_prop in H as [H H3]. apply andb_prop in H as [H1 H2].
  destruct Hd as [ -> | [ -> | -> ] ]; assumption.
Qed.

Lemma fields_inert (i : nat) (p : payment) :
  date_inert p = true -> Forall (fun h => str_forall inert h = true) (card_fields i p).
Proof.
  intros Hd. unfold card_fields, index_text.
  repeat constructor; rewrite ?str_forall_app, ?num_to_string_inert; try reflexivity.
  now apply formatDate_inert.
Qed.

(** The fields of a card with an inert date end at their end marks. *)
Lemma card_fields_stop (i : nat) (p : payment) :
  date_inert p = true ->
  Forall2 (fun pc h => str_forall (fun x => negb (Ascii.eqb x (snd pc))) h = true)
    card_pieces (card_fields i p).
Proof.
  intros Hd. pose proof (fields_inert i p Hd) as H. unfold card_fields in *.
  rewrite Forall_forall in H.
  repeat apply Forall2_cons; try apply Forall2_nil; cbn [snd];
    (eapply str_forall_impl; [|apply H; simpl; tauto]); intros x Hx; apply inert_not; auto.
Qed.

Lemma inert_no_amp (h : string) : str_forall inert h = true -> no_amp h = true.
Proof. apply str_forall_impl. intros x Hx. apply inert_not; auto. Qed.

Lemma fields_no_amp (i : nat) (p : payment) :
  date_inert p = true -> forallb no_amp (firstn 4 (card_fields i p)) = true.
Proof.
  intros Hd. pose proof (fields_inert i p Hd) as H. rewrite Forall_forall in H.
  unfold card_fields in *. cbn [firstn forallb].
  rewrite !inert_no_amp by (apply H; simpl; tauto). reflexivity.
Qed.

(** The index the [k]-th card shows is [k + 1], for [k + 1] below [2^53]. *)
Lemma index_text_label (k : nat) :
  (Z.of_nat k + 1 < 2 ^ 53)%Z -> index_text k ++ "." = index_label k.
Proof.
  intros H. unfold index_text, index_label. rewrite SafeInt.num_add_of_Z; [reflexivity|..];
    unfold SafeInt.safe; lia.
Qed.

Lemma read_card_html (k : nat) (p : payment) (rest : string) :
  date_inert p = true -> (Z.of_nat k + 1 < 2 ^ 53)%Z ->
  read_card k (card_html k p ++ rest) = Some (card_of p, rest).
Proof.
  intros Hd Hk. pose proof (fields_no_amp k p Hd) as Ha. unfold read_card.
  rewrite card_html_fill, read_fields_fill by (exact (card_fields_stop k p Hd) || reflexivity).
  unfold card_fields in *. cbn [firstn] in Ha. rewrite Ha, index_text_label, !String.eqb_refl by exact Hk.
  reflexivity.
Qed.

Lemma card_html_head (k : nat) (p : payment) : exists t, card_html k p = String newline t.
Proof. eexists. reflexivity. Qed.

Lemma length_cards_html (k : nat) (ps : list payment) :
  length ps <= String.length (cards_html k ps).
Proof.
  revert k. induction ps as [|p ps IH]; intros k; cbn [cards_html length]; [lia|].
  destruct (card_html_head k p) as [t ->]. cbn [append String.length]. rewrite string_length_app.
  specialize (IH (S k)). lia.
Qed.

Lemma read_cards_step (f k : nat) (p : payment) (r : string) :
  read_cards (S f) k (card_html k p ++ r)
  = match read_card k (card_html k p ++ r) with
    | Some (c, r') => option_map (cons c) (read_cards f (S k) r')
    | None => None
    end.
Proof. destruct (card_html_head k p) as [t Ht]. now rewrite Ht. Qed.

Lemma read_cards_html (ps : list payment) (k fuel : nat) :
  forallb date_inert ps = true -> (Z.of_nat (k + length ps) < 2 ^ 53)%Z -> length ps <= fuel ->
  read_cards fuel k (cards_html k ps) = Some (map card_of ps).
Proof.
  revert k fuel. induction ps as [|p ps IH]; intros k fuel Hd Hk Hf; [destruct fuel; reflexivity|].
  apply andb_prop in Hd as [Hp Hd]. cbn [length] in *. destruct fuel as [|f]; [lia|].
  cbn [cards_html]. rewrite read_cards_step, read_card_html by (exact Hp || lia).
  rewrite IH by (exact Hd || lia). reflexivity.
Qed.

Lemma cards_render_view (ps : list payment) : cards (render_view ps) = map card_of ps.
Proof. unfold render_view. now destruct (getTotals ps). Qed.


Lemma forallb_filter_keep {A} (f g : A -> bool) (l : list A) :
  forallb f l = true -> forallb f (filter g l) = true.
Proof.
  induction l as [|x l IH]; simpl; [reflexivity|]. intros H. apply andb_prop in H as [Hx Hl].
  destruct (g x); simpl; rewrite ?Hx; auto.
Qed.

Lemma update_first_forallb (f : payment -> bool) (key : num) (g : payment -> payment)
    (ps ps' : list payment) :
  (forall p, f (g p) = true) -> forallb f ps = true ->
  update_first key g ps = Some ps' -> forallb f ps' = true.
Proof.
  intros Hg. revert ps'. induction ps as [|p ps IH]; intros ps' H Hu; [discriminate|].
  cbn [update_first forallb] in *. apply andb_prop in H as [Hp Hps].
  destruct (strict_eq (id p) key).
  - injection Hu as <-. cbn [forallb]. now rewrite Hg.
  - apply option_map_some in Hu as (l & Hl & <-). cbn [forallb]. rewrite Hp. now apply IH.
Qed.

Lemma read_list_cons (p : payment) (ps : list payment) :
  read_list (list_html (p :: ps))
  = read_cards (String.length (cards_html 0 (p :: ps))) 0 (cards_html 0 (p :: ps)).
Proof.
  unfold read_list, list_html. replace (String.eqb (cards_html 0 (p :: ps)) empty_item) with false;
    [reflexivity|]. cbn [cards_html]. destruct (card_html_head 0 p) as [t ->]. reflexivity.
Qed.

Section Pages.

Context `{port : StoragePort}.

(** No listener puts a date with [<], [&] or a double quote in [payments]. *)
Lemma handle_dates (e : event) (st : state) :
  forallb date_inert (payments st) = true -> forallb date_inert (payments (handle e st)) = true.
Proof.
  intros H. destruct e; app_unfold; app_cases; try assumption; try reflexivity.
  - now apply forallb_filter_keep.
  - unfold addPayment. rewrite forallb_app, H. cbn [forallb]. unfold date_inert at 1.
    cbn [date]. now rewrite submit_date_inert.
  - match goal with Hu : updatePayment _ _ _ _ = Some _ |- _ => unfold updatePayment in Hu;
      refine (update_first_forallb date_inert _ _ _ _ _ H Hu) end.
    intros p. apply submit_date_inert.
Qed.

Lemma reachable_dates (raw : option string) (st : state) :
  slot_inert raw -> reachable raw st -> forallb date_inert (payments st) = true.
Proof.
  intros Hs. induction 1 as [st Hi|st e _ IH]; [|now apply handle_dates].
  destruct (init_state raw st Hi) as (ps & Hl & Hp & _). rewrite Hp. now apply Hs.
Qed.

(** C15: Refinement of the page state by the markup.  In every state
    reachable from a slot whose dates hold no [<], [&] or double quote,
    the markup [render] writes into [#paymentList] reads back, card by
    card, as the cards of the page state that the edit and delete
    listeners use: the three [data-id] values of the [k]-th card are the
    id of the [k]-th record, its index reads [k + 1], and its spans hold
    the amount and the display date (while there are fewer than [2^53]
    records). *)
Theorem markup_shows_cards (raw : option string) (st : state) :
  slot_inert raw -> reachable raw st -> (Z.of_nat (length (payments st)) < 2 ^ 53)%Z ->
  read_list (list_html (payments st)) = Some (cards (shown st)).
Proof.
  intros Hs Hr Hn. pose proof (reachable_view raw st Hr) as Hv. unfold view_ok in Hv.
  rewrite Hv, cards_render_view. pose proof (reachable_dates raw st Hs Hr) as Hd.
  destruct (payments st) as [|p ps]; [reflexivity|].
  rewrite read_list_cons. apply read_cards_html; [exact Hd | exact Hn | apply length_cards_html].
Qed.

End Pages.

(** C16: Round trip between [render]'s markup and the cards.  The markup
    of a list of fewer than [2^53] records whose dates hold no [<], [&]
    or double quote reads back as the cards of [render_view]; the empty
    list gives the "No payments yet" item, read back as no card. *)
Theorem list_html_reads_back (ps : list payment) :
  forallb date_inert ps = true -> (Z.of_nat (length ps) < 2 ^ 53)%Z ->
  read_list (list_html ps) = Some (cards (render_view ps)).
Proof.
  intros Hd Hn. rewrite cards_render_view. destruct ps as [|p ps]; [reflexivity|].
  rewrite read_list_cons. apply read_cards_html; [exact Hd | exact Hn | apply length_cards_html].
Qed.

(** ** Witnesses *)

Lemma markup_shows_cards_witness :
  read_list (list_html (payments (@run (local_storage always_fits) spec_events start_state)))
  = Some (cards (shown (@run (local_storage always_fits) spec_events start_state))).
Proof.
  apply (@markup_shows_cards (local_storage always_fits) None); [|apply run_reachable|vm_compute; reflexivity].
  intros ps H. vm_compute in H. injection H as <-. reflexivity.
Defined.

Lemma list_html_reads_back_witness :
  forallb date_inert sample_payments = true
  /\ (Z.of_nat (length sample_payments) < 2 ^ 53)%Z
  /\ read_list (list_html sample_payments) = Some (cards (render_view sample_payments)).
Proof.
  split; [reflexivity|]. split; [reflexivity|].
  apply list_html_reads_back; reflexivity.
Defined.

End Render.
